(** * HL-HDF: the node model and the write/update engine

    A shallow embedding of [hlhdf/hlhdf_node.c] and [hlhdf/hlhdf_write.c].

    - C integers ([int], [hid_t], [herr_t], [size_t], [hsize_t]) are [Z];
      the unsigned 64-bit arithmetic of [hsize_t] and [size_t] is wrapped
      explicitly with [wrap64].
    - Pointers to heap buffers are [option loc] ([None] is [NULL]); the
      buffers live in a store ([Memory]) so that ownership and aliasing of
      the buffers of a node and of its copy can be stated.
    - The HDF5 library is an external collaborator: every call the code
      makes to it is a constructor of [H5Call], answered by an engine
      ([H5Engine]) and recorded, in order, in the [calls] log of the
      [World]. *)

From Stdlib Require Import ZArith List Lia Bool Ascii String.
From stdpp Require Import base option list gmap strings.

Local Open Scope Z_scope.

(** ** C scalar types *)

Abbreviation hid_t := Z.
Abbreviation herr_t := Z.
Abbreviation hsize_t := Z.
Abbreviation loc := positive.
Abbreviation cptr := (option loc).

(** [hsize_t] and [size_t] are 64-bit unsigned: products wrap. *)
Definition wrap64 (z : Z) : Z := z mod 2 ^ 64.

(** [H5P_DEFAULT] of the HDF5 headers. *)
Definition H5P_DEFAULT : hid_t := 0.

(** ** Enumerations of [hlhdf_types.h] *)

(** Modelled from the spec: [hlhdf_types.h] is not among the sources. The
    node type is the closed variant {Group, Dataset, Attribute, NamedType,
    Reference} of the data model, plus [UNDEFINED_ID], which
    [newHL_Node] and [doAppendHdf5Attribute] name. *)
Inductive HL_Type :=
| UNDEFINED_ID | ATTRIBUTE_ID | GROUP_ID | DATASET_ID | TYPE_ID | REFERENCE_ID.

(** Modelled from the spec: the lifecycle mark {Created, Original, Changed,
    Selected}. *)
Inductive HL_NodeMark :=
| NMARK_ORIGINAL | NMARK_CREATED | NMARK_CHANGED | NMARK_SELECTED.

(** Modelled from the spec: the data type tag of a node. *)
Inductive HL_DataType := DTYPE_UNDEFINED_ID | HL_SIMPLE | HL_ARRAY.

(** Modelled from the spec: format specifiers (scalar formats, string,
    compound, array, undefined). *)
Inductive HL_FormatSpecifier :=
| HLHDF_UNDEFINED | HLHDF_CHAR | HLHDF_SCHAR | HLHDF_UCHAR | HLHDF_SHORT
| HLHDF_USHORT | HLHDF_INT | HLHDF_UINT | HLHDF_LONG | HLHDF_ULONG
| HLHDF_LLONG | HLHDF_ULLONG | HLHDF_FLOAT | HLHDF_DOUBLE | HLHDF_LDOUBLE
| HLHDF_HSIZE | HLHDF_HSSIZE | HLHDF_HERR | HLHDF_HBOOL
| HLHDF_STRING | HLHDF_COMPOUND | HLHDF_ARRAY.

#[global] Instance HL_Type_eq_dec : EqDecision HL_Type.
Proof. solve_decision. Defined.
#[global] Instance HL_NodeMark_eq_dec : EqDecision HL_NodeMark.
Proof. solve_decision. Defined.
#[global] Instance HL_FormatSpecifier_eq_dec : EqDecision HL_FormatSpecifier.
Proof. solve_decision. Defined.

(** Modelled from the spec: the compression algorithm selector
    none / deflate-with-level / szip. It is a C enumeration, stored in an
    [int]-sized field; the enumerators take the values 0, 1, 2 in the order
    of their declaration. *)
Definition CT_NONE : Z := 0.
Definition CT_ZLIB : Z := 1.
Definition CT_SZLIB : Z := 2.

Record HL_Compression := mkCompression {
  ctype : Z;                 (* [type]: CT_NONE, CT_ZLIB or CT_SZLIB *)
  level : Z;                 (* deflate level *)
  szlib_mask : Z;
  szlib_px_per_block : Z
}.

Record HL_FileCreationProperty := mkFileCreationProperty {
  userblock : Z; sizes_sizeof_size : Z; sizes_sizeof_addr : Z;
  sym_k_ik : Z; sym_k_lk : Z; istore_k : Z; meta_block_size : Z
}.

(** Modelled from the spec: a compound type descriptor is an ordered
    sequence of (fieldName, byteOffset, format, fieldDimensions). *)
Record HL_CompoundTypeAttribute := mkCompoundTypeAttribute {
  attrname : string; offset : Z; attr_format : HL_FormatSpecifier;
  attr_dims : list hsize_t
}.

Record HL_CompoundTypeDescription := mkCompoundTypeDescription {
  hltypename : string; objno : Z * Z; csize : Z;
  attrs : list HL_CompoundTypeAttribute
}.

(** ** The node, [struct _HL_Node] *)

Record HL_Node := mkNode {
  type : HL_Type;
  name : string;
  ndims : Z;
  dims : cptr;
  data : cptr;
  rawdata : cptr;
  format : HL_FormatSpecifier;
  typeId : hid_t;
  dSize : Z;
  rdSize : Z;
  dataType : HL_DataType;
  hdfId : hid_t;
  mark : HL_NodeMark;
  compoundDescription : cptr;
  compression : option HL_Compression
}.

Definition set_type (t : HL_Type) (n : HL_Node) : HL_Node :=
  mkNode t (name n) (ndims n) (dims n) (data n) (rawdata n) (format n)
    (typeId n) (dSize n) (rdSize n) (dataType n) (hdfId n) (mark n)
    (compoundDescription n) (compression n).
Definition set_dimensions (k : Z) (d : cptr) (n : HL_Node) : HL_Node :=
  mkNode (type n) (name n) k d (data n) (rawdata n) (format n)
    (typeId n) (dSize n) (rdSize n) (dataType n) (hdfId n) (mark n)
    (compoundDescription n) (compression n).
Definition set_data (d : cptr) (n : HL_Node) : HL_Node :=
  mkNode (type n) (name n) (ndims n) (dims n) d (rawdata n) (format n)
    (typeId n) (dSize n) (rdSize n) (dataType n) (hdfId n) (mark n)
    (compoundDescription n) (compression n).
Definition set_rawdata (d : cptr) (n : HL_Node) : HL_Node :=
  mkNode (type n) (name n) (ndims n) (dims n) (data n) d (format n)
    (typeId n) (dSize n) (rdSize n) (dataType n) (hdfId n) (mark n)
    (compoundDescription n) (compression n).
Definition set_format (f : HL_FormatSpecifier) (n : HL_Node) : HL_Node :=
  mkNode (type n) (name n) (ndims n) (dims n) (data n) (rawdata n) f
    (typeId n) (dSize n) (rdSize n) (dataType n) (hdfId n) (mark n)
    (compoundDescription n) (compression n).
Definition set_typeId (t : hid_t) (n : HL_Node) : HL_Node :=
  mkNode (type n) (name n) (ndims n) (dims n) (data n) (rawdata n) (format n)
    t (dSize n) (rdSize n) (dataType n) (hdfId n) (mark n)
    (compoundDescription n) (compression n).
Definition set_dSize (s : Z) (n : HL_Node) : HL_Node :=
  mkNode (type n) (name n) (ndims n) (dims n) (data n) (rawdata n) (format n)
    (typeId n) s (rdSize n) (dataType n) (hdfId n) (mark n)
    (compoundDescription n) (compression n).
Definition set_rdSize (s : Z) (n : HL_Node) : HL_Node :=
  mkNode (type n) (name n) (ndims n) (dims n) (data n) (rawdata n) (format n)
    (typeId n) (dSize n) s (dataType n) (hdfId n) (mark n)
    (compoundDescription n) (compression n).
Definition set_dataType (t : HL_DataType) (n : HL_Node) : HL_Node :=
  mkNode (type n) (name n) (ndims n) (dims n) (data n) (rawdata n) (format n)
    (typeId n) (dSize n) (rdSize n) t (hdfId n) (mark n)
    (compoundDescription n) (compression n).
Definition set_hdfId (h : hid_t) (n : HL_Node) : HL_Node :=
  mkNode (type n) (name n) (ndims n) (dims n) (data n) (rawdata n) (format n)
    (typeId n) (dSize n) (rdSize n) (dataType n) h (mark n)
    (compoundDescription n) (compression n).
Definition set_mark (k : HL_NodeMark) (n : HL_Node) : HL_Node :=
  mkNode (type n) (name n) (ndims n) (dims n) (data n) (rawdata n) (format n)
    (typeId n) (dSize n) (rdSize n) (dataType n) (hdfId n) k
    (compoundDescription n) (compression n).
Definition set_compoundDescription (d : cptr) (n : HL_Node) : HL_Node :=
  mkNode (type n) (name n) (ndims n) (dims n) (data n) (rawdata n) (format n)
    (typeId n) (dSize n) (rdSize n) (dataType n) (hdfId n) (mark n)
    d (compression n).
Definition set_compression (c : option HL_Compression) (n : HL_Node) : HL_Node :=
  mkNode (type n) (name n) (ndims n) (dims n) (data n) (rawdata n) (format n)
    (typeId n) (dSize n) (rdSize n) (dataType n) (hdfId n) (mark n)
    (compoundDescription n) c.

(** ** The store of heap buffers *)

(** [bufs] holds the arrays reached through [dims], [data] and [rawdata],
    one cell per array element (an [hsize_t] for [dims], a byte for the
    others); [descs] holds the compound type descriptions. *)
Record Memory := mkMemory {
  bufs : gmap loc (list Z);
  descs : gmap loc HL_CompoundTypeDescription
}.

(** [malloc]: a block that is not in use. Allocation failure is not
    modelled. The fresh cells read 0 until they are written. *)
Definition malloc (n : Z) (m : Memory) : loc * Memory :=
  let p := fresh (dom (bufs m)) in
  (p, mkMemory (<[p := replicate (Z.to_nat n) 0]> (bufs m)) (descs m)).

(** [memcpy(dst, src, n)]. Reading or writing past the end of a block, or
    through [NULL] or a dangling pointer, is undefined ([None]); a copy of
    zero cells touches nothing. *)
Definition memcpy (dst src : cptr) (n : Z) (m : Memory) : option Memory :=
  if n =? 0 then Some m
  else
    match dst, src with
    | Some d, Some s =>
      match bufs m !! d, bufs m !! s with
      | Some bd, Some bs =>
        if (n <=? Z.of_nat (length bd)) && (n <=? Z.of_nat (length bs))
        then Some (mkMemory
                     (<[d := take (Z.to_nat n) bs ++ drop (Z.to_nat n) bd]> (bufs m))
                     (descs m))
        else None
      | _, _ => None
      end
    | _, _ => None
    end.

(** [HLHDF_FREE(x)]: [if (x != NULL) { free(x); x = NULL; }]. In C,
    [free] of a pointer that is not a live block (a dangling pointer, or a
    block already freed through another field) is undefined; here the
    store is left as it is. The statements about functions that free
    therefore carry the hypothesis that the pointers they free are [NULL]
    or live (and, where several are freed, different). *)
Definition HLHDF_FREE (p : cptr) (m : Memory) : Memory :=
  match p with
  | Some q => mkMemory (delete q (bufs m)) (descs m)
  | None => m
  end.

(** The contents behind a pointer; [NULL] has none. *)
Definition contents (m : Memory) (p : cptr) : list Z :=
  match p with
  | Some q => default [] (bufs m !! q)
  | None => []
  end.

(** ** [hlhdf_node.c]: accessors that read the dimensions *)

(** [hsize_t getHL_NodeDimension(HL_Node* node, int index)] *)
Definition getHL_NodeDimension (m : Memory) (node : HL_Node) (index : Z)
  : option hsize_t :=
  if (index <? 0) || (index >=? ndims node) || bool_decide (dims node = None)
  then Some 0
  else
    p ← dims node;
    cells ← bufs m !! p;
    cells !! Z.to_nat index.

(** The [for (i = 0; i < node->ndims; i++) n *= node->dims[i];] loop, with
    [left] the number of iterations still to run. *)
Fixpoint npts_loop (cells : list Z) (left : nat) (i : Z) (n : hsize_t)
  : option hsize_t :=
  match left with
  | O => Some n
  | S k =>
    match cells !! Z.to_nat i with
    | Some d => npts_loop cells k (i + 1) (wrap64 (n * d))
    | None => None
    end
  end.

(** [hsize_t getHL_NodeNumberOfPoints(HL_Node* node)] *)
Definition getHL_NodeNumberOfPoints (m : Memory) (node : HL_Node)
  : option hsize_t :=
  if ndims node =? 0 then Some 1
  else if (0 <? ndims node) && bool_decide (dims node ≠ None) then
    p ← dims node;
    cells ← bufs m !! p;
    npts_loop cells (Z.to_nat (ndims node)) 0 1
  else Some 0.

(** The product of a list of extents, in unbounded arithmetic. *)
Definition product (l : list Z) : Z := fold_right Z.mul 1 l.

(** The representation invariant the node API maintains for [dims]: the
    array, when present, has exactly [ndims] cells
    ([setHL_NodeDimensions] is the only writer of the two fields). *)
Definition dims_ok (m : Memory) (node : HL_Node) : Prop :=
  match dims node with
  | Some p => exists cells, bufs m !! p = Some cells
                            /\ Z.of_nat (length cells) = ndims node
  | None => True
  end.

(** ** The storage engine *)

(** The argument of [H5Awrite]: the data buffer of a node, or the address
    of the local [hobj_ref_t ref] that [H5Rcreate] has just filled. *)
Inductive cbuf := BufData (p : cptr) | BufLocalRef.

Inductive H5S_class := H5S_SCALAR.
Inductive H5P_class := H5P_DATASET_CREATE.

(** Every call of [hlhdf_node.c] and [hlhdf_write.c] into the HDF5
    library, and into the helpers of [hlhdf.c] that wrap it
    ([createHlHdfFile], [openHlHdfFile], [translateCharToDatatype]).
    Property-list arguments that the code always passes as [H5P_DEFAULT]
    are left out; [H5Dcreate] keeps its dataset-creation property list. *)
Inductive H5Call :=
| createHlHdfFile (filename : string) (property : option HL_FileCreationProperty)
| openHlHdfFile (filename : string) (how : string)
| translateCharToDatatype (fmt : HL_FormatSpecifier)
| H5Gopen (loc_id : hid_t) (gname : string)
| H5Gcreate (loc_id : hid_t) (gname : string)
| H5Dopen (loc_id : hid_t) (dname : string)
| H5Dcreate (loc_id : hid_t) (dname : string) (type_id space_id dcpl_id : hid_t)
| H5Dwrite (dset_id type_id : hid_t) (buf : cptr)
| H5Screate (cls : H5S_class)
| H5Screate_simple (rank : Z) (sdims : cptr)
| H5Acreate (loc_id : hid_t) (aname : string) (type_id space_id : hid_t)
| H5Awrite (attr_id type_id : hid_t) (buf : cbuf)
| H5Pcreate (cls : H5P_class)
| H5Pset_chunk (plist : hid_t) (rank : Z) (cdims : cptr)
| H5Pset_deflate (plist : hid_t) (lvl : Z)
| H5Pset_szip (plist : hid_t) (options_mask pixels_per_block : Z)
| H5Tcopy (type_id : hid_t)
| H5Tcommit (loc_id : hid_t) (tname : string) (type_id : hid_t)
| H5Tcommitted (type_id : hid_t)
| H5Rcreate (file_id : hid_t) (target : cptr)
| H5Fclose (id : hid_t)
| H5Gclose (id : hid_t)
| H5Dclose (id : hid_t)
| H5Sclose (id : hid_t)
| H5Aclose (id : hid_t)
| H5Tclose (id : hid_t)
| H5Pclose (id : hid_t).

(** An engine answers each call with an integer (a handle or a status,
    negative on failure) and moves to a new state. *)
Class H5Engine := {
  h5state : Type;
  h5answer : H5Call -> h5state -> Z * h5state;
  H5T_STD_REF_OBJ : hid_t
}.

(** ** Paths and lookup in the node list *)

Record HL_NodeList := mkNodeList {
  filename : string;
  nodes : list HL_Node
}.

(** Modelled from the spec: [extractParentChildName] is not among the
    sources; the parent path is obtained by splitting the node's path on
    its last "/", the empty parent being the root. A path without any "/"
    cannot be split. The two [char[256]] arrays of the callers are taken to
    be long enough for the path. *)
Fixpoint extractParentChildName_str (s : string) : option (string * string) :=
  match s with
  | EmptyString => None
  | String c s' =>
    match extractParentChildName_str s' with
    | Some (p, ch) => Some (String c p, ch)
    | None => if Ascii.eqb c "/"%char then Some (EmptyString, s') else None
    end
  end.

Definition extractParentChildName (node : HL_Node) : option (string * string) :=
  extractParentChildName_str (name node).

(** Modelled from the spec: [getHL_Node] is not among the sources;
    [getNode(list, path) -> node|notFound]. The pointer it returns is the
    position of the first node of that path. *)
Fixpoint getHL_Node_from (l : list HL_Node) (nodeName : string) (i : nat)
  : option nat :=
  match l with
  | [] => None
  | n :: l' => if String.eqb (name n) nodeName then Some i
               else getHL_Node_from l' nodeName (S i)
  end.

Definition getHL_Node (l : list HL_Node) (nodeName : string) : option nat :=
  getHL_Node_from l nodeName 0.

(** [node->hdfId] for the parent pointer. The callers dereference it only
    when the parent name is not empty, and then the lookup has succeeded. *)
Definition parent_hdfId (parentNode : option HL_Node) : hid_t :=
  match parentNode with
  | Some p => hdfId p
  | None => -1
  end.

Section Engine.
Context {E : H5Engine}.

(** ** The state of the program: heap, engine, and the log of engine calls *)

Record World := mkWorld {
  mem : Memory;
  h5st : h5state;
  calls : list H5Call
}.

Definition M (A : Type) : Type := World -> A * World.
Definition ret {A} (a : A) : M A := fun w => (a, w).
Definition bind {A B} (c : M A) (k : A -> M B) : M B :=
  fun w => let (a, w') := c w in k a w'.

Notation "'let*' x := c 'in' k" := (bind c (fun x => k))
  (at level 10, x pattern, c at level 100, k at level 200).
Notation "c ;;; k" := (bind c (fun _ => k))
  (at level 100, k at level 200, right associativity).

(** One call into the engine. *)
Definition h5 (c : H5Call) : M Z :=
  fun w => let (r, s) := h5answer c (h5st w) in
           (r, mkWorld (mem w) s (calls w ++ [c])).

(** Modelled from the spec: the close macros of
    [hlhdf_defines_private.h], which is not among the sources: a handle is
    closed when it is valid, [if (x >= 0) { H5Xclose(x); x = -1; }]. *)
Definition HL_H5_CLOSE (close : hid_t -> H5Call) (x : hid_t) : M unit :=
  if 0 <=? x then (h5 (close x) ;;; ret tt) else ret tt.
Definition HL_H5F_CLOSE := HL_H5_CLOSE H5Fclose.
Definition HL_H5G_CLOSE := HL_H5_CLOSE H5Gclose.
Definition HL_H5D_CLOSE := HL_H5_CLOSE H5Dclose.
Definition HL_H5S_CLOSE := HL_H5_CLOSE H5Sclose.
Definition HL_H5A_CLOSE := HL_H5_CLOSE H5Aclose.
Definition HL_H5T_CLOSE := HL_H5_CLOSE H5Tclose.
Definition HL_H5P_CLOSE := HL_H5_CLOSE H5Pclose.

(** ** [hlhdf_node.c]: construction and copy *)

(** [HL_Node* newHL_Node(const char* name)] *)
Definition newHL_Node (nm : option string) : option HL_Node :=
  match nm with
  | None => None
  | Some s =>
    Some (mkNode UNDEFINED_ID s 0 None None None HLHDF_UNDEFINED (-1) 0 0
            DTYPE_UNDEFINED_ID (-1) NMARK_CREATED None None)
  end.

(** [int setHL_NodeDimensions(HL_Node* node, int ndims, hsize_t* dims)];
    [None] when the copy of the caller's array is undefined. *)
Definition setHL_NodeDimensions (node : HL_Node) (nd : Z) (ds : cptr)
    (m : Memory) : option (Z * HL_Node * Memory) :=
  '(tmpdims, m1) ←
    (if (0 <? nd) && bool_decide (ds ≠ None) then
       let '(p, m') := malloc nd m in
       m'' ← memcpy (Some p) ds nd m';
       Some (Some p, m'')
     else Some (None, m));
  let m2 := HLHDF_FREE (dims node) m1 in
  Some (1, set_dimensions nd tmpdims node, m2).

(** Modelled from the spec: [copyHL_CompoundTypeDescription] is not among
    the sources; [copy() -> new descriptor], a deep duplicate of all
    fields with an independent lifetime, and nothing for no descriptor. *)
Definition copyHL_CompoundTypeDescription (d : cptr) (m : Memory)
  : option (cptr * Memory) :=
  match d with
  | None => Some (None, m)
  | Some q =>
    v ← descs m !! q;
    let p := fresh (dom (descs m)) in
    Some (Some p, mkMemory (bufs m) (<[p := v]> (descs m)))
  end.

(** [HL_Node* copyHL_Node(HL_Node* node)]; the outer [None] is undefined
    behaviour (a [memcpy] out of bounds), the inner one is [NULL]. The
    function does not assign [retv->compression], which keeps the [NULL]
    of [newHL_Node]. *)
Definition copyHL_Node (node : option HL_Node) (w : World)
  : option (option HL_Node * World) :=
  match node with
  | None => Some (None, w)
  | Some node =>
    match newHL_Node (Some (name node)) with
    | None => Some (None, w)
    | Some retv =>
      '(st1, retv, m) ← setHL_NodeDimensions retv (ndims node) (dims node) (mem w);
      if st1 =? 0 then Some (Some retv, mkWorld m (h5st w) (calls w)) else
      let retv := set_type (type node) retv in
      let retv := set_dSize (dSize node) retv in
      let retv := set_rdSize (rdSize node) retv in
      '(st2, retv, m) ← setHL_NodeDimensions retv (ndims node) (dims node) m;
      if st2 =? 0 then Some (Some retv, mkWorld m (h5st w) (calls w)) else
      npts ← getHL_NodeNumberOfPoints m retv;
      let nbytes := wrap64 (npts * dSize retv) in
      let '(pd, m) := malloc nbytes m in
      let retv := set_data (Some pd) retv in
      m ← memcpy (data retv) (data node) nbytes m;
      '(retv, m) ←
        (if bool_decide (rawdata node ≠ None) then
           let nraw := wrap64 (npts * rdSize retv) in
           let '(pr, m) := malloc nraw m in
           let retv := set_rawdata (Some pr) retv in
           m ← memcpy (rawdata retv) (rawdata node) nraw m;
           Some (retv, m)
         else Some (set_rawdata None (set_rdSize 0 retv), m));
      let retv := set_format (format node) retv in
      let '(retv, w1) :=
        (if 0 <=? typeId node then
           let (t, w') := h5 (H5Tcopy (typeId node)) (mkWorld m (h5st w) (calls w)) in
           (set_typeId t retv, w')
         else (retv, mkWorld m (h5st w) (calls w))) in
      let retv := set_dataType (dataType node) retv in
      let retv := set_hdfId (-1) retv in
      let retv := set_mark (mark node) retv in
      '(cd, m) ← copyHL_CompoundTypeDescription (compoundDescription node) (mem w1);
      let retv := set_compoundDescription cd retv in
      Some (Some retv, mkWorld m (h5st w1) (calls w1))
    end
  end.

(** ** [hlhdf_write.c]: private functions *)

(** [static herr_t commitType(hid_t loc_id, const char* name, hid_t type_id)] *)
Definition commitType (loc_id : hid_t) (nm : string) (type_id : hid_t) : M herr_t :=
  h5 (H5Tcommit loc_id nm type_id).

(** [static herr_t createReference(loc_id, file_id, name, targetname)] *)
Definition createReference (loc_id file_id : hid_t) (nm : string)
    (targetname : cptr) : M herr_t :=
  let fail (aid attr_id attr_type : hid_t) (status : herr_t) : M herr_t :=
    (HL_H5S_CLOSE aid ;;; HL_H5A_CLOSE attr_id ;;; HL_H5T_CLOSE attr_type ;;;
     ret status) in
  let* aid := h5 (H5Screate H5S_SCALAR) in
  if aid <? 0 then fail aid (-1) (-1) (-1) else
  let* attr_type := h5 (H5Tcopy H5T_STD_REF_OBJ) in
  if attr_type <? 0 then fail aid (-1) attr_type (-1) else
  let* attr_id := h5 (H5Acreate loc_id nm attr_type aid) in
  if attr_id <? 0 then fail aid attr_id attr_type (-1) else
  let* r := h5 (H5Rcreate file_id targetname) in
  if r <? 0 then fail aid attr_id attr_type (-1) else
  let* r := h5 (H5Awrite attr_id attr_type BufLocalRef) in
  if r <? 0 then fail aid attr_id attr_type (-1) else
  fail aid attr_id attr_type 0.

(** [static herr_t writeScalarDataAttribute(loc_id, type_id, name, buf)] *)
Definition writeScalarDataAttribute (loc_id type_id : hid_t) (nm : string)
    (buf : cptr) : M herr_t :=
  let fail (aid attr_id : hid_t) (status : herr_t) : M herr_t :=
    (HL_H5S_CLOSE aid ;;; HL_H5A_CLOSE attr_id ;;; ret status) in
  let* aid := h5 (H5Screate H5S_SCALAR) in
  if aid <? 0 then fail aid (-1) (-1) else
  let* attr_id := h5 (H5Acreate loc_id nm type_id aid) in
  if attr_id <? 0 then fail aid attr_id (-1) else
  let* r := h5 (H5Awrite attr_id type_id (BufData buf)) in
  if r <? 0 then fail aid attr_id (-1) else
  fail aid attr_id 0.

(** [static herr_t writeSimpleDataAttribute(loc_id, type_id, name, ndims, dims, buf)] *)
Definition writeSimpleDataAttribute (loc_id type_id : hid_t) (nm : string)
    (nd : Z) (ds : cptr) (buf : cptr) : M herr_t :=
  let fail (dataspace attr_id : hid_t) (status : herr_t) : M herr_t :=
    (HL_H5S_CLOSE dataspace ;;; HL_H5A_CLOSE attr_id ;;; ret status) in
  let* dataspace := h5 (H5Screate_simple nd ds) in
  if dataspace <? 0 then fail dataspace (-1) (-1) else
  let* attr_id := h5 (H5Acreate loc_id nm type_id dataspace) in
  if attr_id <? 0 then fail dataspace attr_id (-1) else
  let* r := h5 (H5Awrite attr_id type_id (BufData buf)) in
  if r <? 0 then fail dataspace attr_id (-1) else
  fail dataspace attr_id 0.

(** The condition of the [if] of [createSimpleDataset],
    [compress != NULL && (compress->type == CT_SZLIB ||
       (compress->type = CT_ZLIB && (compress->level > 0 || compress->level <= 9)))],
    with the effect of its evaluation on [*compress]: the second operand of
    [||] is an assignment, which stores the truth value of
    [CT_ZLIB && (...)] into [compress->type] and yields it. The values of
    the two enumerators it names are arguments here. *)
Definition compress_condition_for (zlib szlib : Z)
    (compress : option HL_Compression) : bool * option HL_Compression :=
  match compress with
  | None => (false, None)
  | Some c =>
    if ctype c =? szlib then (true, Some c)
    else
      let v : Z :=
        if negb (zlib =? 0) && ((0 <? level c) || (level c <=? 9))
        then 1 else 0 in
      (negb (v =? 0),
       Some (mkCompression v (level c) (szlib_mask c) (szlib_px_per_block c)))
  end.

Definition compress_condition : option HL_Compression
                                -> bool * option HL_Compression :=
  compress_condition_for CT_ZLIB CT_SZLIB.

(** [static hid_t createSimpleDataset(loc_id, type_id, name, ndims, dims, buf, compress)];
    the result carries the state of [*compress] after the call. *)
Definition createSimpleDataset (loc_id type_id : hid_t) (nm : string)
    (nd : Z) (ds : cptr) (buf : cptr) (compress : option HL_Compression)
  : M (hid_t * option HL_Compression) :=
  let done (dataset dataspace props : hid_t) (c : option HL_Compression)
    : M (hid_t * option HL_Compression) :=
    (HL_H5S_CLOSE dataspace ;;; HL_H5P_CLOSE props ;;; ret (dataset, c)) in
  let write (dataset dataspace props : hid_t) (c : option HL_Compression)
    : M (hid_t * option HL_Compression) :=
    if bool_decide (buf ≠ None) then
      (h5 (H5Dwrite dataset type_id buf) ;;; done dataset dataspace props c)
    else done dataset dataspace props c in
  let* dataspace := h5 (H5Screate_simple nd ds) in
  if dataspace <? 0 then done (-1) dataspace (-1) compress else
  let '(cond, compress) := compress_condition compress in
  if cond then
    let* props := h5 (H5Pcreate H5P_DATASET_CREATE) in
    if props <? 0 then done (-1) dataspace props compress else
    let* r := h5 (H5Pset_chunk props nd ds) in
    if r <? 0 then done (-1) dataspace props compress else
    let* r :=
      (match compress with
       | Some c =>
         if ctype c =? CT_ZLIB then h5 (H5Pset_deflate props (level c))
         else h5 (H5Pset_szip props (szlib_mask c) (szlib_px_per_block c))
       | None => ret 0
       end) in
    if r <? 0 then done (-1) dataspace props compress else
    let* dataset := h5 (H5Dcreate loc_id nm type_id dataspace props) in
    if dataset <? 0 then done dataset dataspace props compress else
    write dataset dataspace props compress
  else
    let* dataset := h5 (H5Dcreate loc_id nm type_id dataspace H5P_DEFAULT) in
    if dataset <? 0 then done dataset dataspace (-1) compress else
    write dataset dataspace (-1) compress.

(** The block repeated in the attribute and dataset writers:
    [if (strcmp(childNode->format, DATAFORMAT_UNDEFINED) != 0 && childNode->typeId < 0)
       childNode->typeId = translateCharToDatatype(childNode->format);] *)
Definition translate_missing_typeId (childNode : HL_Node) : M HL_Node :=
  if bool_decide (format childNode ≠ HLHDF_UNDEFINED) && (typeId childNode <? 0)
  then
    let* t := h5 (translateCharToDatatype (format childNode)) in
    ret (set_typeId t childNode)
  else ret childNode.

(** The name arguments of the writers below are the [char[256]] arrays of
    the callers and are never [NULL]: the test
    [if (!parentName || !childName) return 0;] cannot fire and strings
    stand for them. Each writer returns its status and the child node as
    it leaves it. *)

(** [static int doWriteHdf5Attribute(rootGrp, parentNode, parentName, childNode, childName)] *)
Definition doWriteHdf5Attribute (rootGrp : hid_t) (parentNode : option HL_Node)
    (parentName : string) (childNode : HL_Node) (childName : string)
  : M (Z * HL_Node) :=
  let tmpLocId :=
    if bool_decide (parentName = EmptyString) then rootGrp
    else parent_hdfId parentNode in
  let* childNode := translate_missing_typeId childNode in
  if typeId childNode <? 0 then ret (0, childNode) else
  if ndims childNode =? 0 then
    let* r := writeScalarDataAttribute tmpLocId (typeId childNode) childName
                (data childNode) in
    if r <? 0 then ret (0, childNode) else ret (1, childNode)
  else
    let* r := writeSimpleDataAttribute tmpLocId (typeId childNode) childName
                (ndims childNode) (dims childNode) (data childNode) in
    if r <? 0 then ret (0, childNode) else ret (1, childNode).

(** [static int doWriteHdf5Group(rootGrp, parentNode, parentName, childNode, childName)] *)
Definition doWriteHdf5Group (rootGrp : hid_t) (parentNode : option HL_Node)
    (parentName : string) (childNode : HL_Node) (childName : string)
  : M (Z * HL_Node) :=
  let* id :=
    (if bool_decide (parentName = EmptyString) then
       (HL_H5G_CLOSE (hdfId childNode) ;;; h5 (H5Gcreate rootGrp childName))
     else
       (HL_H5G_CLOSE (hdfId childNode) ;;;
        h5 (H5Gcreate (parent_hdfId parentNode) childName))) in
  let childNode := set_hdfId id childNode in
  if hdfId childNode <? 0 then ret (0, childNode) else ret (1, childNode).

(** [static int doWriteHdf5Dataset(rootGrp, parentNode, parentName, childNode, childName, compression)] *)
Definition doWriteHdf5Dataset (rootGrp : hid_t) (parentNode : option HL_Node)
    (parentName : string) (childNode : HL_Node) (childName : string)
    (compress : option HL_Compression)
  : M (Z * HL_Node * option HL_Compression) :=
  let tmpLocId :=
    if bool_decide (parentName = EmptyString) then rootGrp
    else parent_hdfId parentNode in
  let* childNode := translate_missing_typeId childNode in
  if typeId childNode <? 0 then ret (0, childNode, compress) else
  HL_H5D_CLOSE (hdfId childNode) ;;;
  let* (id, compress) :=
    createSimpleDataset tmpLocId (typeId childNode) childName
      (ndims childNode) (dims childNode) (data childNode) compress in
  let childNode := set_hdfId id childNode in
  if hdfId childNode <? 0 then ret (0, childNode, compress)
  else ret (1, childNode, compress).

(** [static int doWriteHdf5Datatype(loc_id, parentNode, parentName, childNode, childName)].
    The answer of [H5Tcommitted] only selects whether
    [HL_ERROR1("Failed to commit datatype'%s'", ...)] is logged. *)
Definition doWriteHdf5Datatype (loc_id : hid_t) (parentNode : option HL_Node)
    (parentName : string) (childNode : HL_Node) (childName : string)
  : M (Z * HL_Node) :=
  if loc_id <? 0 then ret (0, childNode) else
  let* r := commitType loc_id (name childNode) (hdfId childNode) in
  if r <? 0 then ret (0, childNode) else
  let* committed := h5 (H5Tcommitted (hdfId childNode)) in
  if committed <=? 0 then ret (1, childNode) else ret (1, childNode).

(** [static int doWriteHdf5Reference(rootGrp, file_id, parentNode, parentName, childNode, childName)] *)
Definition doWriteHdf5Reference (rootGrp file_id : hid_t)
    (parentNode : option HL_Node) (parentName : string)
    (childNode : HL_Node) (childName : string) : M (Z * HL_Node) :=
  let tmpLocId :=
    if bool_decide (parentName = EmptyString) then rootGrp
    else parent_hdfId parentNode in
  let* r := createReference tmpLocId file_id childName (data childNode) in
  if r <? 0 then ret (0, childNode) else ret (1, childNode).

(** [static int doAppendHdf5Attribute(file_id, parentNode, parentName, childNode, childName)] *)
Definition doAppendHdf5Attribute (file_id : hid_t) (parentNode : option HL_Node)
    (parentName : string) (childNode : HL_Node) (childName : string)
  : M (Z * HL_Node) :=
  let fail (loc_id : hid_t) (parentType : HL_Type) (status : Z)
      (childNode : HL_Node) : M (Z * HL_Node) :=
    ((match parentType with
      | GROUP_ID => HL_H5G_CLOSE loc_id
      | DATASET_ID => HL_H5D_CLOSE loc_id
      | _ => ret tt
      end) ;;; ret (status, childNode)) in
  let* (loc_id, parentType) :=
    (if bool_decide (parentName = EmptyString) then
       let* loc_id := h5 (H5Gopen file_id "/") in
       if loc_id <? 0 then ret (loc_id, UNDEFINED_ID)
       else ret (loc_id, GROUP_ID)
     else
       let* loc_id := h5 (H5Gopen file_id parentName) in
       if loc_id <? 0 then
         let* loc_id := h5 (H5Dopen file_id parentName) in
         if 0 <=? loc_id then ret (loc_id, DATASET_ID)
         else ret (loc_id, UNDEFINED_ID)
       else ret (loc_id, GROUP_ID)) in
  if loc_id <? 0 then fail loc_id parentType 0 childNode else
  let* childNode := translate_missing_typeId childNode in
  if typeId childNode <? 0 then fail loc_id parentType 0 childNode else
  let* r :=
    (if ndims childNode =? 0 then
       writeScalarDataAttribute loc_id (typeId childNode) childName
         (data childNode)
     else
       writeSimpleDataAttribute loc_id (typeId childNode) childName
         (ndims childNode) (dims childNode) (data childNode)) in
  if r <? 0 then fail loc_id parentType 0 childNode else
  fail loc_id parentType 1 (set_mark NMARK_ORIGINAL childNode).

(** [static int doAppendHdf5Group(file_id, parentNode, parentName, childNode, childName)] *)
Definition doAppendHdf5Group (file_id : hid_t) (parentNode : option HL_Node)
    (parentName : string) (childNode : HL_Node) (childName : string)
  : M (Z * HL_Node) :=
  let fail (loc_id new_id : hid_t) (status : Z) (childNode : HL_Node)
    : M (Z * HL_Node) :=
    (HL_H5G_CLOSE loc_id ;;; HL_H5G_CLOSE new_id ;;; ret (status, childNode)) in
  let* loc_id :=
    (if bool_decide (parentName = EmptyString) then h5 (H5Gopen file_id "/")
     else h5 (H5Gopen file_id parentName)) in
  if loc_id <? 0 then fail loc_id (-1) 0 childNode else
  let* new_id := h5 (H5Gcreate loc_id childName) in
  if new_id <? 0 then fail loc_id new_id 0 childNode else
  fail loc_id new_id 1 (set_mark NMARK_ORIGINAL childNode).

(** [static int doAppendHdf5Dataset(file_id, parentNode, parentName, childNode, childName, compression)] *)
Definition doAppendHdf5Dataset (file_id : hid_t) (parentNode : option HL_Node)
    (parentName : string) (childNode : HL_Node) (childName : string)
    (compress : option HL_Compression)
  : M (Z * HL_Node * option HL_Compression) :=
  let fail (loc_id new_id : hid_t) (status : Z) (childNode : HL_Node)
      (c : option HL_Compression) : M (Z * HL_Node * option HL_Compression) :=
    (HL_H5G_CLOSE loc_id ;;; HL_H5D_CLOSE new_id ;;; ret (status, childNode, c)) in
  let* loc_id :=
    (if bool_decide (parentName = EmptyString) then h5 (H5Gopen file_id "/")
     else h5 (H5Gopen file_id parentName)) in
  if loc_id <? 0 then fail loc_id (-1) 0 childNode compress else
  let* childNode := translate_missing_typeId childNode in
  if typeId childNode <? 0 then fail loc_id (-1) 0 childNode compress else
  let* (new_id, compress) :=
    createSimpleDataset loc_id (typeId childNode) childName
      (ndims childNode) (dims childNode) (data childNode) compress in
  if new_id <? 0 then fail loc_id new_id 0 childNode compress else
  fail loc_id new_id 1 (set_mark NMARK_ORIGINAL childNode) compress.

(** ** [hlhdf_write.c]: interface functions *)

(** The state the two [for] loops carry from one iteration to the next:
    the nodes of the list (the loop writes [nodelist->nodes[i]] in place),
    the local [parentNode] pointer (a position in the list) and the
    caller's [*compression]. *)
Record LoopState := mkLoopState {
  ls_nodes : list HL_Node;
  ls_parentNode : option nat;
  ls_compression : option HL_Compression
}.

(** The evaluation of
    [parentName is not empty && !(parentNode = getHL_Node(nodelist, parentName))]
    (the first operand is a [strcmp] with the empty string):
    the new value of [parentNode], and whether the condition holds. *)
Definition locate_parent (l : list HL_Node) (parentNode : option nat)
    (parentName : string) : option nat * bool :=
  if bool_decide (parentName ≠ EmptyString) then
    let found := getHL_Node l parentName in
    (found, bool_decide (found = None))
  else (parentNode, false).

(** What [parentNode] points to. *)
Definition deref (l : list HL_Node) (p : option nat) : option HL_Node :=
  i ← p; l !! i.

(** One iteration of the loop of [writeHL_NodeList], for index [i]; the
    boolean is [false] when the iteration leaves through [goto fail]. The
    writers read the parent ([parentNode->hdfId]) and write the child
    only; the two are different nodes, the path of the parent being
    shorter than the path of the child, so the parent is passed as it is
    when the writer is called. The caller's [*compression] is a struct of
    its own, held apart from the settings the nodes point to: a caller
    that passes the pointer that [getHL_NodeCompression] returned for one
    of the nodes is outside this model (what [createSimpleDataset] stores
    through [compress] would then reach that node's settings as well). *)
Definition writeHL_NodeList_iter (gid file_id : hid_t) (i : nat)
    (st : LoopState) : M (bool * LoopState) :=
  match ls_nodes st !! i with
  | None => ret (false, st)           (* not reached: [i < nNodes] *)
  | Some child =>
    match extractParentChildName child with
    | None => ret (false, st)
    | Some (parentName, childName) =>
      let '(parentNode, missing) :=
        locate_parent (ls_nodes st) (ls_parentNode st) parentName in
      if missing then ret (false, mkLoopState (ls_nodes st) parentNode (ls_compression st))
      else
        let parent := deref (ls_nodes st) parentNode in
        let store (status : Z) (child' : HL_Node) (c : option HL_Compression)
          : M (bool * LoopState) :=
          ret (negb (status =? 0),
               mkLoopState (<[i := child']> (ls_nodes st)) parentNode c) in
        match type child with
        | ATTRIBUTE_ID =>
          let* (status, child') :=
            doWriteHdf5Attribute gid parent parentName child childName in
          store status child' (ls_compression st)
        | GROUP_ID =>
          let* (status, child') :=
            doWriteHdf5Group gid parent parentName child childName in
          store status child' (ls_compression st)
        | DATASET_ID =>
          match ls_compression st with
          | Some c =>
            let* (status, child', c') :=
              doWriteHdf5Dataset gid parent parentName child childName (Some c) in
            store status child' c'
          | None =>
            let* (status, child', c') :=
              doWriteHdf5Dataset gid parent parentName child childName
                (compression child) in
            store status (set_compression c' child') None
          end
        | TYPE_ID =>
          let* (status, child') :=
            doWriteHdf5Datatype file_id parent parentName child childName in
          store status child' (ls_compression st)
        | REFERENCE_ID =>
          let* (status, child') :=
            doWriteHdf5Reference gid file_id parent parentName child childName in
          store status child' (ls_compression st)
        | UNDEFINED_ID =>
          (* default: HL_ERROR0("Unrecognized type"); break; *)
          ret (true, mkLoopState (ls_nodes st) parentNode (ls_compression st))
        end
    end
  end.

(** [for (i = ...; i < nodelist->nNodes; i++)], with [left] iterations to
    run from index [i]. *)
Fixpoint writeHL_NodeList_loop (gid file_id : hid_t) (left : nat) (i : nat)
    (st : LoopState) : M (bool * LoopState) :=
  match left with
  | O => ret (true, st)
  | S k =>
    let* (ok, st') := writeHL_NodeList_iter gid file_id i st in
    if ok then writeHL_NodeList_loop gid file_id k (S i) st'
    else ret (false, st')
  end.

(** [int writeHL_NodeList(HL_NodeList* nodelist, HL_FileCreationProperty* property,
                         HL_Compression* compression)];
    returns the status, the list and [*compression] as the call leaves
    them. *)
Definition writeHL_NodeList (nodelist : HL_NodeList)
    (property : option HL_FileCreationProperty)
    (compress : option HL_Compression)
  : M (Z * HL_NodeList * option HL_Compression) :=
  let strhid : hid_t := -1 in
  let* file_id := h5 (createHlHdfFile (filename nodelist) property) in
  if file_id <? 0 then ret (0, nodelist, compress) else
  let* gid := h5 (H5Gopen file_id ".") in
  if gid <? 0 then (HL_H5F_CLOSE file_id ;;; ret (0, nodelist, compress)) else
  let* (ok, st) :=
    writeHL_NodeList_loop gid file_id (length (nodes nodelist)) 0
      (mkLoopState (nodes nodelist) None compress) in
  HL_H5G_CLOSE gid ;;; HL_H5F_CLOSE file_id ;;; HL_H5T_CLOSE strhid ;;;
  ret (if ok then 1 else 0,
       mkNodeList (filename nodelist) (ls_nodes st), ls_compression st).

(** One iteration of the loop of [updateHL_NodeList]; [gid] is the local
    of that name, which the function never assigns after [hid_t gid = -1]. *)
Definition updateHL_NodeList_iter (gid file_id : hid_t) (i : nat)
    (st : LoopState) : M (bool * LoopState) :=
  match ls_nodes st !! i with
  | None => ret (false, st)           (* not reached: [i < nNodes] *)
  | Some child =>
    if bool_decide (mark child = NMARK_CREATED) then
      match extractParentChildName child with
      | None => ret (false, st)
      | Some (parentName, childName) =>
        let '(parentNode, missing) :=
          locate_parent (ls_nodes st) (ls_parentNode st) parentName in
        if missing then ret (false, mkLoopState (ls_nodes st) parentNode (ls_compression st))
        else
          let parent := deref (ls_nodes st) parentNode in
          let store (status : Z) (child' : HL_Node) (c : option HL_Compression)
            : M (bool * LoopState) :=
            ret (negb (status =? 0),
                 mkLoopState (<[i := child']> (ls_nodes st)) parentNode c) in
          match type child with
          | ATTRIBUTE_ID =>
            let* (status, child') :=
              doAppendHdf5Attribute file_id parent parentName child childName in
            store status child' (ls_compression st)
          | GROUP_ID =>
            let* (status, child') :=
              doAppendHdf5Group file_id parent parentName child childName in
            store status child' (ls_compression st)
          | DATASET_ID =>
            match ls_compression st with
            | Some c =>
              let* (status, child', c') :=
                doAppendHdf5Dataset gid parent parentName child childName (Some c) in
              store status child' c'
            | None =>
              let* (status, child', c') :=
                doAppendHdf5Dataset gid parent parentName child childName
                  (compression child) in
              store status (set_compression c' child') None
            end
          | TYPE_ID =>
            let* (status, child') :=
              doWriteHdf5Datatype file_id parent parentName child childName in
            store status child' (ls_compression st)
          | REFERENCE_ID | UNDEFINED_ID =>
            (* default: fprintf(stderr, "Unrecognized type\n"); break; *)
            ret (true, mkLoopState (ls_nodes st) parentNode (ls_compression st))
          end
      end
    else ret (true, st)
  end.

Fixpoint updateHL_NodeList_loop (gid file_id : hid_t) (left : nat) (i : nat)
    (st : LoopState) : M (bool * LoopState) :=
  match left with
  | O => ret (true, st)
  | S k =>
    let* (ok, st') := updateHL_NodeList_iter gid file_id i st in
    if ok then updateHL_NodeList_loop gid file_id k (S i) st'
    else ret (false, st')
  end.

(** [int updateHL_NodeList(HL_NodeList* nodelist, HL_Compression* compression)] *)
Definition updateHL_NodeList (nodelist : HL_NodeList)
    (compress : option HL_Compression)
  : M (Z * HL_NodeList * option HL_Compression) :=
  let gid : hid_t := -1 in
  let strhid : hid_t := -1 in
  let* file_id := h5 (openHlHdfFile (filename nodelist) "rw") in
  if file_id <? 0 then ret (0, nodelist, compress) else
  let* (ok, st) :=
    updateHL_NodeList_loop gid file_id (length (nodes nodelist)) 0
      (mkLoopState (nodes nodelist) None compress) in
  HL_H5G_CLOSE gid ;;; HL_H5F_CLOSE file_id ;;; HL_H5T_CLOSE strhid ;;;
  ret (if ok then 1 else 0,
       mkNodeList (filename nodelist) (ls_nodes st), ls_compression st).

End Engine.

(** ** A small storage engine

    One concrete engine, on which the functions above can be run: a single
    container file holding a tree of named objects, and a table of open
    handles. It keeps what the write path can observe of HDF5: handles are
    fresh positive integers, an invalid handle is refused with a negative
    answer, objects are created under an open location and cannot be
    created twice, and a handle stays in the table until it is closed. *)
Module MiniH5.

Inductive filter := NoFilter | Deflate (lvl : Z) | Szip (mask px : Z).

Inductive object := Group | Dataset (flt : filter) | NamedType | Attribute.

Inductive handle :=
| HFile
| HGroup (path : string)
| HDataset (path : string)
| HSpace
| HAttr
| HType (committed : bool)
| HPlist (chunked : bool) (flt : filter).

Record state := mkState {
  disk : option (string * list (string * object));   (* the file and its objects *)
  table : list (hid_t * handle);                      (* the open handles *)
  next_id : hid_t;
  commit_query_fails : bool        (* [H5Tcommitted] answers with an error *)
}.

Definition lookup_handle (id : hid_t) (s : state) : option handle :=
  snd <$> List.find (fun e => fst e =? id) (table s).

Definition alloc (h : handle) (s : state) : Z * state :=
  (next_id s,
   mkState (disk s) ((next_id s, h) :: table s) (next_id s + 1)
     (commit_query_fails s)).

Definition release (id : hid_t) (s : state) : state :=
  mkState (disk s) (List.filter (fun e => negb (fst e =? id)) (table s))
    (next_id s) (commit_query_fails s).

Definition objects (s : state) : list (string * object) :=
  match disk s with
  | Some (_, objs) => objs
  | None => []
  end.

Definition add_object (p : string) (o : object) (s : state) : state :=
  match disk s with
  | Some (f, objs) =>
    mkState (Some (f, objs ++ [(p, o)])) (table s) (next_id s)
      (commit_query_fails s)
  | None => s
  end.

(** The object at a path; the root is the empty path and is a group. *)
Definition object_at (p : string) (s : state) : option object :=
  if String.eqb p EmptyString then Some Group
  else snd <$> List.find (fun e => String.eqb (fst e) p) (objects s).

(** The path a location handle stands for. *)
Definition location (id : hid_t) (s : state) : option string :=
  match lookup_handle id s with
  | Some HFile => Some EmptyString
  | Some (HGroup p) => Some p
  | Some (HDataset p) => Some p
  | _ => None
  end.

Definition group_location (id : hid_t) (s : state) : option string :=
  match lookup_handle id s with
  | Some HFile => Some EmptyString
  | Some (HGroup p) => Some p
  | _ => None
  end.

Definition resolve (base nm : string) : string :=
  if String.eqb nm "/" then EmptyString
  else if String.eqb nm "." then base
  else match nm with
       | String "/"%char _ => nm
       | _ => base ++ "/" ++ nm
       end.

(** Identifiers 1 to 9 are the predefined types of the library. *)
Definition is_type (id : hid_t) (s : state) : bool :=
  ((1 <=? id) && (id <=? 9)) ||
  match lookup_handle id s with
  | Some (HType _) => true
  | _ => false
  end.

Definition is_space (id : hid_t) (s : state) : bool :=
  match lookup_handle id s with Some HSpace => true | _ => false end.

Definition close_as (ok : handle -> bool) (id : hid_t) (s : state) : Z * state :=
  match lookup_handle id s with
  | Some h => if ok h then (0, release id s) else (-1, s)
  | None => (-1, s)
  end.

Definition set_handle (id : hid_t) (h : handle) (s : state) : state :=
  mkState (disk s)
    (List.map (fun e => if fst e =? id then (id, h) else e) (table s))
    (next_id s) (commit_query_fails s).

Definition answer (c : H5Call) (s : state) : Z * state :=
  match c with
  | createHlHdfFile f _ =>
    alloc HFile (mkState (Some (f, [])) (table s) (next_id s) (commit_query_fails s))
  | openHlHdfFile f _ =>
    match disk s with
    | Some (f', _) => if String.eqb f f' then alloc HFile s else (-1, s)
    | None => (-1, s)
    end
  | translateCharToDatatype fmt =>
    match fmt with
    | HLHDF_UNDEFINED | HLHDF_STRING | HLHDF_COMPOUND | HLHDF_ARRAY => (-1, s)
    | _ => alloc (HType false) s
    end
  | H5Gopen l nm =>
    match group_location l s with
    | Some b =>
      match object_at (resolve b nm) s with
      | Some Group => alloc (HGroup (resolve b nm)) s
      | _ => (-1, s)
      end
    | None => (-1, s)
    end
  | H5Gcreate l nm =>
    match group_location l s with
    | Some b =>
      match object_at (resolve b nm) s with
      | None => alloc (HGroup (resolve b nm)) (add_object (resolve b nm) Group s)
      | Some _ => (-1, s)
      end
    | None => (-1, s)
    end
  | H5Dopen l nm =>
    match group_location l s with
    | Some b =>
      match object_at (resolve b nm) s with
      | Some (Dataset _) => alloc (HDataset (resolve b nm)) s
      | _ => (-1, s)
      end
    | None => (-1, s)
    end
  | H5Dcreate l nm t sp pl =>
    match group_location l s with
    | Some b =>
      if is_type t s && is_space sp s then
        match object_at (resolve b nm) s,
              (if pl =? H5P_DEFAULT then Some NoFilter
               else match lookup_handle pl s with
                    | Some (HPlist _ flt) => Some flt
                    | _ => None
                    end) with
        | None, Some flt =>
          alloc (HDataset (resolve b nm))
            (add_object (resolve b nm) (Dataset flt) s)
        | _, _ => (-1, s)
        end
      else (-1, s)
    | None => (-1, s)
    end
  | H5Dwrite d t _ =>
    match lookup_handle d s with
    | Some (HDataset _) => if is_type t s then (0, s) else (-1, s)
    | _ => (-1, s)
    end
  | H5Screate _ => alloc HSpace s
  | H5Screate_simple rank ds =>
    if (0 <=? rank) && (rank <=? 32) && ((rank =? 0) || bool_decide (ds ≠ None))
    then alloc HSpace s else (-1, s)
  | H5Acreate l nm t sp =>
    match location l s with
    | Some b =>
      if is_type t s && is_space sp s then
        match List.find (fun e => String.eqb (fst e) (b ++ "/" ++ nm))
                (List.filter (fun e => match snd e with Attribute => true | _ => false end)
                   (objects s)) with
        | None => alloc HAttr (add_object (b ++ "/" ++ nm) Attribute s)
        | Some _ => (-1, s)
        end
      else (-1, s)
    | None => (-1, s)
    end
  | H5Awrite a t _ =>
    match lookup_handle a s with
    | Some HAttr => if is_type t s then (0, s) else (-1, s)
    | _ => (-1, s)
    end
  | H5Pcreate _ => alloc (HPlist false NoFilter) s
  | H5Pset_chunk pl rank ds =>
    match lookup_handle pl s with
    | Some (HPlist _ flt) =>
      if (0 <? rank) && bool_decide (ds ≠ None)
      then (0, set_handle pl (HPlist true flt) s) else (-1, s)
    | _ => (-1, s)
    end
  | H5Pset_deflate pl lvl =>
    match lookup_handle pl s with
    | Some (HPlist ch _) =>
      if (0 <=? lvl) && (lvl <=? 9)
      then (0, set_handle pl (HPlist ch (Deflate lvl)) s) else (-1, s)
    | _ => (-1, s)
    end
  | H5Pset_szip pl mask px =>
    match lookup_handle pl s with
    | Some (HPlist ch _) => (0, set_handle pl (HPlist ch (Szip mask px)) s)
    | _ => (-1, s)
    end
  | H5Tcopy t => if is_type t s then alloc (HType false) s else (-1, s)
  | H5Tcommit l nm t =>
    match group_location l s, lookup_handle t s with
    | Some b, Some (HType false) =>
      match object_at (resolve b nm) s with
      | None => (0, set_handle t (HType true) (add_object (resolve b nm) NamedType s))
      | Some _ => (-1, s)
      end
    | _, _ => (-1, s)
    end
  | H5Tcommitted t =>
    if commit_query_fails s then (-1, s)
    else match lookup_handle t s with
         | Some (HType true) => (1, s)
         | Some (HType false) => (0, s)
         | _ => (-1, s)
         end
  | H5Rcreate f _ =>
    match lookup_handle f s with
    | Some HFile => (0, s)
    | _ => (-1, s)
    end
  | H5Fclose id => close_as (fun h => match h with HFile => true | _ => false end) id s
  | H5Gclose id => close_as (fun h => match h with HGroup _ => true | _ => false end) id s
  | H5Dclose id => close_as (fun h => match h with HDataset _ => true | _ => false end) id s
  | H5Sclose id => close_as (fun h => match h with HSpace => true | _ => false end) id s
  | H5Aclose id => close_as (fun h => match h with HAttr => true | _ => false end) id s
  | H5Tclose id => close_as (fun h => match h with HType _ => true | _ => false end) id s
  | H5Pclose id => close_as (fun h => match h with HPlist _ _ => true | _ => false end) id s
  end.

#[global] Instance engine : H5Engine :=
  {| h5state := state; h5answer := answer; H5T_STD_REF_OBJ := 1 |}.

(** No file on disk, no handle open. *)
Definition empty : state := mkState None [] 10 false.

(** A file [f] holding the given objects, closed. *)
Definition with_file (f : string) (objs : list (string * object)) : state :=
  mkState (Some (f, objs)) [] 10 false.

Definition no_memory : Memory := mkMemory ∅ ∅.

Definition world (s : state) : World := mkWorld no_memory s [].

End MiniH5.

(** ** Vocabulary of the statements *)

(** [holds m p n]: the pointer [p] owns a block of exactly [n] cells; a
    null pointer owns nothing. *)
Definition holds (m : Memory) (p : cptr) (n : Z) : Prop :=
  match p with
  | Some q => exists b, bufs m !! q = Some b /\ Z.of_nat (length b) = n
  | None => n = 0
  end.

(** The invariants of the data model for the buffers of a node: [dims] has
    [ndims] cells, [data] holds [dSize] bytes for each of the node's
    points, [rawdata] (when present) holds [rdSize] bytes for each, the
    byte counts fit [size_t], and the compound description, when present,
    is allocated. *)
Definition node_ok (m : Memory) (node : HL_Node) : Prop :=
  dims_ok m node /\
  (forall npts, getHL_NodeNumberOfPoints m node = Some npts ->
     npts * dSize node < 2 ^ 64 /\
     holds m (data node) (npts * dSize node) /\
     (rawdata node <> None ->
      npts * rdSize node < 2 ^ 64 /\
      holds m (rawdata node) (npts * rdSize node))) /\
  match compoundDescription node with
  | Some q => is_Some (descs m !! q)
  | None => True
  end.

(** [ext m0 m]: every block of [m0] is still in [m], unchanged, and the
    descriptions are the same. *)
Definition ext (m0 m : Memory) : Prop :=
  (forall p b, bufs m0 !! p = Some b -> bufs m !! p = Some b) /\
  descs m = descs m0.

(** The buffers a node points to. *)
Definition buffers (n : HL_Node) : list loc :=
  omap id [dims n; data n; rawdata n].

(** Two node lists with the same paths at the same positions. *)
Definition same_names (l1 l2 : list HL_Node) : Prop :=
  Forall2 (fun a b => name a = name b) l1 l2.

(** Two node lists that an update cannot tell apart: the same paths at the
    same positions, and the same node wherever one of the two is Created. *)
Definition same_created (l1 l2 : list HL_Node) : Prop :=
  Forall2 (fun a b => name a = name b /\
                      (mark a = NMARK_CREATED \/ mark b = NMARK_CREATED -> a = b))
    l1 l2.

Definition same_state (st1 st2 : LoopState) : Prop :=
  same_created (ls_nodes st1) (ls_nodes st2) /\
  ls_parentNode st1 = ls_parentNode st2 /\
  ls_compression st1 = ls_compression st2.

(** ** Concrete node lists and engine states *)
Module Sample.
Import MiniH5.

(** A scalar [int] node without data. *)
Definition node_of (t : HL_Type) (nm : string) (mk : HL_NodeMark) : HL_Node :=
  mkNode t nm 0 None None None HLHDF_INT (-1) 4 0 HL_SIMPLE (-1) mk None None.

(** A group that was read from the file. *)
Definition a_group : HL_Node := node_of GROUP_ID "/g" NMARK_ORIGINAL.

(** A freshly added 2 x 3 dataset of bytes. *)
Definition a_dataset (nm : string) : HL_Node :=
  mkNode DATASET_ID nm 2 (Some 1%positive) (Some 2%positive) None HLHDF_UCHAR
    (-1) 1 0 HL_ARRAY (-1) NMARK_CREATED None None.

(** A heap in which the dimensions of [a_dataset] are (10, 10). *)
Definition ten_by_ten : Memory :=
  mkMemory (<[1%positive := [10; 10]]> ∅) ∅.

(** The heap of [a_dataset]: its dimensions and its six bytes. *)
Definition a_memory : Memory :=
  mkMemory (<[1%positive := [2; 3]]> (<[2%positive := [10; 11; 12; 13; 14; 15]]> ∅)) ∅.

(** A freshly added named type whose engine type is the open handle 10. *)
Definition a_type : HL_Node :=
  mkNode TYPE_ID "/t" 0 None None None HLHDF_COMPOUND (-1) 0 0
    DTYPE_UNDEFINED_ID 10 NMARK_CREATED None None.

(** A node made by [newHL_Node] alone: its type is [UNDEFINED_ID]. *)
Definition an_untyped : HL_Node := node_of UNDEFINED_ID "/x" NMARK_CREATED.

(** The file "f.h5" with the group "/g", closed. *)
Definition file_with_group : World := world (with_file "f.h5" [("/g", Group)]).

(** No file yet; the type handle 10 is open and not committed. The flag
    tells whether [H5Tcommitted] answers with an error. *)
Definition with_open_type (disk0 : option (string * list (string * object)))
    (query_fails : bool) : World :=
  mkWorld no_memory (mkState disk0 [(10, HType false)] 11 query_fails) [].

End Sample.

(** * The rest of the node interface *)

(** ** Library calls of [hlhdf_node.c] beyond those of the write path *)

(** The calls that only [hlhdf_node.c] makes, and the helpers of [hlhdf.c]
    it relies on, none of which is among the sources; they are parameters
    of the development. [H5Tset_size] and [H5Oclose] are the HDF5 calls of
    those names; [HL_translateFormatStringToDatatype],
    [HL_getFormatSpecifier] and [HL_getFormatSpecifierFromType] are the
    format registry. They act on the engine state and are not recorded
    in the [calls] log. *)
Class H5NodeOps (E : H5Engine) := {
  H5T_C_S1 : hid_t;
  H5Tset_size : hid_t -> Z -> h5state -> Z * h5state;
  H5Oclose : hid_t -> h5state -> Z * h5state;
  HL_translateFormatStringToDatatype : string -> h5state -> Z * h5state;
  HL_getFormatSpecifier : string -> HL_FormatSpecifier;
  HL_getFormatSpecifierFromType : hid_t -> h5state -> HL_FormatSpecifier
}.

Section NodeInterface.
Context {E : H5Engine} {N : H5NodeOps E}.

(** One call of [H5NodeOps]. *)
Definition h5x (f : h5state -> Z * h5state) : M Z :=
  fun w => let (r, s) := f (h5st w) in (r, mkWorld (mem w) s (calls w)).

(** Replacing the heap of a world. *)
Definition with_mem (m : Memory) (w : World) : World :=
  mkWorld m (h5st w) (calls w).

(** Modelled from the spec: the close macro [HL_H5O_CLOSE] of
    [hlhdf_defines_private.h], like the other close macros:
    [if (x >= 0) { H5Oclose(x); x = -1; }]. *)
Definition HL_H5O_CLOSE (x : hid_t) : M unit :=
  if 0 <=? x then bind (h5x (H5Oclose x)) (fun _ => ret tt) else ret tt.

(** [static HL_Node* newHL_NodeWithType(const char* name, HL_Type type)] *)
Definition newHL_NodeWithType (nm : option string) (t : HL_Type)
  : option HL_Node :=
  match newHL_Node nm with
  | None => None
  | Some retv => Some (set_type t retv)     (* setHL_NodeType(retv, type) *)
  end.

Definition newHL_Group (nm : option string) := newHL_NodeWithType nm GROUP_ID.
Definition newHL_Attribute (nm : option string) := newHL_NodeWithType nm ATTRIBUTE_ID.
Definition newHL_Dataset (nm : option string) := newHL_NodeWithType nm DATASET_ID.
Definition newHL_Datatype (nm : option string) := newHL_NodeWithType nm TYPE_ID.
Definition newHL_Reference (nm : option string) := newHL_NodeWithType nm REFERENCE_ID.

(** [static hid_t HLNode_createStringType(size_t length)]: the answer of
    [H5Tset_size] is not looked at. *)
Definition HLNode_createStringType (length : Z) : M hid_t :=
  bind (h5 (H5Tcopy H5T_C_S1)) (fun t =>
  bind (h5x (H5Tset_size t length)) (fun _ => ret t)).

(** [void HLNodePrivate_setData(HL_Node* node, size_t datasize, unsigned char* data)] *)
Definition HLNodePrivate_setData (node : HL_Node) (datasize : Z) (d : cptr)
    (m : Memory) : HL_Node * Memory :=
  (set_dSize datasize (set_data d node), HLHDF_FREE (data node) m).

(** [void HLNodePrivate_setRawdata(HL_Node* node, size_t datasize, unsigned char* data)] *)
Definition HLNodePrivate_setRawdata (node : HL_Node) (datasize : Z) (d : cptr)
    (m : Memory) : HL_Node * Memory :=
  (set_rdSize datasize (set_rawdata d node), HLHDF_FREE (rawdata node) m).

(** [int HLNodePrivate_setTypeIdAndDeriveFormat(HL_Node* node, hid_t type)] *)
Definition HLNodePrivate_setTypeIdAndDeriveFormat (node : HL_Node) (t : hid_t)
  : M (Z * HL_Node) :=
  bind (h5 (H5Tcopy t)) (fun tcopy => fun w =>
    let fmt := HL_getFormatSpecifierFromType t (h5st w) in
    if (tcopy <? 0) || bool_decide (fmt = HLHDF_UNDEFINED) then
      bind (HL_H5T_CLOSE tcopy) (fun _ => ret (0, node)) w
    else
      bind (HL_H5T_CLOSE (typeId node)) (fun _ =>
        ret (1, set_format fmt (set_typeId tcopy node))) w).

(** [void HLNodePrivate_setHdfID(HL_Node* node, hid_t hdfid)] *)
Definition HLNodePrivate_setHdfID (node : HL_Node) (hdfid : hid_t) : M HL_Node :=
  match type node with
  | ATTRIBUTE_ID =>
    bind (HL_H5A_CLOSE (hdfId node)) (fun _ => ret (set_hdfId hdfid node))
  | DATASET_ID | GROUP_ID | TYPE_ID =>
    bind (HL_H5O_CLOSE (hdfId node)) (fun _ => ret (set_hdfId hdfid node))
  | REFERENCE_ID => ret node
  | UNDEFINED_ID => ret node    (* default: only a message when hdfId >= 0 *)
  end.

(** Modelled from the spec: [freeHL_CompoundTypeDescription] is not among
    the sources; the description a node owns is released with the node. *)
Definition freeHL_CompoundTypeDescription (d : cptr) (m : Memory) : Memory :=
  match d with
  | Some q => mkMemory (bufs m) (delete q (descs m))
  | None => m
  end.

(** [void freeHL_Node(HL_Node* node)]. The name and the compression
    settings are values of the node here and go with it. *)
Definition freeHL_Node (node : option HL_Node) (w : World) : World :=
  match node with
  | None => w
  | Some node =>
    let w1 := if 0 <=? typeId node then snd (h5 (H5Tclose (typeId node)) w)
              else w in
    let '(node, w2) := HLNodePrivate_setHdfID node (-1) w1 in
    let m := HLHDF_FREE (dims node) (mem w2) in
    let m := HLHDF_FREE (data node) m in
    let m := HLHDF_FREE (rawdata node) m in
    let m := freeHL_CompoundTypeDescription (compoundDescription node) m in
    with_mem m w2
  end.

(** The part that [setHL_NodeScalarValue] and [setHL_NodeArrayValue]
    share word for word: the choice of the type handle. [None] is
    [goto fail]. *)
Definition value_type (fmt : string) (format : HL_FormatSpecifier)
    (sz : Z) (typid : hid_t) : M (option hid_t) :=
  if bool_decide (format = HLHDF_STRING) && (typid <? 0) then
    bind (HLNode_createStringType sz) (fun t =>
      if t <? 0 then ret None else ret (Some t))
  else if bool_decide (format = HLHDF_COMPOUND) && (typid <? 0) then ret None
  else if typid <? 0 then
    bind (h5x (HL_translateFormatStringToDatatype fmt)) (fun t => ret (Some t))
  else bind (h5 (H5Tcopy typid)) (fun t => ret (Some t)).

(** The mark after a value has been set:
    [if (node->mark != NMARK_CREATED) node->mark = NMARK_CHANGED;] *)
Definition touch (node : HL_Node) : HL_Node :=
  if bool_decide (mark node ≠ NMARK_CREATED) then set_mark NMARK_CHANGED node
  else node.

(** [int setHL_NodeScalarValue(HL_Node* node, size_t sz, unsigned char* value,
                              const char* fmt, hid_t typid)];
    [None] when the [memcpy] from [value] is undefined. *)
Definition setHL_NodeScalarValue (node : HL_Node) (sz : Z) (value : cptr)
    (fmt : string) (typid : hid_t) (w : World)
  : option (Z * HL_Node * World) :=
  let format := HL_getFormatSpecifier fmt in
  if bool_decide (format = HLHDF_UNDEFINED) || bool_decide (format = HLHDF_ARRAY)
  then Some (0, node, w)
  else
    let '(d, m) := malloc sz (mem w) in
    m ← memcpy (Some d) value sz m;
    let '(t, w1) := value_type fmt format sz typid (with_mem m w) in
    match t with
    | None => Some (0, node, with_mem (HLHDF_FREE (Some d) (mem w1)) w1)
    | Some tmptypeid =>
      let m := HLHDF_FREE (data node) (mem w1) in
      let '(_, w2) := HL_H5T_CLOSE (typeId node) (with_mem m w1) in
      let node := set_data (Some d) node in
      let node := set_format format node in
      let node := set_dSize sz node in
      let node := set_typeId tmptypeid node in
      let node := set_dataType HL_SIMPLE node in
      Some (1, touch node, w2)
    end.


(** [void getHL_NodeDimensions(HL_Node* node, int* ndims, hsize_t** dims)].
    The two booleans tell whether the out-parameters are given; when one
    is [NULL] nothing is written (inner [None]). Otherwise the result is
    what the call leaves in [*ndims] and [*dims]. *)
Definition getHL_NodeDimensions (node : HL_Node) (ndims_given dims_given : bool)
    (m : Memory) : option (option (Z * cptr) * Memory) :=
  if ndims_given && dims_given then
    if (0 <? ndims node) && bool_decide (dims node ≠ None) then
      let '(p, m1) := malloc (ndims node) m in
      m2 ← memcpy (Some p) (dims node) (ndims node) m1;
      Some (Some (ndims node, Some p), m2)
    else Some (Some (0, None), m)
  else Some (None, m).

End NodeInterface.

(** The node calls on the small engine: a handful of format names, string
    types that can be resized, and [H5Oclose] for groups, datasets and
    types. *)
Module MiniH5Node.
Import MiniH5.

Definition format_of (fmt : string) : HL_FormatSpecifier :=
  if String.eqb fmt "char" then HLHDF_CHAR
  else if String.eqb fmt "int" then HLHDF_INT
  else if String.eqb fmt "float" then HLHDF_FLOAT
  else if String.eqb fmt "double" then HLHDF_DOUBLE
  else if String.eqb fmt "string" then HLHDF_STRING
  else if String.eqb fmt "compound" then HLHDF_COMPOUND
  else if String.eqb fmt "array" then HLHDF_ARRAY
  else HLHDF_UNDEFINED.

#[global] Instance node_ops : H5NodeOps MiniH5.engine :=
  {| H5T_C_S1 := 2;
     H5Tset_size := fun t _ s => if is_type t s then (0, s) else (-1, s);
     H5Oclose := fun id s =>
       close_as (fun h => match h with
                          | HGroup _ | HDataset _ | HType _ => true
                          | _ => false
                          end) id s;
     HL_translateFormatStringToDatatype := fun fmt s =>
       answer (translateCharToDatatype (format_of fmt)) s;
     HL_getFormatSpecifier := format_of;
     HL_getFormatSpecifierFromType := fun t s =>
       if is_type t s then HLHDF_INT else HLHDF_UNDEFINED |}.

End MiniH5Node.

(** ** Vocabulary of the statements, continued *)

(** A node with its engine handles and compression settings blanked: two
    nodes with the same image differ in those three fields at most. *)
Definition erase_handles (n : HL_Node) : HL_Node :=
  set_compression None (set_hdfId (-1) (set_typeId (-1) n)).

(** What a full write may change of a node. *)
Definition written_as (a b : HL_Node) : Prop :=
  erase_handles a = erase_handles b.

(** What an update may change of a node: the type handle, the compression
    settings, and the mark from Created to Original. *)
Definition updated_as (a b : HL_Node) : Prop :=
  set_mark NMARK_ORIGINAL (set_compression None (set_typeId (-1) a))
  = set_mark NMARK_ORIGINAL (set_compression None (set_typeId (-1) b)) /\
  (mark b = mark a \/ (mark a = NMARK_CREATED /\ mark b = NMARK_ORIGINAL)).

(** The node types that [updateHL_NodeList] appends with a writer of its
    own. *)
Definition appended (t : HL_Type) : bool :=
  match t with
  | ATTRIBUTE_ID | GROUP_ID | DATASET_ID => true
  | _ => false
  end.

(** What an append writer does to the node it is given, as a function of
    its status [st]: with status 1 the node is marked Original, and the
    type handle and the compression settings apart nothing else is
    changed. *)
Definition appended_as (st : Z) (c c' : HL_Node) : Prop :=
  set_compression None (set_typeId (-1) c')
  = set_compression None
      (set_typeId (-1) (if st =? 1 then set_mark NMARK_ORIGINAL c else c)) /\
  (st = 0 \/ st = 1).


(** The same for a writer alone, which leaves the compression settings
    as they are: the mark is set to Original with status 1, the type
    handle may have been filled in, and every other field, [hdfId]
    included, is as it was. *)
Definition appended_by (st : Z) (c c' : HL_Node) : Prop :=
  set_typeId (-1) c'
  = set_typeId (-1) (if st =? 1 then set_mark NMARK_ORIGINAL c else c) /\
  (st = 0 \/ st = 1).

(** A node that a successful full write has been through: the handles
    that the writer of its type obtains are valid. *)
Definition written (c : HL_Node) : Prop :=
  match type c with
  | ATTRIBUTE_ID => 0 <= typeId c
  | GROUP_ID => 0 <= hdfId c
  | DATASET_ID => 0 <= typeId c /\ 0 <= hdfId c
  | _ => True
  end.

(** [w'] is [w] after some calls to the engine: the heap is the same and
    the log has grown at its end. *)
Definition grows {E : H5Engine} (w w' : World) : Prop :=
  mem w' = mem w /\ exists mid, calls w' = calls w ++ mid.

(** A computation that only calls the engine. *)
Definition engine_only {E : H5Engine} {A} (c : M A) : Prop :=
  forall w, grows w (snd (c w)).

(** The calls that close [x] through [close]: one when [x] is a valid
    handle, none otherwise. *)
Definition closing (close : hid_t -> H5Call) (x : hid_t) : list H5Call :=
  if 0 <=? x then [close x] else [].

(** [p] points to a block of at least [n] cells; nothing can be read
    through [NULL]. *)
Definition readable (m : Memory) (p : cptr) (n : Z) : Prop :=
  match p with
  | Some q => exists b, bufs m !! q = Some b /\ n <= Z.of_nat (length b)
  | None => n = 0
  end.

(** [p] is [NULL] or points to a block in use. *)
Definition allocated (m : Memory) (p : cptr) : Prop :=
  match p with
  | Some q => q ∈ dom (bufs m)
  | None => True
  end.

(** What [free(p)] leaves of the heap [m]. *)
Definition freed (p : cptr) (m m' : Memory) : Prop :=
  (forall q, p <> Some q -> bufs m' !! q = bufs m !! q) /\
  (forall q, p = Some q -> bufs m' !! q = None) /\
  descs m' = descs m.

(** The guard [ndims > 0 && dims != NULL] of the two functions that copy
    a dimension array. *)
Definition has_dims (nd : Z) (ds : cptr) : bool :=
  (0 <? nd) && bool_decide (ds <> None).

(** [n] with the fields that a value setter writes put back to those of
    [orig]. *)
Definition value_fields (orig n : HL_Node) : HL_Node :=
  set_mark (mark orig)
    (set_dataType (dataType orig)
       (set_typeId (typeId orig)
          (set_dSize (dSize orig)
             (set_format (format orig) (set_data (data orig) n))))).

(** The mark that a value setter leaves: Created stays, every other mark
    becomes Changed. *)
Definition touched (k : HL_NodeMark) : HL_NodeMark :=
  if bool_decide (k = NMARK_CREATED) then NMARK_CREATED else NMARK_CHANGED.

(** The constructors of [hlhdf_node.c]. *)
Definition constructors : list (option string -> option HL_Node) :=
  [newHL_Node; newHL_Group; newHL_Attribute; newHL_Dataset; newHL_Datatype;
   newHL_Reference].



(** Whether position [i] of the list holds a node marked Created. *)
Definition created_at (l : list HL_Node) (i : nat) : bool :=
  match l !! i with
  | Some c => bool_decide (mark c = NMARK_CREATED)
  | None => false
  end.

(** The loop body of [updateHL_NodeList] run at the positions [idx], in
    that order, and at no other. *)
Fixpoint updateHL_NodeList_visit {E : H5Engine} (gid file_id : hid_t)
    (idx : list nat) (st : LoopState) : M (bool * LoopState) :=
  match idx with
  | [] => ret (true, st)
  | i :: rest =>
    bind (updateHL_NodeList_iter gid file_id i st) (fun '(ok, st') =>
      if ok then updateHL_NodeList_visit gid file_id rest st'
      else ret (false, st'))
  end.

(** The update as the spec words it ("processes ONLY nodes whose mark
    equals Created"): [updateHL_NodeList] with its loop over all the nodes
    replaced by the loop body run at the positions of the nodes that are
    Created at entry, and at no other position. *)
Definition updateHL_NodeList_created_only {E : H5Engine}
    (nodelist : HL_NodeList) (compress : option HL_Compression)
  : M (Z * HL_NodeList * option HL_Compression) :=
  bind (h5 (openHlHdfFile (filename nodelist) "rw")) (fun file_id =>
  if file_id <? 0 then ret (0, nodelist, compress) else
  bind (updateHL_NodeList_visit (-1) file_id
          (List.filter (created_at (nodes nodelist))
             (List.seq 0 (length (nodes nodelist))))
          (mkLoopState (nodes nodelist) None compress)) (fun '(ok, st) =>
  bind (HL_H5G_CLOSE (-1)) (fun _ =>
  bind (HL_H5F_CLOSE file_id) (fun _ =>
  bind (HL_H5T_CLOSE (-1)) (fun _ =>
  ret (if ok then 1 else 0,
       mkNodeList (filename nodelist) (ls_nodes st), ls_compression st)))))).

(** * Properties *)

(** ** The number of points and the single dimensions *)

Lemma wrap64_mul_l a b : wrap64 (wrap64 a * b) = wrap64 (a * b).
Proof. unfold wrap64. apply Z.mul_mod_idemp_l. lia. Qed.

Lemma npts_loop_product cells :
  forall (pre : list Z) (n : Z),
    npts_loop (pre ++ cells) (length cells) (Z.of_nat (length pre)) (wrap64 n)
    = Some (wrap64 (n * product cells)).
Proof.
  induction cells as [|d cells IH]; intros pre n; simpl.
  - f_equal. f_equal. lia.
  - rewrite Nat2Z.id.
    rewrite (lookup_app_r pre) by lia. rewrite Nat.sub_diag. simpl.
    rewrite wrap64_mul_l.
    specialize (IH (pre ++ [d]) (n * d)).
    rewrite length_app in IH. simpl in IH.
    rewrite <- app_assoc in IH. simpl in IH.
    replace (Z.of_nat (length pre) + 1) with (Z.of_nat (length pre + 1)) by lia.
    rewrite IH. f_equal. f_equal. lia.
Qed.

Lemma npts_loop_all cells :
  npts_loop cells (length cells) 0 1 = Some (wrap64 (product cells)).
Proof.
  pose proof (npts_loop_product cells [] 1) as Hp.
  change (wrap64 1) with 1 in Hp. change (Z.of_nat (length [])) with 0 in Hp.
  change ([] ++ cells) with cells in Hp. rewrite Hp. f_equal. f_equal. lia.
Qed.

(** The number of points is a function of [ndims] and of the cells of [dims]. *)
Lemma npts_by_cases (m : Memory) (node : HL_Node) :
  dims_ok m node ->
  getHL_NodeNumberOfPoints m node =
  Some (if ndims node =? 0 then 1
        else if (0 <? ndims node) && bool_decide (dims node <> None)
             then wrap64 (product (contents m (dims node)))
             else 0).
Proof.
  intros Hok. unfold getHL_NodeNumberOfPoints.
  destruct (ndims node =? 0) eqn:E0; [reflexivity|].
  destruct (0 <? ndims node) eqn:E1; [|reflexivity].
  destruct (dims node) as [p|] eqn:Hp; [|reflexivity].
  rewrite bool_decide_eq_true_2 by discriminate. simpl.
  unfold dims_ok in Hok. rewrite Hp in Hok. destruct Hok as (c & Hc & Hl).
  rewrite Hc. simpl.
  replace (Z.to_nat (ndims node)) with (length c) by lia.
  apply npts_loop_all.
Qed.

(** C9 (as amended). [getHL_NodeNumberOfPoints] returns 1 for a node
    without dimensions ([ndims = 0]); returns 0 when [ndims] is positive
    and the dimensions array is absent; and, when [ndims] is positive and
    the array is present, returns the product of all the extents as the
    loop computes it in [hsize_t], that is modulo 2^64: the product
    itself whenever that is below 2^64, and not otherwise. *)
Theorem getHL_NodeNumberOfPoints_spec (m : Memory) (node : HL_Node) :
  dims_ok m node ->
  (ndims node = 0 -> getHL_NodeNumberOfPoints m node = Some 1) /\
  (0 < ndims node -> dims node = None ->
   getHL_NodeNumberOfPoints m node = Some 0) /\
  (0 < ndims node ->
   forall p cells, dims node = Some p -> bufs m !! p = Some cells ->
     getHL_NodeNumberOfPoints m node = Some (wrap64 (product cells)) /\
     (0 <= product cells < 2 ^ 64 ->
      getHL_NodeNumberOfPoints m node = Some (product cells))).
Proof.
  intros Hok. rewrite (npts_by_cases m node Hok). repeat split.
  - intros ->. reflexivity.
  - intros Hpos ->. destruct (ndims node =? 0) eqn:E0; [lia|].
    rewrite bool_decide_eq_false_2 by tauto.
    rewrite andb_false_r. reflexivity.
  - destruct (ndims node =? 0) eqn:E0; [lia|].
    replace (0 <? ndims node) with true by (symmetry; apply Z.ltb_lt; lia).
    rewrite H0. rewrite bool_decide_eq_true_2 by discriminate.
    simpl. rewrite H1. reflexivity.
  - intros Hb. destruct (ndims node =? 0) eqn:E0; [lia|].
    replace (0 <? ndims node) with true by (symmetry; apply Z.ltb_lt; lia).
    rewrite H0. rewrite bool_decide_eq_true_2 by discriminate.
    simpl. rewrite H1. simpl. f_equal. unfold wrap64. apply Z.mod_small. lia.
Qed.

Lemma getHL_NodeNumberOfPoints_spec_witness :
  dims_ok Sample.a_memory (Sample.a_dataset "/d") /\
  getHL_NodeNumberOfPoints Sample.a_memory (Sample.a_dataset "/d") = Some 6.
Proof.
  assert (Hok : dims_ok Sample.a_memory (Sample.a_dataset "/d"))
    by (exists [2; 3]; split; reflexivity).
  split; [exact Hok|].
  destruct (getHL_NodeNumberOfPoints_spec _ _ Hok) as (_ & _ & H).
  destruct (H ltac:(simpl; lia) 1%positive [2; 3] eq_refl eq_refl) as [_ Hp].
  apply Hp. unfold product. simpl. lia.
Defined.


(** C9, as stated, fails: with four extents of 65536 the product is 2^64
    and the function returns 0. *)
Lemma getHL_NodeNumberOfPoints_overflow :
  let m := mkMemory (<[1%positive := [65536; 65536; 65536; 65536]]> ∅) ∅ in
  let node := set_dimensions 4 (Some 1%positive) (Sample.a_dataset "/d") in
  dims_ok m node /\
  product [65536; 65536; 65536; 65536] = 2 ^ 64 /\
  getHL_NodeNumberOfPoints m node = Some 0.
Proof.
  split; [exists [65536; 65536; 65536; 65536]; split; reflexivity|].
  split; reflexivity.
Qed.

(** The three values named in the testable properties. *)
Example getHL_NodeNumberOfPoints_values :
  getHL_NodeNumberOfPoints Sample.ten_by_ten (Sample.a_dataset "/d") = Some 100 /\
  getHL_NodeNumberOfPoints Sample.ten_by_ten Sample.a_group = Some 1 /\
  getHL_NodeNumberOfPoints Sample.ten_by_ten
    (set_dimensions 2 None (Sample.a_dataset "/d")) = Some 0.
Proof. repeat split; reflexivity. Qed.

(** C10. [getHL_NodeDimension] returns a value for every node and every
    integer index: 0 when the index is negative, when it is at or beyond
    the dimension count, or when the dimensions array is absent; the
    extent at that index otherwise, which is then a cell of the array. *)
Theorem getHL_NodeDimension_total (m : Memory) (node : HL_Node) (index : Z) :
  dims_ok m node ->
  (exists v, getHL_NodeDimension m node index = Some v) /\
  (index < 0 \/ ndims node <= index \/ dims node = None ->
   getHL_NodeDimension m node index = Some 0) /\
  (0 <= index < ndims node ->
   forall p cells, dims node = Some p -> bufs m !! p = Some cells ->
     exists d, cells !! Z.to_nat index = Some d /\
               getHL_NodeDimension m node index = Some d).
Proof.
  intros Hok.
  assert (Hin : 0 <= index < ndims node ->
   forall p cells, dims node = Some p -> bufs m !! p = Some cells ->
     exists d, cells !! Z.to_nat index = Some d /\
               getHL_NodeDimension m node index = Some d).
  { intros Hi p cells Hp Hc. unfold dims_ok in Hok. rewrite Hp in Hok.
    destruct Hok as (c & Hc' & Hl). rewrite Hc in Hc'. injection Hc' as <-.
    destruct (lookup_lt_is_Some_2 cells (Z.to_nat index)) as [d Hd]; [lia|].
    exists d. split; [exact Hd|].
    unfold getHL_NodeDimension.
    replace (index <? 0) with false by (symmetry; apply Z.ltb_ge; lia).
    replace (index >=? ndims node) with false
      by (symmetry; rewrite Z.geb_leb; apply Z.leb_gt; lia).
    rewrite Hp. rewrite bool_decide_eq_false_2 by discriminate. simpl.
    rewrite Hc. simpl. exact Hd. }
  assert (Hout : index < 0 \/ ndims node <= index \/ dims node = None ->
   getHL_NodeDimension m node index = Some 0).
  { intros H. unfold getHL_NodeDimension.
    destruct (index <? 0) eqn:E1; [reflexivity|].
    destruct (index >=? ndims node) eqn:E2; [reflexivity|].
    apply Z.ltb_ge in E1. rewrite Z.geb_leb in E2. apply Z.leb_gt in E2.
    destruct H as [H|[H|H]]; try lia. rewrite H. reflexivity. }
  split; [|split; assumption].
  destruct (dims node) as [p|] eqn:Hp.
  - destruct (Z_lt_dec index 0); [eexists; apply Hout; lia|].
    destruct (Z_le_dec (ndims node) index); [eexists; apply Hout; lia|].
    unfold dims_ok in Hok. rewrite Hp in Hok. destruct Hok as (c & Hc & Hl).
    destruct (Hin ltac:(lia) p c eq_refl Hc) as (d & _ & Hd). eauto.
  - eexists. apply Hout. auto.
Qed.

Lemma getHL_NodeDimension_total_witness :
  dims_ok Sample.a_memory (Sample.a_dataset "/d") /\
  getHL_NodeDimension Sample.a_memory (Sample.a_dataset "/d") 7 = Some 0.
Proof.
  assert (Hok : dims_ok Sample.a_memory (Sample.a_dataset "/d"))
    by (exists [2; 3]; split; reflexivity).
  split; [exact Hok|].
  destruct (getHL_NodeDimension_total Sample.a_memory (Sample.a_dataset "/d") 7 Hok)
    as (_ & H & _).
  apply H. right. left. simpl. lia.
Defined.

(** ** Copying a node *)

(** Blocks that were allocated before a call survive it. *)
Lemma ext_refl m : ext m m.
Proof. split; auto. Qed.

Lemma ext_dom m0 m p : ext m0 m -> p ∉ dom (bufs m) -> p ∉ dom (bufs m0).
Proof.
  intros [H _] Hp Hin. apply elem_of_dom in Hin as [b Hb].
  apply Hp. apply elem_of_dom. rewrite (H _ _ Hb). eauto.
Qed.

Lemma holds_contents m p n : holds m p n -> Z.of_nat (length (contents m p)) = n.
Proof.
  destruct p as [q|]; simpl.
  - intros (b & -> & <-). reflexivity.
  - intros ->. reflexivity.
Qed.

(** Allocating [n] cells and filling them from a block of [n] cells that
    was there before gives a block, not in use before, with the same
    contents. *)
Lemma malloc_memcpy m0 m src n :
  ext m0 m -> holds m0 src n ->
  (fst (malloc n m) ∉ dom (bufs m)) /\
  memcpy (Some (fst (malloc n m))) src n (snd (malloc n m))
  = Some (mkMemory (<[fst (malloc n m) := contents m0 src]> (bufs m)) (descs m)).
Proof.
  intros Hext Hh.
  pose proof (holds_contents _ _ _ Hh) as Hlen.
  unfold malloc. simpl.
  set (p := fresh (dom (bufs m))).
  assert (Hp : p ∉ dom (bufs m)) by apply is_fresh.
  split; [exact Hp|].
  unfold memcpy. simpl.
  destruct (n =? 0) eqn:En.
  - apply Z.eqb_eq in En. rewrite En in *.
    simpl. destruct (contents m0 src); [reflexivity | simpl in Hlen; lia].
  - apply Z.eqb_neq in En.
    destruct src as [s|]; simpl in Hh; [|lia].
    destruct Hh as (b & Hb & Hbl).
    simpl in Hlen |- *.
    assert (Hs : bufs m !! s = Some b) by (apply Hext; exact Hb).
    assert (Hne : p <> s).
    { intros ->. apply Hp. apply elem_of_dom. eauto. }
    rewrite lookup_insert_eq. rewrite lookup_insert_ne by exact Hne.
    rewrite Hs. rewrite length_replicate.
    replace (n <=? Z.of_nat (Z.to_nat n)) with true by (symmetry; apply Z.leb_le; lia).
    replace (n <=? Z.of_nat (length b)) with true by (symmetry; apply Z.leb_le; lia).
    simpl. rewrite insert_insert_eq. rewrite Hb. simpl.
    rewrite take_ge by lia. rewrite drop_ge by (rewrite length_replicate; lia).
    rewrite app_nil_r. reflexivity.
Qed.

Lemma dims_ok_nonpos_contents m node :
  dims_ok m node -> ~ (0 < ndims node /\ dims node <> None) ->
  contents m (dims node) = [].
Proof.
  unfold dims_ok. destruct (dims node) as [p|]; [|reflexivity].
  intros (c & Hc & Hl) Hn. simpl. rewrite Hc. simpl.
  destruct c; [reflexivity|]. exfalso. apply Hn. simpl in Hl. split; [lia|discriminate].
Qed.

(** [setHL_NodeDimensions], called with the dimensions of [src], gives the
    node an array of its own with the same cells, or none when [src] has
    none to copy. *)
Lemma setHL_NodeDimensions_copy m0 m (src r : HL_Node) :
  ext m0 m -> dims_ok m0 src ->
  (forall q, dims r = Some q -> q ∈ dom (bufs m) /\ q ∉ dom (bufs m0)) ->
  exists d m',
    setHL_NodeDimensions r (ndims src) (dims src) m
    = Some (1, set_dimensions (ndims src) d r, m') /\
    ext m0 m' /\
    (forall q, d = Some q -> q ∈ dom (bufs m') /\ q ∉ dom (bufs m0)) /\
    (d = None <-> ~ (0 < ndims src /\ dims src <> None)) /\
    contents m' d = contents m0 (dims src) /\
    dims_ok m' (set_dimensions (ndims src) d r).
Proof.
  intros Hext Hok Hr. unfold setHL_NodeDimensions.
  destruct ((0 <? ndims src) && bool_decide (dims src <> None)) eqn:Hc.
  - apply andb_true_iff in Hc as [Hpos Hnn].
    apply Z.ltb_lt in Hpos. apply bool_decide_eq_true in Hnn.
    assert (Hh : holds m0 (dims src) (ndims src)).
    { unfold dims_ok in Hok. unfold holds. destruct (dims src); [exact Hok|congruence]. }
    destruct (malloc_memcpy m0 m (dims src) (ndims src) Hext Hh) as [Hfresh Hcpy].
    destruct (malloc (ndims src) m) as [p m1] eqn:Hm. simpl in Hfresh, Hcpy.
    simpl. rewrite Hcpy. simpl.
    eexists (Some p), _. split; [reflexivity|].
    assert (Hp0 : p ∉ dom (bufs m0)) by (eapply ext_dom; eauto).
    assert (Hqp : forall q, dims r = Some q -> q <> p).
    { intros q Hq ->. apply Hfresh. apply (Hr _ Hq). }
    assert (Hlook : forall x, x <> p -> (forall q, dims r = Some q -> x <> q) ->
              bufs (HLHDF_FREE (dims r)
                {| bufs := <[p:=contents m0 (dims src)]> (bufs m); descs := descs m |}) !! x
              = bufs m !! x).
    { intros x Hx Hxq. destruct (dims r) as [q|]; simpl.
      - rewrite lookup_delete_ne by (intros ->; eapply Hxq; eauto).
        rewrite lookup_insert_ne by congruence. reflexivity.
      - rewrite lookup_insert_ne by congruence. reflexivity. }
    assert (Hnew : bufs (HLHDF_FREE (dims r)
                {| bufs := <[p:=contents m0 (dims src)]> (bufs m); descs := descs m |}) !! p
              = Some (contents m0 (dims src))).
    { destruct (dims r) as [q|] eqn:Hq; simpl.
      - rewrite lookup_delete_ne by (apply (Hqp q); reflexivity).
        apply lookup_insert_eq.
      - apply lookup_insert_eq. }
    repeat split.
    + intros x b Hb. rewrite Hlook.
      * apply Hext. exact Hb.
      * intros ->. apply Hp0. apply elem_of_dom. eauto.
      * intros q Hq ->. apply (Hr _ Hq). apply elem_of_dom. eauto.
    + destruct (dims r); simpl; apply Hext.
    + injection H as <-. apply elem_of_dom. rewrite Hnew. eauto.
    + injection H as <-. exact Hp0.
    + discriminate.
    + intros Hn. exfalso. apply Hn. split; assumption.
    + simpl. rewrite Hnew. reflexivity.
    + unfold dims_ok. simpl. eexists. split; [exact Hnew|].
      apply holds_contents. exact Hh.
  - simpl.
    assert (Hn : ~ (0 < ndims src /\ dims src <> None)).
    { intros [H1 H2]. apply andb_false_iff in Hc as [Hc|Hc].
      - apply Z.ltb_ge in Hc. lia.
      - apply bool_decide_eq_false in Hc. contradiction. }
    eexists None, _. split; [reflexivity|].
    repeat split; try discriminate.
    + intros x b Hb. destruct (dims r) as [q|] eqn:Hq; simpl.
      * rewrite lookup_delete_ne.
        -- apply Hext. exact Hb.
        -- intros Heq. subst x. apply (Hr q eq_refl). apply elem_of_dom. eauto.
      * apply Hext. exact Hb.
    + destruct (dims r); simpl; apply Hext.
    + intros _. exact Hn.
    + simpl. symmetry. apply dims_ok_nonpos_contents; assumption.
Qed.

Lemma ext_insert m0 m p b :
  ext m0 m -> p ∉ dom (bufs m) ->
  ext m0 (mkMemory (<[p := b]> (bufs m)) (descs m)).
Proof.
  intros [H1 H2] Hp. split; [|exact H2].
  intros x bx Hx. simpl. rewrite lookup_insert_ne; [apply H1; exact Hx|].
  intros ->. apply Hp. apply elem_of_dom. rewrite (H1 _ _ Hx). eauto.
Qed.

Lemma holds_wrap m p n : holds m p n -> n < 2 ^ 64 -> wrap64 n = n.
Proof.
  intros H Hlt. unfold wrap64. apply Z.mod_small.
  pose proof (holds_contents _ _ _ H). lia.
Qed.

Lemma contents_keep m0 m ptr :
  (forall p b, bufs m0 !! p = Some b -> bufs m !! p = Some b) ->
  (forall p, ptr = Some p -> is_Some (bufs m0 !! p)) ->
  contents m ptr = contents m0 ptr.
Proof.
  intros Hk Hv. destruct ptr as [p|]; [|reflexivity]. simpl.
  destruct (Hv p eq_refl) as [b Hb]. rewrite Hb, (Hk _ _ Hb). reflexivity.
Qed.

Lemma holds_valid m ptr n p : holds m ptr n -> ptr = Some p -> is_Some (bufs m !! p).
Proof. intros H ->. destruct H as (b & Hb & _). eauto. Qed.

Lemma elem_of_buffers q n :
  q ∈ buffers n <-> dims n = Some q \/ data n = Some q \/ rawdata n = Some q.
Proof.
  unfold buffers. rewrite list_elem_of_omap. split.
  - intros (x & Hx & Hid). simpl in Hid. subst x.
    rewrite !elem_of_cons in Hx. rewrite elem_of_nil in Hx.
    destruct Hx as [Hx|[Hx|[Hx|[]]]]; auto.
  - intros H. exists (Some q). split; [|reflexivity].
    rewrite !elem_of_cons. destruct H as [<-|[<-|<-]]; auto.
Qed.

Lemma setHL_NodeDimensions_shape r nd ds m st r' m' :
  setHL_NodeDimensions r nd ds m = Some (st, r', m') ->
  st = 1 /\ exists d, r' = set_dimensions nd d r.
Proof.
  unfold setHL_NodeDimensions.
  destruct (_ && _).
  - destruct (malloc nd m) as [p m1].
    destruct (memcpy (Some p) ds nd m1) as [m2|];
      cbn [mbind option_bind]; [|discriminate].
    intros [= <- <- <-]. eauto.
  - cbn [mbind option_bind]. intros [= <- <- <-]. eauto.
Qed.

Section Copy.
Context {E : H5Engine}.

(** The copy of a node that satisfies the invariants of the data model:
    the fields and buffer contents that are carried over, the ownership
    of the new buffers, and the independence from the original. *)
Lemma copyHL_Node_duplicate (w : World) (node : HL_Node) :
  node_ok (mem w) node ->
  exists c w',
    copyHL_Node (Some node) w = Some (Some c, w') /\
    (name c = name node /\ type c = type node /\ ndims c = ndims node /\
     format c = format node /\ dSize c = dSize node /\
     dataType c = dataType node /\ mark c = mark node /\
     (rawdata node <> None -> rdSize c = rdSize node)) /\
    (contents (mem w') (dims c) = contents (mem w) (dims node) /\
     contents (mem w') (data c) = contents (mem w) (data node) /\
     contents (mem w') (rawdata c) = contents (mem w) (rawdata node)) /\
    ((forall q, q ∈ buffers c -> q ∉ dom (bufs (mem w))) /\
     is_Some (data c) /\
     (is_Some (rawdata c) <-> is_Some (rawdata node))) /\
    ((0 <= typeId node ->
      (typeId c, h5st w') = h5answer (H5Tcopy (typeId node)) (h5st w)) /\
     (typeId node < 0 -> typeId c = -1 /\ h5st w' = h5st w)) /\
    match compoundDescription node with
    | None => compoundDescription c = None
    | Some q => exists q', compoundDescription c = Some q' /\
                           (q' ∉ dom (descs (mem w))) /\
                           descs (mem w') !! q' = descs (mem w) !! q
    end /\
    hdfId c = -1 /\
    ((forall p b, bufs (mem w) !! p = Some b -> bufs (mem w') !! p = Some b) /\
     (forall p d, descs (mem w) !! p = Some d -> descs (mem w') !! p = Some d)) /\
    (forall q v, q ∈ buffers c ->
       let m'' := mkMemory (<[q := v]> (bufs (mem w'))) (descs (mem w')) in
       contents m'' (dims node) = contents (mem w) (dims node) /\
       contents m'' (data node) = contents (mem w) (data node) /\
       contents m'' (rawdata node) = contents (mem w) (rawdata node)).
Proof.
  intros (Hdims & Hdata & Hcd).
  set (m0 := mem w) in *.
  pose proof (npts_by_cases m0 node Hdims) as Hn0.
  match type of Hn0 with _ = Some ?v => set (npts := v) in * end.
  destruct (Hdata npts Hn0) as (Hdlt & Hdh & Hraw). clear Hdata.
  unfold copyHL_Node. simpl newHL_Node. cbv iota. fold m0.
  (* first setHL_NodeDimensions *)
  match goal with |- context [setHL_NodeDimensions ?r _ _ _] => set (r0 := r) end.
  destruct (setHL_NodeDimensions_copy m0 m0 node r0 (ext_refl m0) Hdims)
    as (d1 & m1 & Hs1 & He1 & Hd1 & _ & _ & _); [discriminate|].
  rewrite Hs1. simpl. 
  (* second *)
  match goal with |- context [setHL_NodeDimensions ?r _ _ _] => set (r1 := r) end.
  destruct (setHL_NodeDimensions_copy m0 m1 node r1 He1 Hdims)
    as (d2 & m2 & Hs2 & He2 & Hd2 & Hd2n & Hd2c & Hd2ok); [exact Hd1|].
  rewrite Hs2. simpl.
  assert (Hn2 : getHL_NodeNumberOfPoints m2 (set_dimensions (ndims node) d2 r1)
                = Some npts).
  { rewrite (npts_by_cases _ _ Hd2ok). simpl. rewrite Hd2c. f_equal. unfold npts.
    destruct (ndims node =? 0); [reflexivity|].
    destruct (0 <? ndims node) eqn:Epos; [|reflexivity]. simpl.
    apply Z.ltb_lt in Epos.
    destruct (decide (dims node = None)) as [Hp|Hp].
    - rewrite (bool_decide_eq_false_2 (dims node <> None)) by tauto.
      rewrite bool_decide_eq_false_2; [reflexivity|].
      intros Hd. apply Hd. apply Hd2n. tauto.
    - rewrite (bool_decide_eq_true_2 (dims node <> None)) by exact Hp.
      rewrite bool_decide_eq_true_2; [reflexivity|].
      intros Hd. apply Hd2n in Hd. tauto. }
  rewrite Hn2. cbn [mbind option_bind].
  set (r2 := set_dimensions (ndims node) d2 r1) in *.
  (* data *)
  pose proof (malloc_memcpy m0 m2 (data node) (npts * dSize node) He2 Hdh)
    as [Hfd Hcpd].
  unfold malloc in Hfd, Hcpd. cbn [fst snd] in Hfd, Hcpd.
  cbn [dSize set_dimensions set_rdSize set_dSize set_type r2 r1] .
  rewrite (holds_wrap _ _ _ Hdh Hdlt). rewrite Hcpd. cbn [mbind option_bind].
  set (pd := fresh (dom (bufs m2))) in *.
  set (m3 := {| bufs := <[pd:=contents m0 (data node)]> (bufs m2); descs := descs m2 |}).
  assert (He3 : ext m0 m3) by (unfold m3; apply ext_insert; [exact He2|exact Hfd]).
  assert (Hpd0 : pd ∉ dom (bufs m0)) by exact (ext_dom m0 m2 pd He2 Hfd).
  (* rawdata *)
  assert (Hrawstep : exists rp rs m4,
    (if bool_decide (rawdata node <> None)
     then memcpy (Some (fresh (dom (bufs m3)))) (rawdata node)
            (wrap64 (npts * rdSize node))
            {| bufs := <[fresh (dom (bufs m3)):=replicate
                          (Z.to_nat (wrap64 (npts * rdSize node))) 0]> (bufs m3);
               descs := descs m3 |}
          ≫= (λ m4 : Memory,
               Some (set_rawdata (Some (fresh (dom (bufs m3)))) (set_data (Some pd) r2), m4))
     else Some (set_rawdata None (set_rdSize 0 (set_data (Some pd) r2)), m3))
    = Some (set_rawdata rp (set_rdSize rs (set_data (Some pd) r2)), m4) /\
    ext m0 m4 /\
    (forall q, rp = Some q -> q ∉ dom (bufs m3)) /\
    (is_Some rp <-> is_Some (rawdata node)) /\
    (rawdata node <> None -> rs = rdSize node) /\
    contents m4 rp = contents m0 (rawdata node) /\
    (forall x b, bufs m3 !! x = Some b -> bufs m4 !! x = Some b)).
  { destruct (rawdata node) as [pr|] eqn:Hpr.
    - rewrite bool_decide_eq_true_2 by discriminate.
      destruct Hraw as [Hrlt Hrh]; [discriminate|].
      pose proof (malloc_memcpy m0 m3 (Some pr) (npts * rdSize node) He3 Hrh)
        as [Hfr Hcpr].
      unfold malloc in Hfr, Hcpr. cbn [fst snd] in Hfr, Hcpr.
      rewrite (holds_wrap _ _ _ Hrh Hrlt). rewrite Hcpr. cbn [mbind option_bind].
      eexists (Some (fresh (dom (bufs m3)))), (rdSize node), _.
      split; [reflexivity|].
      split; [apply ext_insert; assumption|].
      split; [intros q [= <-]; exact Hfr|].
      split; [split; eauto|].
      split; [reflexivity|].
      split.
      + cbn [contents bufs]. rewrite lookup_insert_eq. reflexivity.
      + intros x b Hx. cbn [bufs]. rewrite lookup_insert_ne; [exact Hx|].
        intros <-. apply Hfr. apply elem_of_dom. eauto.
    - rewrite bool_decide_eq_false_2 by tauto.
      eexists None, 0, m3. split; [reflexivity|].
      split; [exact He3|].
      split; [discriminate|].
      split; [split; intros [? [=]]|].
      split; [tauto|].
      split; [reflexivity|auto]. }
  destruct Hrawstep as (rp & rs & m4 & Hstep & He4 & Hrpf & Hrps & Hrs & Hrpc & Hkeep).
  rewrite Hstep. cbn [mbind option_bind].
  set (r3 := set_rawdata rp (set_rdSize rs (set_data (Some pd) r2))) in *.
  assert (Hvd : forall p, dims node = Some p -> is_Some (bufs m0 !! p)).
  { intros p Hp. unfold dims_ok in Hdims. rewrite Hp in Hdims.
    destruct Hdims as (c & Hc & _). eauto. }
  assert (Hvdat : forall p, data node = Some p -> is_Some (bufs m0 !! p))
    by (intros p; apply (holds_valid _ _ _ _ Hdh)).
  assert (Hvraw : forall p, rawdata node = Some p -> is_Some (bufs m0 !! p)).
  { intros p Hp. destruct Hraw as [_ Hh]; [congruence|].
    apply (holds_valid _ _ _ _ Hh Hp). }
  assert (Hk4 : forall p b, bufs m0 !! p = Some b -> bufs m4 !! p = Some b)
    by apply He4.
  assert (F2 : contents m4 d2 = contents m0 (dims node)).
  { rewrite <- Hd2c. destruct d2 as [q|]; [|reflexivity]. simpl.
    destruct (Hd2 q eq_refl) as [Hin _]. apply elem_of_dom in Hin as [b Hb].
    rewrite Hb. rewrite (Hkeep q b); [reflexivity|].
    unfold m3. cbn [bufs]. rewrite lookup_insert_ne; [exact Hb|].
    intros <-. apply Hfd. apply elem_of_dom. eauto. }
  assert (F3 : contents m4 (Some pd) = contents m0 (data node)).
  { simpl. rewrite (Hkeep pd (contents m0 (data node))); [reflexivity|].
    unfold m3. cbn [bufs]. apply lookup_insert_eq. }
  assert (Ffresh : forall q, d2 = Some q \/ Some pd = Some q \/ rp = Some q ->
                             q ∉ dom (bufs m0)).
  { intros q [Hq|[Hq|Hq]].
    - apply (Hd2 q Hq).
    - injection Hq as <-. exact Hpd0.
    - apply (ext_dom m0 m3 q He3). apply Hrpf. exact Hq. }
  assert (Findep : forall q v ptr, q ∉ dom (bufs m0) ->
            (forall p, ptr = Some p -> is_Some (bufs m0 !! p)) ->
            forall ds, contents (mkMemory (<[q := v]> (bufs m4)) ds) ptr = contents m0 ptr).
  { intros q v ptr Hq Hv ds. apply contents_keep; [|exact Hv].
    intros p b Hb. cbn [bufs]. rewrite lookup_insert_ne; [apply Hk4; exact Hb|].
    intros <-. apply Hq. apply elem_of_dom. eauto. }
  assert (Hdescs : descs m4 = descs m0) by apply He4.
  assert (Hcstep : exists cd m5,
     copyHL_CompoundTypeDescription (compoundDescription node) m4 = Some (cd, m5) /\
     bufs m5 = bufs m4 /\
     (forall p d, descs m0 !! p = Some d -> descs m5 !! p = Some d) /\
     match compoundDescription node with
     | None => cd = None
     | Some q => exists q', cd = Some q' /\ (q' ∉ dom (descs m0)) /\
                            descs m5 !! q' = descs m0 !! q
     end).
  { unfold copyHL_CompoundTypeDescription.
    destruct (compoundDescription node) as [q|].
    - destruct Hcd as [v Hv]. rewrite Hdescs, Hv. cbn [mbind option_bind].
      eexists _, _. split; [reflexivity|]. cbn [bufs descs].
      split; [reflexivity|]. 
      assert (Hf : fresh (dom (descs m0)) ∉ dom (descs m0)) by apply is_fresh.
      split.
      + intros p d Hp. rewrite lookup_insert_ne; [exact Hp|].
        intros <-. apply Hf. apply elem_of_dom. eauto.
      + eexists. split; [reflexivity|]. split; [exact Hf|].
        rewrite lookup_insert_eq. reflexivity.
    - eexists None, m4. repeat split; auto. rewrite Hdescs. auto. }
  destruct Hcstep as (cd & m5 & Hcs & Hb5 & Hkd & Hcdp).
  assert (Hfinal : forall t s cl,
    let c := set_compoundDescription cd (set_mark (mark node) (set_hdfId (-1)
               (set_dataType (dataType node) (set_typeId t (set_format (format node) r3))))) in
    let w' := mkWorld m5 s cl in
    (name c = name node /\ type c = type node /\ ndims c = ndims node /\
     format c = format node /\ dSize c = dSize node /\
     dataType c = dataType node /\ mark c = mark node /\
     (rawdata node <> None -> rdSize c = rdSize node)) /\
    (contents (mem w') (dims c) = contents m0 (dims node) /\
     contents (mem w') (data c) = contents m0 (data node) /\
     contents (mem w') (rawdata c) = contents m0 (rawdata node)) /\
    ((forall q, q ∈ buffers c -> q ∉ dom (bufs m0)) /\
     is_Some (data c) /\
     (is_Some (rawdata c) <-> is_Some (rawdata node))) /\
    match compoundDescription node with
    | None => compoundDescription c = None
    | Some q => exists q', compoundDescription c = Some q' /\
                           (q' ∉ dom (descs m0)) /\
                           descs (mem w') !! q' = descs m0 !! q
    end /\
    hdfId c = -1 /\
    ((forall p b, bufs m0 !! p = Some b -> bufs (mem w') !! p = Some b) /\
     (forall p d, descs m0 !! p = Some d -> descs (mem w') !! p = Some d)) /\
    (forall q v, q ∈ buffers c ->
       let m'' := mkMemory (<[q := v]> (bufs (mem w'))) (descs (mem w')) in
       contents m'' (dims node) = contents m0 (dims node) /\
       contents m'' (data node) = contents m0 (data node) /\
       contents m'' (rawdata node) = contents m0 (rawdata node))).
  { intros t s cl c w'. subst c w'. cbn [mem].
    assert (Hcont : forall ptr, contents m5 ptr = contents m4 ptr).
    { intros [p|]; simpl; [rewrite Hb5|]; reflexivity. }
    split; [cbn; repeat split; auto|].
    split; [cbn [dims data rawdata set_compoundDescription set_mark set_hdfId
                 set_dataType set_typeId set_format set_rawdata set_rdSize set_data
                 set_dimensions r3 r2];
            rewrite !Hcont; repeat split; assumption|].
    split.
    { split; [|split; [cbn; eauto|cbn; exact Hrps]].
      intros q Hq. apply elem_of_buffers in Hq. cbn in Hq. apply Ffresh. exact Hq. }
    split; [exact Hcdp|].
    split; [reflexivity|].
    split; [split; [rewrite Hb5; exact Hk4|exact Hkd]|].
    intros q v Hq. apply elem_of_buffers in Hq. cbn in Hq.
    apply Ffresh in Hq. cbn zeta. rewrite Hb5.
    repeat split; apply Findep; assumption. }
  destruct (0 <=? typeId node) eqn:Et.
  - unfold h5. cbn [h5st mem calls].
    destruct (h5answer (H5Tcopy (typeId node)) (h5st w)) as [t s'] eqn:Ha.
    cbn [mem]. rewrite Hcs. cbn [mbind option_bind h5st calls].
    eexists _, _. split; [reflexivity|].
    destruct (Hfinal t s' (calls w ++ [H5Tcopy (typeId node)]))
      as (P1 & P2 & P3 & P4 & P5 & P6 & P7).
    split; [exact P1|]. split; [exact P2|]. split; [exact P3|].
    split.
    { split.
      - intros _. cbn. reflexivity.
      - intros Hneg. apply Z.leb_le in Et. lia. }
    split; [exact P4|]. split; [exact P5|]. split; [exact P6|exact P7].
  - cbn [mem]. rewrite Hcs. cbn [mbind option_bind h5st calls].
    eexists _, _. split; [reflexivity|].
    destruct (Hfinal (-1) (h5st w) (calls w))
      as (P1 & P2 & P3 & P4 & P5 & P6 & P7).
    split; [exact P1|]. split; [exact P2|]. split; [exact P3|].
    split.
    { split.
      - intros Hpos. apply Z.leb_gt in Et. lia.
      - intros _. cbn. split; reflexivity. }
    split; [exact P4|]. split; [exact P5|]. split; [exact P6|exact P7].
Qed.

(** What [copyHL_Node] does not carry over: it never assigns
    [retv->compression], and it zeroes [rdSize] when there is no raw
    data. *)
Lemma copyHL_Node_not_copied node w c w' :
  copyHL_Node (Some node) w = Some (Some c, w') ->
  compression c = None /\ (rawdata node = None -> rdSize c = 0).
Proof.
  intros H. unfold copyHL_Node in H. simpl newHL_Node in H. cbv iota in H.
  destruct (setHL_NodeDimensions _ _ _ (mem w)) as [[[st1 r1] m1]|] eqn:H1;
    cbn [mbind option_bind] in H; [|discriminate].
  apply setHL_NodeDimensions_shape in H1 as [-> [d1 ->]].
  change (1 =? 0) with false in H. cbv iota in H.
  destruct (setHL_NodeDimensions _ _ _ m1) as [[[st2 r2] m2]|] eqn:H2;
    cbn [mbind option_bind] in H; [|discriminate].
  apply setHL_NodeDimensions_shape in H2 as [-> [d2 ->]].
  change (1 =? 0) with false in H. cbv iota in H.
  destruct (getHL_NodeNumberOfPoints _ _) as [npts|];
    cbn [mbind option_bind] in H; [|discriminate].
  destruct (malloc _ m2) as [pd m3].
  destruct (memcpy _ (data node) _ m3) as [m3'|];
    cbn [mbind option_bind] in H; [|discriminate].
  destruct (rawdata node) as [pr|] eqn:Hraw.
  - rewrite bool_decide_eq_true_2 in H by discriminate.
    destruct (malloc _ m3') as [pr' m4].
    destruct (memcpy _ _ _ m4) as [m4'|];
      cbn [mbind option_bind] in H; [|discriminate].
    destruct (0 <=? typeId node).
    + destruct (h5 _ _) as [t w1].
      destruct (copyHL_CompoundTypeDescription _ _) as [[cd m5]|];
        cbn [mbind option_bind] in H; [|discriminate].
      injection H as <- <-. split; [reflexivity|discriminate].
    + destruct (copyHL_CompoundTypeDescription _ _) as [[cd m5]|];
        cbn [mbind option_bind] in H; [|discriminate].
      injection H as <- <-. split; [reflexivity|discriminate].
  - rewrite bool_decide_eq_false_2 in H by (intros Hx; apply Hx; reflexivity).
    cbn [mbind option_bind] in H.
    destruct (0 <=? typeId node).
    + destruct (h5 _ _) as [t w1].
      destruct (copyHL_CompoundTypeDescription _ _) as [[cd m5]|];
        cbn [mbind option_bind] in H; [|discriminate].
      injection H as <- <-. split; reflexivity.
    + destruct (copyHL_CompoundTypeDescription _ _) as [[cd m5]|];
        cbn [mbind option_bind] in H; [|discriminate].
      injection H as <- <-. split; reflexivity.
Qed.

(** A scalar node that announces a data size but has no data: the
    [memcpy] of [copyHL_Node] reads through [NULL]. *)
Lemma copyHL_Node_null_data node w :
  ndims node = 0 -> data node = None -> 0 < dSize node < 2 ^ 64 ->
  copyHL_Node (Some node) w = None.
Proof.
  intros Hn Hd Hs. unfold copyHL_Node. simpl newHL_Node. cbv iota.
  destruct (setHL_NodeDimensions _ _ _ (mem w)) as [[[st1 r1] m1]|] eqn:H1;
    cbn [mbind option_bind]; [|reflexivity].
  apply setHL_NodeDimensions_shape in H1 as [-> [d1 ->]].
  change (1 =? 0) with false. cbv iota.
  destruct (setHL_NodeDimensions _ _ _ m1) as [[[st2 r2] m2]|] eqn:H2;
    cbn [mbind option_bind]; [|reflexivity].
  apply setHL_NodeDimensions_shape in H2 as [-> [d2 ->]].
  change (1 =? 0) with false. cbv iota.
  unfold getHL_NodeNumberOfPoints. cbn [ndims set_dimensions]. rewrite Hn.
  change (0 =? 0) with true. cbv iota. cbn [mbind option_bind].
  cbn [dSize set_dimensions set_rdSize set_dSize set_type].
  unfold malloc. cbv zeta. cbn [data set_data].
  unfold memcpy. rewrite Hd.
  replace (wrap64 (1 * dSize node)) with (dSize node)
    by (unfold wrap64; rewrite Z.mul_1_l, Z.mod_small; lia).
  replace (dSize node =? 0) with false by (symmetry; apply Z.eqb_neq; lia).
  reflexivity.
Qed.

(** C8 (as amended). For every node whose buffers hold what its rank and
    sizes announce ([node_ok]: [dims] has [ndims] cells, [data] holds
    [dSize] bytes for each point, [rawdata], when present, [rdSize] bytes
    for each point), [copyHL_Node] returns a copy that owns its own
    buffers and is equal to the original in name, type, rank, format,
    [dSize], data type and mark, but not in every field: [rdSize] is the
    original's when there is raw data and 0 when there is none, and the
    compression settings are not copied (the copy has none). The buffers
    for the dimensions, the data and the raw data hold the same contents
    and were not allocated before the call; the type handle is the
    engine's duplicate of the original's when the original has one; the
    compound description is newly allocated with the same fields; the
    storage handle is always -1. Every buffer of the original is kept as
    it was, and a later write through any buffer of the copy leaves the
    contents of the original's buffers unchanged. *)
Theorem copyHL_Node_independent (w : World) (node : HL_Node) :
  node_ok (mem w) node ->
  exists c w',
    copyHL_Node (Some node) w = Some (Some c, w') /\
    (name c = name node /\ type c = type node /\ ndims c = ndims node /\
     format c = format node /\ dSize c = dSize node /\
     dataType c = dataType node /\ mark c = mark node /\
     (rawdata node <> None -> rdSize c = rdSize node)) /\
    (contents (mem w') (dims c) = contents (mem w) (dims node) /\
     contents (mem w') (data c) = contents (mem w) (data node) /\
     contents (mem w') (rawdata c) = contents (mem w) (rawdata node)) /\
    ((forall q, q ∈ buffers c -> q ∉ dom (bufs (mem w))) /\
     is_Some (data c) /\
     (is_Some (rawdata c) <-> is_Some (rawdata node))) /\
    ((0 <= typeId node ->
      (typeId c, h5st w') = h5answer (H5Tcopy (typeId node)) (h5st w)) /\
     (typeId node < 0 -> typeId c = -1 /\ h5st w' = h5st w)) /\
    match compoundDescription node with
    | None => compoundDescription c = None
    | Some q => exists q', compoundDescription c = Some q' /\
                           (q' ∉ dom (descs (mem w))) /\
                           descs (mem w') !! q' = descs (mem w) !! q
    end /\
    hdfId c = -1 /\
    ((forall p b, bufs (mem w) !! p = Some b -> bufs (mem w') !! p = Some b) /\
     (forall p d, descs (mem w) !! p = Some d -> descs (mem w') !! p = Some d)) /\
    (forall q v, q ∈ buffers c ->
       let m'' := mkMemory (<[q := v]> (bufs (mem w'))) (descs (mem w')) in
       contents m'' (dims node) = contents (mem w) (dims node) /\
       contents m'' (data node) = contents (mem w) (data node) /\
       contents m'' (rawdata node) = contents (mem w) (rawdata node)) /\
    compression c = None /\
    (rawdata node = None -> rdSize c = 0).
Proof.
  intros Hok.
  destruct (copyHL_Node_duplicate w node Hok)
    as (c & w' & Heq & P1 & P2 & P3 & P4 & P5 & P6 & P7 & P8).
  destruct (copyHL_Node_not_copied node w c w' Heq) as [Q1 Q2].
  exists c, w'.
  split; [exact Heq|]. split; [exact P1|]. split; [exact P2|].
  split; [exact P3|]. split; [exact P4|]. split; [exact P5|].
  split; [exact P6|]. split; [exact P7|]. split; [exact P8|].
  split; [exact Q1|exact Q2].
Qed.
End Copy.

Lemma copyHL_Node_independent_witness :
  node_ok Sample.a_memory (Sample.a_dataset "/d") /\
  exists c w',
    copyHL_Node (Some (Sample.a_dataset "/d"))
      (@mkWorld MiniH5.engine Sample.a_memory MiniH5.empty []) = Some (Some c, w') /\
    hdfId c = -1 /\
    contents (mem w') (data c) = [10; 11; 12; 13; 14; 15].
Proof.
  assert (Hok : node_ok Sample.a_memory (Sample.a_dataset "/d")).
  { split; [exists [2; 3]; split; reflexivity|].
    split; [|exact I].
    intros npts Hn. vm_compute in Hn. injection Hn as <-.
    split; [reflexivity|].
    split; [exists [10; 11; 12; 13; 14; 15]; split; reflexivity|].
    intros H. exfalso. apply H. reflexivity. }
  split; [exact Hok|].
  destruct (copyHL_Node_independent (@mkWorld MiniH5.engine Sample.a_memory MiniH5.empty [])
              (Sample.a_dataset "/d") Hok)
    as (c & w' & Hc & _ & (_ & Hd & _) & _ & _ & _ & Hh & _).
  exists c, w'. split; [exact Hc|]. split; [exact Hh|exact Hd].
Defined.


(** C8, as stated, fails. A node with compression settings and a raw-data
    size but no raw data satisfies the invariants, and its copy has no
    compression settings and a raw-data size of 0: the copy is not equal
    in value. And the claim does not hold of every node: for a scalar
    node that announces four bytes of data and has none, the [memcpy] of
    [copyHL_Node] reads through [NULL]. *)
Lemma copyHL_Node_not_value_equal :
  let node := set_compression (Some (mkCompression CT_ZLIB 6 0 0))
                (set_rdSize 7 (Sample.a_dataset "/d")) in
  let w := @mkWorld MiniH5.engine Sample.a_memory MiniH5.empty [] in
  node_ok (mem w) node /\
  (exists c w',
     copyHL_Node (Some node) w = Some (Some c, w') /\
     compression c = None /\ compression node <> None /\
     rdSize c = 0 /\ rdSize node = 7) /\
  copyHL_Node (Some (Sample.node_of ATTRIBUTE_ID "/a" NMARK_CREATED)) w = None.
Proof.
  cbv zeta.
  assert (Hok : node_ok Sample.a_memory
                  (set_compression (Some (mkCompression CT_ZLIB 6 0 0))
                     (set_rdSize 7 (Sample.a_dataset "/d")))).
  { split; [exists [2; 3]; split; reflexivity|].
    split; [|exact I].
    intros npts Hn. vm_compute in Hn. injection Hn as <-.
    split; [reflexivity|].
    split; [exists [10; 11; 12; 13; 14; 15]; split; reflexivity|].
    intros H. exfalso. apply H. reflexivity. }
  split; [exact Hok|]. split.
  - destruct (copyHL_Node_duplicate
                (@mkWorld MiniH5.engine Sample.a_memory MiniH5.empty []) _ Hok)
      as (c & w' & Heq & _).
    destruct (copyHL_Node_not_copied _ _ _ _ Heq) as [Q1 Q2].
    exists c, w'. split; [exact Heq|]. split; [exact Q1|].
    split; [discriminate|]. split; [apply Q2; reflexivity|reflexivity].
  - apply copyHL_Node_null_data; [reflexivity|reflexivity|simpl; lia].
Qed.

(** ** Lookup by path depends on the paths only *)

Lemma getHL_Node_from_names l1 l2 nm i :
  Forall2 (fun a b => name a = name b) l1 l2 ->
  getHL_Node_from l1 nm i = getHL_Node_from l2 nm i.
Proof.
  intros H. revert i. induction H as [|a b l1 l2 Hab _ IH]; intros i; simpl.
  - reflexivity.
  - rewrite Hab. destruct (String.eqb (name b) nm); [reflexivity|apply IH].
Qed.

Lemma same_created_names l1 l2 :
  same_created l1 l2 -> Forall2 (fun a b => name a = name b) l1 l2.
Proof. induction 1 as [|a b l1 l2 [H _] _ IH]; constructor; assumption. Qed.

Lemma same_created_refl l : same_created l l.
Proof. induction l; constructor; auto. Qed.


Lemma same_names_refl l : same_names l l.
Proof. induction l; constructor; auto. Qed.

Lemma same_names_insert l j c c' :
  l !! j = Some c -> name c' = name c -> same_names (<[j := c']> l) l.
Proof.
  intros Hj Hn. rewrite <- (list_insert_id l j c Hj) at 2.
  apply Forall2_insert; [apply same_names_refl|exact Hn].
Qed.

Lemma same_names_trans l1 l2 l3 :
  same_names l1 l2 -> same_names l2 l3 -> same_names l1 l3.
Proof.
  unfold same_names. intros H. revert l3.
  induction H as [|a b l1 l2 Hab _ IH]; intros l3 H3.
  - exact H3.
  - inversion H3 as [|? c ? l3' Hbc H3']; subst.
    constructor; [congruence|apply IH; exact H3'].
Qed.


(** ** The incremental update *)

Section Update.
Context {E : H5Engine}.

(** One iteration writes at most the node of its index, and nothing at
    all when that node is not Created. *)
Lemma updateHL_NodeList_iter_frame gid file_id j st w :
  let '(ok, st', w') := updateHL_NodeList_iter gid file_id j st w in
  (forall k, k <> j -> ls_nodes st' !! k = ls_nodes st !! k) /\
  (forall c, ls_nodes st !! j = Some c -> mark c <> NMARK_CREATED ->
             ok = true /\ st' = st /\ w' = w).
Proof.
  unfold updateHL_NodeList_iter.
  destruct (ls_nodes st !! j) as [child|] eqn:Hj; [|split; [auto|discriminate]].
  destruct (bool_decide (mark child = NMARK_CREATED)) eqn:Hm.
  2:{ split; [auto|]. intros; auto. }
  apply bool_decide_eq_true in Hm.
  assert (Hno : forall (ok : bool) (st' : LoopState) (w' : World) c, Some child = Some c ->
            mark c <> NMARK_CREATED -> ok = true /\ st' = st /\ w' = w).
  { intros ? ? ? c [= <-] Hc. contradiction. }
  destruct (extractParentChildName child) as [[parentName childName]|];
    [|split; [auto|apply Hno]].
  destruct (locate_parent (ls_nodes st) (ls_parentNode st) parentName)
    as [parentNode missing].
  destruct missing; [split; [auto|apply Hno]|].
  unfold bind, ret.
  destruct (type child).
  - split; [auto|apply Hno].
  - destruct (doAppendHdf5Attribute _ _ _ _ _ w) as [[status child'] w'].
    split; [|apply Hno]. intros k Hk. simpl. apply list_lookup_insert_ne. auto.
  - destruct (doAppendHdf5Group _ _ _ _ _ w) as [[status child'] w'].
    split; [|apply Hno]. intros k Hk. simpl. apply list_lookup_insert_ne. auto.
  - destruct (ls_compression st).
    + destruct (doAppendHdf5Dataset _ _ _ _ _ _ w) as [[[status child'] c'] w'].
      split; [|apply Hno]. intros k Hk. simpl. apply list_lookup_insert_ne. auto.
    + destruct (doAppendHdf5Dataset _ _ _ _ _ _ w) as [[[status child'] c'] w'].
      split; [|apply Hno]. intros k Hk. simpl. apply list_lookup_insert_ne. auto.
  - destruct (doWriteHdf5Datatype _ _ _ _ _ w) as [[status child'] w'].
    split; [|apply Hno]. intros k Hk. simpl. apply list_lookup_insert_ne. auto.
  - split; [auto|apply Hno].
Qed.

Lemma updateHL_NodeList_loop_frame gid file_id left :
  forall j st w i n,
    ls_nodes st !! i = Some n -> mark n <> NMARK_CREATED ->
    ls_nodes (snd (fst (updateHL_NodeList_loop gid file_id left j st w))) !! i
    = Some n.
Proof.
  induction left as [|left IH]; intros j st w i n Hi Hn; simpl.
  - exact Hi.
  - unfold bind.
    pose proof (updateHL_NodeList_iter_frame gid file_id j st w) as Hf.
    destruct (updateHL_NodeList_iter gid file_id j st w) as [[ok st'] w'].
    destruct Hf as [Hother Hsame].
    assert (Hi' : ls_nodes st' !! i = Some n).
    { destruct (decide (i = j)) as [->|Hne].
      - destruct (Hsame n Hi Hn) as (_ & -> & _). exact Hi.
      - rewrite Hother by exact Hne. exact Hi. }
    destruct ok; [apply IH; assumption|exact Hi'].
Qed.

Lemma same_created_insert l1 l2 j c :
  same_created l1 l2 -> same_created (<[j := c]> l1) (<[j := c]> l2).
Proof. intros H. apply Forall2_insert; [exact H|]. split; auto. Qed.

(** One iteration cannot tell two such states apart. *)
Lemma updateHL_NodeList_iter_same gid file_id j st1 st2 w :
  same_state st1 st2 ->
  let '(ok1, st1', w1) := updateHL_NodeList_iter gid file_id j st1 w in
  let '(ok2, st2', w2) := updateHL_NodeList_iter gid file_id j st2 w in
  ok1 = ok2 /\ w1 = w2 /\ same_state st1' st2'.
Proof.
  intros (Hn & Hp & Hc).
  unfold updateHL_NodeList_iter.
  pose proof (proj1 (Forall2_lookup _ _ _) Hn j) as Hj.
  destruct (ls_nodes st1 !! j) as [a|], (ls_nodes st2 !! j) as [b|];
    inversion Hj as [? ? [Hab Heq]|]; subst;
    [|repeat split; assumption].
  destruct (bool_decide (mark a = NMARK_CREATED)) eqn:Ha.
  2:{ apply bool_decide_eq_false in Ha.
      rewrite bool_decide_eq_false_2.
      - repeat split; assumption.
      - intros Hb. apply Ha. rewrite (Heq (or_intror Hb)). exact Hb. }
  apply bool_decide_eq_true in Ha.
  specialize (Heq (or_introl Ha)). subst b.
  rewrite bool_decide_eq_true_2 by exact Ha.
  destruct (extractParentChildName a) as [[parentName childName]|];
    [|repeat split; assumption].
  assert (Hloc : locate_parent (ls_nodes st1) (ls_parentNode st1) parentName
                 = locate_parent (ls_nodes st2) (ls_parentNode st2) parentName).
  { unfold locate_parent, getHL_Node.
    rewrite (getHL_Node_from_names _ _ parentName 0%nat (same_created_names _ _ Hn)).
    rewrite Hp. reflexivity. }
  rewrite <- Hloc.
  destruct (locate_parent (ls_nodes st1) (ls_parentNode st1) parentName)
    as [parentNode missing].
  destruct missing; [repeat split; assumption|].
  unfold bind, ret. rewrite <- Hc.
  destruct (type a).
  - repeat split; assumption.
  - change (doAppendHdf5Attribute file_id (deref (ls_nodes st2) parentNode))
      with (doAppendHdf5Attribute file_id (deref (ls_nodes st1) parentNode)).
    destruct (doAppendHdf5Attribute _ _ _ _ _ w) as [[status child'] w'].
    repeat split; simpl; auto using same_created_insert.
  - change (doAppendHdf5Group file_id (deref (ls_nodes st2) parentNode))
      with (doAppendHdf5Group file_id (deref (ls_nodes st1) parentNode)).
    destruct (doAppendHdf5Group _ _ _ _ _ w) as [[status child'] w'].
    repeat split; simpl; auto using same_created_insert.
  - destruct (ls_compression st1).
    + change (doAppendHdf5Dataset gid (deref (ls_nodes st2) parentNode))
        with (doAppendHdf5Dataset gid (deref (ls_nodes st1) parentNode)).
      destruct (doAppendHdf5Dataset _ _ _ _ _ _ w) as [[[status child'] c'] w'].
      repeat split; simpl; auto using same_created_insert.
    + change (doAppendHdf5Dataset gid (deref (ls_nodes st2) parentNode))
        with (doAppendHdf5Dataset gid (deref (ls_nodes st1) parentNode)).
      destruct (doAppendHdf5Dataset _ _ _ _ _ _ w) as [[[status child'] c'] w'].
      repeat split; simpl; auto using same_created_insert.
  - change (doWriteHdf5Datatype file_id (deref (ls_nodes st2) parentNode))
      with (doWriteHdf5Datatype file_id (deref (ls_nodes st1) parentNode)).
    destruct (doWriteHdf5Datatype _ _ _ _ _ w) as [[status child'] w'].
    repeat split; simpl; auto using same_created_insert.
  - repeat split; assumption.
Qed.

Lemma updateHL_NodeList_loop_same gid file_id left :
  forall j st1 st2 w,
    same_state st1 st2 ->
    let '(ok1, st1', w1) := updateHL_NodeList_loop gid file_id left j st1 w in
    let '(ok2, st2', w2) := updateHL_NodeList_loop gid file_id left j st2 w in
    ok1 = ok2 /\ w1 = w2 /\ same_state st1' st2'.
Proof.
  induction left as [|left IH]; intros j st1 st2 w Hs; simpl.
  - repeat split; apply Hs.
  - unfold bind.
    pose proof (updateHL_NodeList_iter_same gid file_id j st1 st2 w Hs) as Hi.
    destruct (updateHL_NodeList_iter gid file_id j st1 w) as [[ok1 st1'] w1].
    destruct (updateHL_NodeList_iter gid file_id j st2 w) as [[ok2 st2'] w2].
    destruct Hi as (<- & <- & Hs').
    destruct ok1; [apply IH; exact Hs'|].
    repeat split; apply Hs'.
Qed.

Lemma updateHL_NodeList_iter_length gid file_id j st w :
  length (ls_nodes (snd (fst (updateHL_NodeList_iter gid file_id j st w))))
  = length (ls_nodes st).
Proof.
  unfold updateHL_NodeList_iter.
  destruct (ls_nodes st !! j) as [child|]; [|reflexivity].
  destruct (bool_decide (mark child = NMARK_CREATED)); [|reflexivity].
  destruct (extractParentChildName child) as [[parentName childName]|];
    [|reflexivity].
  destruct (locate_parent (ls_nodes st) (ls_parentNode st) parentName)
    as [parentNode missing].
  destruct missing; [reflexivity|].
  unfold bind, ret.
  destruct (type child).
  - reflexivity.
  - destruct (doAppendHdf5Attribute _ _ _ _ _ w) as [[status child'] w'].
    simpl. apply length_insert.
  - destruct (doAppendHdf5Group _ _ _ _ _ w) as [[status child'] w'].
    simpl. apply length_insert.
  - destruct (ls_compression st);
      destruct (doAppendHdf5Dataset _ _ _ _ _ _ w) as [[[status child'] c'] w'];
      simpl; apply length_insert.
  - destruct (doWriteHdf5Datatype _ _ _ _ _ w) as [[status child'] w'].
    simpl. apply length_insert.
  - reflexivity.
Qed.

(** The loop over all the positions is the loop body run at the Created
    ones. *)
Lemma updateHL_NodeList_loop_visit gid file_id left :
  forall j st w,
    (j + left <= length (ls_nodes st))%nat ->
    updateHL_NodeList_loop gid file_id left j st w
    = updateHL_NodeList_visit gid file_id
        (List.filter (created_at (ls_nodes st)) (List.seq j left)) st w.
Proof.
  induction left as [|left IH]; intros j st w Hlen; [reflexivity|].
  cbn [List.seq List.filter updateHL_NodeList_loop].
  pose proof (updateHL_NodeList_iter_frame gid file_id j st w) as Hf.
  pose proof (updateHL_NodeList_iter_length gid file_id j st w) as Hl.
  destruct (lookup_lt_is_Some_2 (ls_nodes st) j) as [c Hc]; [lia|].
  unfold created_at at 1. rewrite Hc.
  destruct (bool_decide (mark c = NMARK_CREATED)) eqn:Hm.
  - cbn [updateHL_NodeList_visit]. unfold bind.
    destruct (updateHL_NodeList_iter gid file_id j st w) as [[ok st'] w'].
    destruct Hf as [Hother _]. simpl in Hl.
    destruct ok; [|reflexivity].
    rewrite IH by lia. f_equal.
    apply List.filter_ext_in. intros k Hk. apply List.in_seq in Hk.
    unfold created_at. rewrite Hother by lia. reflexivity.
  - apply bool_decide_eq_false in Hm. unfold bind.
    destruct (updateHL_NodeList_iter gid file_id j st w) as [[ok st'] w'].
    destruct Hf as [_ Hsame].
    destruct (Hsame c Hc Hm) as (-> & -> & ->).
    apply IH. lia.
Qed.

Lemma updateHL_NodeList_is_created_only nodelist compress w :
  updateHL_NodeList nodelist compress w
  = updateHL_NodeList_created_only nodelist compress w.
Proof.
  unfold updateHL_NodeList, updateHL_NodeList_created_only, bind.
  destruct (h5 _ w) as [file_id w1].
  destruct (file_id <? 0); [reflexivity|].
  rewrite updateHL_NodeList_loop_visit by (simpl; lia).
  reflexivity.
Qed.

(** C1. [updateHL_NodeList] writes only the nodes whose mark is Created at
    entry. A node whose mark is Original, Changed or Selected is the same
    node after the call, in all its fields, and it is not handed to the
    storage engine: the pass of the loop over such a node makes no call
    and changes nothing (it returns the loop state and the world it was
    given, call log and engine state included); the whole call is the
    call whose loop visits the positions of the Created nodes and no
    other; and putting any other not-Created node of the same path in the
    place of the node changes neither the status of the call nor the
    engine (its final state and the sequence of calls it received). *)
Theorem updateHL_NodeList_only_created (nodelist : HL_NodeList)
    (compress : option HL_Compression) (w : World) (i : nat) (n : HL_Node) :
  nodes nodelist !! i = Some n ->
  mark n <> NMARK_CREATED ->
  (nodes (snd (fst (fst (updateHL_NodeList nodelist compress w)))) !! i = Some n) /\
  (forall n' : HL_Node,
     name n' = name n -> mark n' <> NMARK_CREATED ->
     let other := mkNodeList (filename nodelist) (<[i := n']> (nodes nodelist)) in
     fst (fst (fst (updateHL_NodeList other compress w)))
       = fst (fst (fst (updateHL_NodeList nodelist compress w))) /\
     snd (updateHL_NodeList other compress w)
       = snd (updateHL_NodeList nodelist compress w)) /\
  (forall (gid file_id : hid_t) (st : LoopState) (w0 : World),
     ls_nodes st !! i = Some n ->
     updateHL_NodeList_iter gid file_id i st w0 = (true, st, w0)) /\
  updateHL_NodeList nodelist compress w
  = updateHL_NodeList_created_only nodelist compress w.
Proof.
  intros Hi Hn.
  split; [|split; [|split; [|apply updateHL_NodeList_is_created_only]]].
  - unfold updateHL_NodeList, bind, ret.
    destruct (h5 _ w) as [file_id w1].
    destruct (file_id <? 0); [exact Hi|].
    pose proof (updateHL_NodeList_loop_frame (-1) file_id
                  (length (nodes nodelist)) 0 (mkLoopState (nodes nodelist) None compress)
                  w1 i n Hi Hn) as Hf.
    destruct (updateHL_NodeList_loop _ _ _ _ _ w1) as [[ok st] w2].
    simpl in Hf.
    destruct (HL_H5G_CLOSE (-1) w2) as [[] w3].
    destruct (HL_H5F_CLOSE file_id w3) as [[] w4].
    destruct (HL_H5T_CLOSE (-1) w4) as [[] w5].
    simpl. exact Hf.
  - intros n' Hname Hmark other.
    assert (Hs : same_state (mkLoopState (nodes other) None compress)
                            (mkLoopState (nodes nodelist) None compress)).
    { split; [|split; reflexivity]. simpl.
      rewrite <- (list_insert_id (nodes nodelist) i n Hi) at 2.
      apply Forall2_insert; [apply same_created_refl|].
      split; [exact Hname|]. intros [H|H]; contradiction. }
    unfold updateHL_NodeList, bind, ret. simpl filename.
    destruct (h5 _ w) as [file_id w1].
    destruct (file_id <? 0); [split; reflexivity|].
    replace (length (nodes other)) with (length (nodes nodelist))
      by (simpl; rewrite length_insert; reflexivity).
    pose proof (updateHL_NodeList_loop_same (-1) file_id (length (nodes nodelist))
                  0 _ _ w1 Hs) as Hl.
    destruct (updateHL_NodeList_loop _ _ _ _ (mkLoopState (nodes other) None compress) w1)
      as [[ok1 st1] w2].
    destruct (updateHL_NodeList_loop _ _ _ _ (mkLoopState (nodes nodelist) None compress) w1)
      as [[ok2 st2] w2'].
    destruct Hl as (<- & <- & _).
    destruct (HL_H5G_CLOSE (-1) w2) as [[] w3].
    destruct (HL_H5F_CLOSE file_id w3) as [[] w4].
    destruct (HL_H5T_CLOSE (-1) w4) as [[] w5].
    simpl. split; reflexivity.
  - intros gid file_id st w0 Hst.
    pose proof (updateHL_NodeList_iter_frame gid file_id i st w0) as Hf.
    destruct (updateHL_NodeList_iter gid file_id i st w0) as [[ok st'] w'].
    destruct Hf as [_ Hsame].
    destruct (Hsame n Hst Hn) as (-> & -> & ->). reflexivity.
Qed.

End Update.

Lemma updateHL_NodeList_only_created_witness :
  nodes (mkNodeList "f.h5" [Sample.a_group; Sample.a_dataset "/g/d"]) !! 0%nat
    = Some Sample.a_group /\
  mark Sample.a_group <> NMARK_CREATED /\
  nodes (snd (fst (fst (updateHL_NodeList
           (mkNodeList "f.h5" [Sample.a_group; Sample.a_dataset "/g/d"]) None
           Sample.file_with_group)))) !! 0%nat = Some Sample.a_group.
Proof.
  split; [reflexivity|]. split; [discriminate|].
  apply (updateHL_NodeList_only_created
           (mkNodeList "f.h5" [Sample.a_group; Sample.a_dataset "/g/d"]) None
           Sample.file_with_group 0%nat Sample.a_group);
    [reflexivity|discriminate].
Defined.

(** ** The full write *)

Section Write.
Context {E : H5Engine}.

(** The writers never change the path of the node they write. *)
Lemma translate_missing_typeId_name c w :
  name (fst (translate_missing_typeId c w)) = name c.
Proof.
  unfold translate_missing_typeId, bind, ret.
  destruct (_ && _); [|reflexivity].
  destruct (h5 _ w). reflexivity.
Qed.

Lemma doWriteHdf5Attribute_name g p pn c cn w :
  name (snd (fst (doWriteHdf5Attribute g p pn c cn w))) = name c.
Proof.
  unfold doWriteHdf5Attribute, bind, ret.
  pose proof (translate_missing_typeId_name c w) as Ht.
  destruct (translate_missing_typeId c w) as [c1 w1]. simpl in Ht.
  destruct (typeId c1 <? 0); [exact Ht|].
  destruct (ndims c1 =? 0).
  - destruct (writeScalarDataAttribute _ _ _ _ w1) as [r w2].
    destruct (r <? 0); exact Ht.
  - destruct (writeSimpleDataAttribute _ _ _ _ _ _ w1) as [r w2].
    destruct (r <? 0); exact Ht.
Qed.

Lemma doWriteHdf5Group_name g p pn c cn w :
  name (snd (fst (doWriteHdf5Group g p pn c cn w))) = name c.
Proof.
  unfold doWriteHdf5Group, bind, ret.
  destruct (bool_decide _).
  - destruct (HL_H5G_CLOSE _ w) as [[] w1]. destruct (h5 _ w1) as [id w2].
    destruct (hdfId _ <? 0); reflexivity.
  - destruct (HL_H5G_CLOSE _ w) as [[] w1]. destruct (h5 _ w1) as [id w2].
    destruct (hdfId _ <? 0); reflexivity.
Qed.

Lemma doWriteHdf5Dataset_name g p pn c cn cm w :
  name (snd (fst (fst (doWriteHdf5Dataset g p pn c cn cm w)))) = name c.
Proof.
  unfold doWriteHdf5Dataset, bind, ret.
  pose proof (translate_missing_typeId_name c w) as Ht.
  destruct (translate_missing_typeId c w) as [c1 w1]. simpl in Ht.
  destruct (typeId c1 <? 0); [exact Ht|].
  destruct (HL_H5D_CLOSE _ w1) as [[] w2].
  destruct (createSimpleDataset _ _ _ _ _ _ _ w2) as [[id cm'] w3].
  destruct (hdfId _ <? 0); exact Ht.
Qed.

Lemma doWriteHdf5Datatype_name g p pn c cn w :
  name (snd (fst (doWriteHdf5Datatype g p pn c cn w))) = name c.
Proof.
  unfold doWriteHdf5Datatype, bind, ret.
  destruct (g <? 0); [reflexivity|].
  destruct (commitType _ _ _ w) as [r w1].
  destruct (r <? 0); [reflexivity|].
  destruct (h5 _ w1) as [cm w2]. destruct (cm <=? 0); reflexivity.
Qed.

Lemma doWriteHdf5Reference_name g f p pn c cn w :
  name (snd (fst (doWriteHdf5Reference g f p pn c cn w))) = name c.
Proof.
  unfold doWriteHdf5Reference, bind, ret.
  destruct (createReference _ _ _ _ w) as [r w1].
  destruct (r <? 0); reflexivity.
Qed.

Lemma writeHL_NodeList_iter_frame gid file_id j st w :
  let '(ok, st', w') := writeHL_NodeList_iter gid file_id j st w in
  same_names (ls_nodes st') (ls_nodes st) /\
  (forall k, k <> j -> ls_nodes st' !! k = ls_nodes st !! k).
Proof.
  unfold writeHL_NodeList_iter.
  assert (Hsame : same_names (ls_nodes st) (ls_nodes st) /\
                  (forall k, k <> j -> ls_nodes st !! k = ls_nodes st !! k))
    by (split; [apply same_names_refl|auto]).
  destruct (ls_nodes st !! j) as [child|] eqn:Hj; [|exact Hsame].
  destruct (extractParentChildName child) as [[parentName childName]|];
    [|exact Hsame].
  destruct (locate_parent (ls_nodes st) (ls_parentNode st) parentName)
    as [parentNode missing].
  destruct missing; [exact Hsame|].
  assert (Hins : forall c', name c' = name child ->
     same_names (<[j := c']> (ls_nodes st)) (ls_nodes st) /\
     (forall k, k <> j -> <[j := c']> (ls_nodes st) !! k = ls_nodes st !! k)).
  { intros c' Hc'. split; [eapply same_names_insert; eauto|].
    intros k Hk. apply list_lookup_insert_ne. auto. }
  unfold bind, ret.
  destruct (type child).
  - exact Hsame.
  - pose proof (doWriteHdf5Attribute_name gid (deref (ls_nodes st) parentNode)
                  parentName child childName w) as Hn.
    destruct (doWriteHdf5Attribute _ _ _ _ _ w) as [[status child'] w'].
    apply Hins. exact Hn.
  - pose proof (doWriteHdf5Group_name gid (deref (ls_nodes st) parentNode)
                  parentName child childName w) as Hn.
    destruct (doWriteHdf5Group _ _ _ _ _ w) as [[status child'] w'].
    apply Hins. exact Hn.
  - destruct (ls_compression st) as [c|].
    + pose proof (doWriteHdf5Dataset_name gid (deref (ls_nodes st) parentNode)
                  parentName child childName (Some c) w) as Hn.
      destruct (doWriteHdf5Dataset _ _ _ _ _ _ w) as [[[status child'] c'] w'].
      apply Hins. exact Hn.
    + pose proof (doWriteHdf5Dataset_name gid (deref (ls_nodes st) parentNode)
                  parentName child childName (compression child) w) as Hn.
      destruct (doWriteHdf5Dataset _ _ _ _ _ _ w) as [[[status child'] c'] w'].
      apply Hins. exact Hn.
  - pose proof (doWriteHdf5Datatype_name file_id (deref (ls_nodes st) parentNode)
                  parentName child childName w) as Hn.
    destruct (doWriteHdf5Datatype _ _ _ _ _ w) as [[status child'] w'].
    apply Hins. exact Hn.
  - pose proof (doWriteHdf5Reference_name gid file_id (deref (ls_nodes st) parentNode)
                  parentName child childName w) as Hn.
    destruct (doWriteHdf5Reference _ _ _ _ _ _ w) as [[status child'] w'].
    apply Hins. exact Hn.
Qed.

(** Reaching a node whose parent is not in the list: [goto fail] at once. *)
Lemma writeHL_NodeList_iter_missing gid file_id i st w child parentName childName :
  ls_nodes st !! i = Some child ->
  extractParentChildName child = Some (parentName, childName) ->
  parentName <> EmptyString ->
  getHL_Node (ls_nodes st) parentName = None ->
  writeHL_NodeList_iter gid file_id i st w
  = (false, mkLoopState (ls_nodes st) None (ls_compression st), w).
Proof.
  intros Hi Hx Hp Hg. unfold writeHL_NodeList_iter. rewrite Hi, Hx.
  unfold locate_parent. rewrite bool_decide_eq_true_2 by exact Hp.
  rewrite Hg. reflexivity.
Qed.

(** Once the loop has left through [goto fail], the remaining nodes play
    no part. *)
Lemma writeHL_NodeList_loop_stops gid file_id a b :
  forall j st w,
    fst (fst (writeHL_NodeList_loop gid file_id a j st w)) = false ->
    writeHL_NodeList_loop gid file_id (a + b) j st w
    = writeHL_NodeList_loop gid file_id a j st w.
Proof.
  induction a as [|a IH]; intros j st w Hf; simpl in *.
  - discriminate.
  - unfold bind in *.
    destruct (writeHL_NodeList_iter gid file_id j st w) as [[ok st'] w'].
    destruct ok; [apply IH; exact Hf|reflexivity].
Qed.

Lemma writeHL_NodeList_loop_frame gid file_id left :
  forall j st w,
    let '(ok, st', w') := writeHL_NodeList_loop gid file_id left j st w in
    same_names (ls_nodes st') (ls_nodes st) /\
    (forall k, (k < j \/ j + left <= k)%nat -> ls_nodes st' !! k = ls_nodes st !! k).
Proof.
  induction left as [|left IH]; intros j st w; simpl.
  - split; [apply same_names_refl|auto].
  - unfold bind.
    pose proof (writeHL_NodeList_iter_frame gid file_id j st w) as Hi.
    destruct (writeHL_NodeList_iter gid file_id j st w) as [[ok st1] w1].
    destruct Hi as [Hn Hk].
    destruct ok.
    + specialize (IH (S j) st1 w1).
      destruct (writeHL_NodeList_loop gid file_id left (S j) st1 w1) as [[ok' st2] w2].
      destruct IH as [Hn2 Hk2]. split; [eapply same_names_trans; eauto|].
      intros k Hr. rewrite Hk2 by lia. apply Hk. lia.
    + split; [exact Hn|]. intros k Hr. apply Hk. lia.
Qed.

Lemma writeHL_NodeList_loop_missing gid file_id child parentName childName d :
  extractParentChildName child = Some (parentName, childName) ->
  parentName <> EmptyString ->
  forall j st w,
    ls_nodes st !! (j + d)%nat = Some child ->
    getHL_Node (ls_nodes st) parentName = None ->
    let '(ok, st', w') := writeHL_NodeList_loop gid file_id (S d) j st w in
    ok = false /\ ls_nodes st' !! (j + d)%nat = Some child.
Proof.
  intros Hx Hp. induction d as [|d IH]; intros j st w Hi Hg.
  - simpl. unfold bind. rewrite Nat.add_0_r in *.
    rewrite (writeHL_NodeList_iter_missing _ _ _ _ _ _ _ _ Hi Hx Hp Hg).
    split; [reflexivity|exact Hi].
  - change (writeHL_NodeList_loop gid file_id (S (S d)) j st w)
      with (bind (writeHL_NodeList_iter gid file_id j st)
              (fun '(ok, st') => if ok then writeHL_NodeList_loop gid file_id (S d) (S j) st'
                                 else ret (false, st')) w).
    unfold bind.
    pose proof (writeHL_NodeList_iter_frame gid file_id j st w) as Hf.
    destruct (writeHL_NodeList_iter gid file_id j st w) as [[ok st1] w1].
    destruct Hf as [Hn Hk].
    assert (Hi1 : ls_nodes st1 !! (j + S d)%nat = Some child)
      by (rewrite Hk by lia; exact Hi).
    destruct ok; [|split; [reflexivity|exact Hi1]].
    replace (j + S d)%nat with (S j + d)%nat in * by lia.
    apply IH; [exact Hi1|].
    unfold getHL_Node in *.
    rewrite (getHL_Node_from_names _ _ parentName 0%nat Hn). exact Hg.
Qed.

(** The iteration of a node whose parent is missing, and every later one,
    makes no call: when the loop ends the engine is as the iterations
    before that node left it. *)
Lemma writeHL_NodeList_loop_missing_world gid file_id child parentName childName d :
  extractParentChildName child = Some (parentName, childName) ->
  parentName <> EmptyString ->
  forall j st w,
    ls_nodes st !! (j + d)%nat = Some child ->
    getHL_Node (ls_nodes st) parentName = None ->
    snd (writeHL_NodeList_loop gid file_id (S d) j st w)
    = snd (writeHL_NodeList_loop gid file_id d j st w).
Proof.
  intros Hx Hp. induction d as [|d IH]; intros j st w Hi Hg.
  - simpl. unfold bind. rewrite Nat.add_0_r in *.
    rewrite (writeHL_NodeList_iter_missing _ _ _ _ _ _ _ _ Hi Hx Hp Hg).
    reflexivity.
  - change (writeHL_NodeList_loop gid file_id (S (S d)) j st w)
      with (bind (writeHL_NodeList_iter gid file_id j st)
              (fun '(ok, st') => if ok then writeHL_NodeList_loop gid file_id (S d) (S j) st'
                                 else ret (false, st')) w).
    change (writeHL_NodeList_loop gid file_id (S d) j st w)
      with (bind (writeHL_NodeList_iter gid file_id j st)
              (fun '(ok, st') => if ok then writeHL_NodeList_loop gid file_id d (S j) st'
                                 else ret (false, st')) w).
    unfold bind.
    pose proof (writeHL_NodeList_iter_frame gid file_id j st w) as Hf.
    destruct (writeHL_NodeList_iter gid file_id j st w) as [[ok st1] w1].
    destruct Hf as [Hn Hk].
    destruct ok; [|reflexivity].
    apply IH.
    + replace (S j + d)%nat with (j + S d)%nat by lia.
      rewrite Hk by lia. exact Hi.
    + unfold getHL_Node in *.
      rewrite (getHL_Node_from_names _ _ parentName 0%nat Hn). exact Hg.
Qed.

Lemma HL_H5_CLOSE_valid close x w :
  0 <= x ->
  HL_H5_CLOSE close x w
  = (tt, mkWorld (mem w) (snd (h5answer (close x) (h5st w))) (calls w ++ [close x])).
Proof.
  intros Hx. unfold HL_H5_CLOSE, bind, ret, h5.
  replace (0 <=? x) with true by (symmetry; apply Z.leb_le; exact Hx).
  destruct (h5answer (close x) (h5st w)). reflexivity.
Qed.

Lemma HL_H5_CLOSE_invalid close x w :
  x < 0 -> HL_H5_CLOSE close x w = (tt, w).
Proof.
  intros Hx. unfold HL_H5_CLOSE, ret.
  replace (0 <=? x) with false by (symmetry; apply Z.leb_gt; exact Hx).
  reflexivity.
Qed.

(** C7 (as amended). In [writeHL_NodeList], when a node has a non-empty
    parent path and no node of the list has that path, the call returns
    failure and aborts before that node or any later one is written: the
    pass of the loop over that node makes no call to the engine and no
    later pass is made, so that when the loop ends the engine has
    received the calls of the nodes before that node and no other, and
    that node and all later ones are unchanged; the only calls that
    follow close the root-group handle and then the file handle that the
    call opened for itself. (When the file could not be created, or its
    root group not opened, no node is written at all.) The handles that
    the call stored in nodes written before the failure are not part of
    this statement. *)
Theorem writeHL_NodeList_missing_parent (nodelist : HL_NodeList)
    (property : option HL_FileCreationProperty)
    (compress : option HL_Compression) (w : World)
    (i : nat) (child : HL_Node) (parentName childName : string) :
  nodes nodelist !! i = Some child ->
  extractParentChildName child = Some (parentName, childName) ->
  parentName <> EmptyString ->
  getHL_Node (nodes nodelist) parentName = None ->
  let r := writeHL_NodeList nodelist property compress w in
  fst (fst (fst r)) = 0 /\
  (forall k, (i <= k)%nat -> nodes (snd (fst (fst r))) !! k = nodes nodelist !! k) /\
  (forall file_id s1 gid s2,
     h5answer (createHlHdfFile (filename nodelist) property) (h5st w) = (file_id, s1) ->
     0 <= file_id ->
     h5answer (H5Gopen file_id ".") s1 = (gid, s2) ->
     0 <= gid ->
     let w2 := mkWorld (mem w) s2
                 ((calls w ++ [createHlHdfFile (filename nodelist) property])
                  ++ [H5Gopen file_id "."]) in
     let st0 := mkLoopState (nodes nodelist) None compress in
     writeHL_NodeList_loop gid file_id (length (nodes nodelist)) 0 st0 w2
     = writeHL_NodeList_loop gid file_id (S i) 0 st0 w2 /\
     (exists pre, calls (snd r) = pre ++ [H5Gclose gid; H5Fclose file_id]) /\
     snd (writeHL_NodeList_loop gid file_id (length (nodes nodelist)) 0 st0 w2)
     = snd (writeHL_NodeList_loop gid file_id i 0 st0 w2) /\
     calls (snd r)
     = calls (snd (writeHL_NodeList_loop gid file_id i 0 st0 w2))
         ++ [H5Gclose gid; H5Fclose file_id] /\
     h5st (snd r)
     = snd (h5answer (H5Fclose file_id)
              (snd (h5answer (H5Gclose gid)
                      (h5st (snd (writeHL_NodeList_loop gid file_id i 0 st0 w2))))))) /\
  (forall file_id s1,
     h5answer (createHlHdfFile (filename nodelist) property) (h5st w) = (file_id, s1) ->
     (file_id < 0 ->
      calls (snd r) = calls w ++ [createHlHdfFile (filename nodelist) property]) /\
     (0 <= file_id -> fst (h5answer (H5Gopen file_id ".") s1) < 0 ->
      calls (snd r)
      = calls w ++ [createHlHdfFile (filename nodelist) property;
                    H5Gopen file_id "."; H5Fclose file_id])).
Proof.
  intros Hi Hx Hp Hg r.
  assert (Hlen : (i < length (nodes nodelist))%nat)
    by (eapply lookup_lt_Some; eauto).
  assert (Hloop : forall gid file_id w2,
    let st0 := mkLoopState (nodes nodelist) None compress in
    writeHL_NodeList_loop gid file_id (length (nodes nodelist)) 0 st0 w2
    = writeHL_NodeList_loop gid file_id (S i) 0 st0 w2 /\
    fst (fst (writeHL_NodeList_loop gid file_id (S i) 0 st0 w2)) = false /\
    (forall k, (i <= k)%nat ->
       ls_nodes (snd (fst (writeHL_NodeList_loop gid file_id (S i) 0 st0 w2))) !! k
       = nodes nodelist !! k)).
  { intros gid file_id w2 st0.
    pose proof (writeHL_NodeList_loop_missing gid file_id child parentName
                  childName i Hx Hp 0%nat st0 w2 Hi Hg) as Hm.
    pose proof (writeHL_NodeList_loop_frame gid file_id (S i) 0%nat st0 w2) as Hf.
    assert (Hstop := writeHL_NodeList_loop_stops gid file_id (S i)
                       (length (nodes nodelist) - S i) 0%nat st0 w2).
    replace (S i + (length (nodes nodelist) - S i))%nat
      with (length (nodes nodelist)) in Hstop by lia.
    destruct (writeHL_NodeList_loop gid file_id (S i) 0 st0 w2) as [[ok st'] w'].
    destruct Hm as [-> Hi']. destruct Hf as [_ Hk].
    split; [apply Hstop; reflexivity|]. split; [reflexivity|].
    intros k Hk'. simpl. destruct (decide (k = i)) as [->|Hne].
    - simpl in Hi'. rewrite Hi'. symmetry. exact Hi.
    - apply Hk. lia. }
  assert (Hr : r = writeHL_NodeList nodelist property compress w) by reflexivity.
  clearbody r.
  unfold writeHL_NodeList, bind, ret, h5 in Hr. cbn [mem h5st calls] in Hr.
  destruct (h5answer (createHlHdfFile (filename nodelist) property) (h5st w))
    as [file_id s1] eqn:Hcreate.
  destruct (file_id <? 0) eqn:Ef.
  { apply Z.ltb_lt in Ef. subst r. cbn [fst snd nodes calls].
    split; [reflexivity|]. split; [intros; reflexivity|].
    split; [intros ? ? ? ? [= <- <-] ?; lia|].
    intros ? ? [= <- <-]. split; [intros _; reflexivity|intros; lia]. }
  apply Z.ltb_ge in Ef.
  cbn [mem h5st calls] in Hr.
  destruct (h5answer (H5Gopen file_id ".") s1) as [gid s2] eqn:Hopen.
  destruct (gid <? 0) eqn:Eg.
  { apply Z.ltb_lt in Eg.
    unfold HL_H5F_CLOSE in Hr. rewrite HL_H5_CLOSE_valid in Hr by exact Ef.
    subst r. cbn [fst snd nodes calls].
    split; [reflexivity|]. split; [intros; reflexivity|].
    split.
    { intros ? ? ? ? [= <- <-] ? Ho ?. rewrite Hopen in Ho.
      injection Ho as <- <-. lia. }
    intros ? ? [= <- <-]. split; [intros; lia|]. intros _ _.
    rewrite <- !List.app_assoc. reflexivity. }
  apply Z.ltb_ge in Eg.
  match type of Hr with context [writeHL_NodeList_loop gid file_id _ _ _ ?w2] =>
    destruct (Hloop gid file_id w2) as (Heq & Hfalse & Hkeep);
    pose proof (writeHL_NodeList_loop_missing_world gid file_id child parentName
                  childName i Hx Hp 0%nat
                  (mkLoopState (nodes nodelist) None compress) w2 Hi Hg) as Hworld
  end.
  rewrite Heq in Hr.
  destruct (writeHL_NodeList_loop gid file_id (S i) 0 _ _) as [[ok st'] w']
    eqn:Hrun.
  simpl in Hfalse, Hkeep. subst ok. cbn [snd] in Hworld.
  unfold HL_H5G_CLOSE, HL_H5F_CLOSE, HL_H5T_CLOSE in Hr.
  rewrite (HL_H5_CLOSE_valid H5Gclose gid w' Eg) in Hr.
  rewrite HL_H5_CLOSE_valid in Hr by exact Ef.
  rewrite HL_H5_CLOSE_invalid in Hr by lia.
  cbn [fst snd nodes calls mem h5st] in Hr. subst r. cbn [fst snd nodes calls h5st].
  split; [reflexivity|]. split; [exact Hkeep|].
  split.
  { intros ? ? ? ? [= <- <-] _ Ho _. rewrite Hopen in Ho. injection Ho as <- <-.
    cbv zeta. rewrite <- Hworld.
    split; [rewrite Hrun; exact Heq|].
    split; [exists (calls w'); rewrite <- List.app_assoc; reflexivity|].
    split; [rewrite Heq; reflexivity|].
    split; [rewrite <- List.app_assoc; reflexivity|reflexivity]. }
  intros ? ? [= <- <-]. split; [intros; lia|].
  intros _ Hneg. rewrite Hopen in Hneg. simpl in Hneg. lia.
Qed.

(** C5 (as amended). When the dispatch of [writeHL_NodeList] or of
    [updateHL_NodeList] reaches a node whose type is none of the five
    recognized variants, the node is skipped: the iteration makes no call
    to the engine, changes no node and lets the loop go on with the next
    node, so that the node has no part in the status of the call. *)
Theorem unrecognized_type_is_skipped (gid file_id : hid_t) (i : nat)
    (st : LoopState) (w : World) (child : HL_Node)
    (parentName childName : string) :
  ls_nodes st !! i = Some child ->
  type child = UNDEFINED_ID ->
  extractParentChildName child = Some (parentName, childName) ->
  (parentName = EmptyString \/ getHL_Node (ls_nodes st) parentName <> None) ->
  (exists p,
     writeHL_NodeList_iter gid file_id i st w
     = (true, mkLoopState (ls_nodes st) p (ls_compression st), w)) /\
  (exists p,
     updateHL_NodeList_iter gid file_id i st w
     = (true, mkLoopState (ls_nodes st) p (ls_compression st), w)).
Proof.
  intros Hi Ht Hx Hp.
  assert (Hloc : exists p, locate_parent (ls_nodes st) (ls_parentNode st) parentName
                           = (p, false)).
  { unfold locate_parent. destruct Hp as [->|Hp].
    - rewrite bool_decide_eq_false_2 by tauto. eauto.
    - destruct (bool_decide (parentName <> EmptyString)); [|eauto].
      rewrite bool_decide_eq_false_2 by exact Hp. eauto. }
  destruct Hloc as [p Hloc].
  split.
  - exists p. unfold writeHL_NodeList_iter. rewrite Hi, Hx, Hloc, Ht. reflexivity.
  - unfold updateHL_NodeList_iter. rewrite Hi.
    destruct (bool_decide (mark child = NMARK_CREATED)).
    + exists p. rewrite Hx, Hloc, Ht. reflexivity.
    + exists (ls_parentNode st). destruct st; reflexivity.
Qed.

End Write.

Lemma writeHL_NodeList_missing_parent_witness :
  nodes (mkNodeList "f.h5"
           [Sample.node_of GROUP_ID "/g" NMARK_CREATED; Sample.a_dataset "/x/d"])
    !! 1%nat = Some (Sample.a_dataset "/x/d") /\
  extractParentChildName (Sample.a_dataset "/x/d") = Some ("/x", "d") /\
  "/x" <> EmptyString /\
  getHL_Node [Sample.node_of GROUP_ID "/g" NMARK_CREATED; Sample.a_dataset "/x/d"]
    "/x" = None /\
  fst (fst (fst (writeHL_NodeList
    (mkNodeList "f.h5"
       [Sample.node_of GROUP_ID "/g" NMARK_CREATED; Sample.a_dataset "/x/d"])
    None None (MiniH5.world MiniH5.empty)))) = 0.
Proof.
  split; [reflexivity|]. split; [reflexivity|]. split; [discriminate|].
  split; [reflexivity|].
  apply (writeHL_NodeList_missing_parent
           (mkNodeList "f.h5"
              [Sample.node_of GROUP_ID "/g" NMARK_CREATED; Sample.a_dataset "/x/d"])
           None None (MiniH5.world MiniH5.empty) 1%nat (Sample.a_dataset "/x/d")
           "/x" "d");
    [reflexivity|reflexivity|discriminate|reflexivity].
Defined.

Lemma unrecognized_type_is_skipped_witness :
  ls_nodes (mkLoopState [Sample.an_untyped] None None) !! 0%nat
    = Some Sample.an_untyped /\
  type Sample.an_untyped = UNDEFINED_ID /\
  extractParentChildName Sample.an_untyped = Some (EmptyString, "x") /\
  exists p,
    writeHL_NodeList_iter 11 10 0 (mkLoopState [Sample.an_untyped] None None)
      (MiniH5.world MiniH5.empty)
    = (true, mkLoopState [Sample.an_untyped] p None, MiniH5.world MiniH5.empty).
Proof.
  split; [reflexivity|]. split; [reflexivity|]. split; [reflexivity|].
  apply (unrecognized_type_is_skipped 11 10 0%nat
           (mkLoopState [Sample.an_untyped] None None)
           (MiniH5.world MiniH5.empty) Sample.an_untyped EmptyString "x");
    [reflexivity|reflexivity|reflexivity|left; reflexivity].
Defined.

(** ** Defects of the write path, for every engine *)

Section Defects.
Context {E : H5Engine}.

(** The condition of [createSimpleDataset] holds for every selector, and
    every selector but szlib is overwritten with zlib: [level > 0 ||
    level <= 9] is true of every level, and the [=] stores it. *)
Lemma compress_condition_not_szlib (c : HL_Compression) :
  ctype c <> CT_SZLIB ->
  compress_condition (Some c)
  = (true, Some (mkCompression CT_ZLIB (level c) (szlib_mask c)
                   (szlib_px_per_block c))).
Proof.
  intros Hc. unfold compress_condition, compress_condition_for.
  destruct (ctype c =? CT_SZLIB) eqn:Es; [apply Z.eqb_eq in Es; contradiction|].
  assert (Hl : (0 <? level c) || (level c <=? 9) = true).
  { destruct (0 <? level c) eqn:H0; [reflexivity|].
    apply Z.ltb_ge in H0. apply Z.leb_le. lia. }
  rewrite Hl. reflexivity.
Qed.

(** The same holds however the header numbers the enumerators: with the
    selector none, either a compression property is applied or the
    caller's settings are changed. *)
Lemma compress_condition_any_numbering (none zlib szlib lvl mask px : Z) :
  none <> zlib -> none <> szlib ->
  fst (compress_condition_for zlib szlib (Some (mkCompression none lvl mask px)))
  = true \/
  snd (compress_condition_for zlib szlib (Some (mkCompression none lvl mask px)))
  <> Some (mkCompression none lvl mask px).
Proof.
  intros Hz Hs. unfold compress_condition_for. cbn [ctype level].
  replace (none =? szlib) with false by (symmetry; apply Z.eqb_neq; exact Hs).
  destruct (zlib =? 0) eqn:E0.
  - right. apply Z.eqb_eq in E0. simpl. intros [= H]. lia.
  - left. simpl.
    assert (Hl : (0 <? lvl) || (lvl <=? 9) = true).
    { destruct (0 <? lvl) eqn:H0; [reflexivity|].
      apply Z.ltb_ge in H0. apply Z.leb_le. lia. }
    rewrite Hl. reflexivity.
Qed.

(** [doWriteHdf5Datatype] returns 1 as soon as the commit call succeeds,
    whatever [H5Tcommitted] answers afterwards. *)
Lemma doWriteHdf5Datatype_ignores_committed (loc_id : hid_t)
    (p : option HL_Node) (pn : string) (c : HL_Node) (cn : string) (w : World) :
  0 <= loc_id ->
  0 <= fst (h5answer (H5Tcommit loc_id (name c) (hdfId c)) (h5st w)) ->
  fst (doWriteHdf5Datatype loc_id p pn c cn w) = (1, c).
Proof.
  intros Hl Hc. unfold doWriteHdf5Datatype, commitType, bind, ret, h5.
  replace (loc_id <? 0) with false by (symmetry; apply Z.ltb_ge; exact Hl).
  destruct (h5answer (H5Tcommit loc_id (name c) (hdfId c)) (h5st w)) as [r s].
  simpl in Hc.
  replace (r <? 0) with false by (symmetry; apply Z.ltb_ge; exact Hc).
  simpl.
  destruct (h5answer (H5Tcommitted (hdfId c)) s) as [cm s'].
  destruct (cm <=? 0); reflexivity.
Qed.

(** [doWriteHdf5Datatype] hands the node back as it received it: on the
    update path, where it stands for an append, the mark is not reset. *)
Lemma doWriteHdf5Datatype_keeps_node (loc_id : hid_t)
    (p : option HL_Node) (pn : string) (c : HL_Node) (cn : string) (w : World) :
  snd (fst (doWriteHdf5Datatype loc_id p pn c cn w)) = c.
Proof.
  unfold doWriteHdf5Datatype, commitType, bind, ret.
  destruct (loc_id <? 0); [reflexivity|].
  destruct (h5 _ w) as [r w1]. destruct (r <? 0); [reflexivity|].
  destruct (h5 _ w1) as [cm w2]. destruct (cm <=? 0); reflexivity.
Qed.

(** [doAppendHdf5Dataset] fails, and leaves the node Created, when the
    engine refuses to open the parent from the handle it is given. *)
Lemma doAppendHdf5Dataset_parent_not_opened (file_id : hid_t)
    (p : option HL_Node) (pn : string) (c : HL_Node) (cn : string)
    (cm : option HL_Compression) (w : World) :
  fst (h5answer (H5Gopen file_id (if bool_decide (pn = EmptyString) then "/" else pn))
         (h5st w)) < 0 ->
  fst (doAppendHdf5Dataset file_id p pn c cn cm w) = (0, c, cm).
Proof.
  intros Hf. unfold doAppendHdf5Dataset, bind, ret.
  destruct (bool_decide (pn = EmptyString)).
  - unfold h5 in *.
    destruct (h5answer (H5Gopen file_id "/") (h5st w)) as [loc_id s]. simpl in Hf.
    replace (loc_id <? 0) with true by (symmetry; apply Z.ltb_lt; exact Hf).
    unfold HL_H5G_CLOSE, HL_H5D_CLOSE, HL_H5_CLOSE, ret.
    replace (0 <=? loc_id) with false by (symmetry; apply Z.leb_gt; exact Hf).
    reflexivity.
  - unfold h5 in *.
    destruct (h5answer (H5Gopen file_id pn) (h5st w)) as [loc_id s]. simpl in Hf.
    replace (loc_id <? 0) with true by (symmetry; apply Z.ltb_lt; exact Hf).
    unfold HL_H5G_CLOSE, HL_H5D_CLOSE, HL_H5_CLOSE, ret.
    replace (0 <=? loc_id) with false by (symmetry; apply Z.leb_gt; exact Hf).
    reflexivity.
Qed.

End Defects.

(** ** The write path run on the small engine *)

Section Runs.
Import MiniH5 Sample.

(** C2. The claim is that [updateHL_NodeList] opens the parent group of a
    Created dataset by path in the file it has just opened, so that
    appending a dataset under an existing group succeeds. Run on the file
    "f.h5" that holds the group "/g", with the list ["/g" (Original);
    "/g/d" (Created dataset)], with or without a compression argument:
    the parent is opened from [gid], which is still -1, not from the file
    handle 10; the engine refuses; the call returns 0, the dataset is not
    created and the node stays Created. *)
Theorem updateHL_NodeList_created_dataset_fails (compress : option HL_Compression) :
  let r := updateHL_NodeList (mkNodeList "f.h5" [a_group; a_dataset "/g/d"])
             compress file_with_group in
  fst (fst (fst r)) = 0 /\
  calls (snd r) = [openHlHdfFile "f.h5" "rw"; H5Gopen (-1) "/g"; H5Fclose 10] /\
  nodes (snd (fst (fst r))) = [a_group; a_dataset "/g/d"] /\
  objects (h5st (snd r)) = [("/g", Group)].
Proof. destruct compress; vm_compute; auto. Qed.

(** The same append, given the file handle as the group and attribute
    paths give it, succeeds. *)
Example doAppendHdf5Dataset_from_file_handle :
  let r := doAppendHdf5Dataset 10 (Some a_group) "/g" (a_dataset "/g/d") "d" None
             (mkWorld no_memory
                (mkState (Some ("f.h5", [("/g", Group)])) [(10, HFile)] 11 false) []) in
  fst (fst (fst r)) = 1 /\
  mark (snd (fst (fst r))) = NMARK_ORIGINAL /\
  objects (h5st (snd r)) = [("/g", Group); ("/g/d", Dataset NoFilter)].
Proof. vm_compute. auto. Qed.

(** C3. The claim is that the compression applied follows the selector of
    the argument and that the argument is only read. Run with the
    call-level argument [{type = CT_NONE, level = 0}] on a list holding one
    2 x 3 dataset: a chunked property list with deflate at level 0 is
    applied to the dataset, and the caller's argument comes back with its
    selector changed to [CT_ZLIB]. *)
Theorem writeHL_NodeList_none_selector_deflates :
  let r := writeHL_NodeList (mkNodeList "f.h5" [a_dataset "/d"]) None
             (Some (mkCompression CT_NONE 0 0 0)) (world empty) in
  fst (fst (fst r)) = 1 /\
  snd (fst r) = Some (mkCompression CT_ZLIB 0 0 0) /\
  objects (h5st (snd r)) = [("/d", Dataset (Deflate 0))] /\
  calls (snd r)
  = [createHlHdfFile "f.h5" None; H5Gopen 10 ".";
     translateCharToDatatype HLHDF_UCHAR;
     H5Screate_simple 2 (Some 1%positive); H5Pcreate H5P_DATASET_CREATE;
     H5Pset_chunk 14 2 (Some 1%positive); H5Pset_deflate 14 0;
     H5Dcreate 11 "d" 12 13 14; H5Dwrite 15 12 (Some 2%positive);
     H5Sclose 13; H5Pclose 14; H5Gclose 11; H5Fclose 10].
Proof. vm_compute. auto. Qed.

(** With the selector zlib and a level that is not valid, deflate is
    requested all the same, and the write fails on the engine's refusal. *)
Example writeHL_NodeList_zlib_level_not_checked :
  let r := writeHL_NodeList (mkNodeList "f.h5" [a_dataset "/d"]) None
             (Some (mkCompression CT_ZLIB 42 0 0)) (world empty) in
  fst (fst (fst r)) = 0 /\ In (H5Pset_deflate 14 42) (calls (snd r)).
Proof. vm_compute. auto 10. Qed.

(** C4. The claim is that a full write fails when the type, once
    committed, is not reported as committed. Run on a list holding the
    named type "/t", with an engine that commits the type and then answers
    the [H5Tcommitted] query with an error: the call returns 1. *)
Theorem writeHL_NodeList_uncommitted_type_succeeds :
  let r := writeHL_NodeList (mkNodeList "f.h5" [a_type]) None None
             (with_open_type None true) in
  fst (fst (fst r)) = 1 /\
  calls (snd r)
  = [createHlHdfFile "f.h5" None; H5Gopen 11 "."; H5Tcommit 11 "/t" 10;
     H5Tcommitted 10; H5Gclose 12; H5Fclose 11] /\
  fst (answer (H5Tcommitted 10) (h5st (snd r))) = -1.
Proof. vm_compute. auto. Qed.

(** C6. The claim is that every node that a successful
    [updateHL_NodeList] has processed is marked Original afterwards. Run
    on the existing file "f.h5" with the list ["/t" (Created named type);
    "/r" (Created reference)]: the call returns 1, the type is committed,
    no call is made for the reference, and both nodes are still marked
    Created. *)
Theorem updateHL_NodeList_type_stays_created :
  let r := updateHL_NodeList
             (mkNodeList "f.h5" [a_type; node_of REFERENCE_ID "/r" NMARK_CREATED])
             None (with_open_type (Some ("f.h5", [])) false) in
  fst (fst (fst r)) = 1 /\
  mark <$> nodes (snd (fst (fst r))) = [NMARK_CREATED; NMARK_CREATED] /\
  objects (h5st (snd r)) = [("/t", NamedType)] /\
  calls (snd r)
  = [openHlHdfFile "f.h5" "rw"; H5Tcommit 11 "/t" 10; H5Tcommitted 10;
     H5Fclose 11].
Proof. vm_compute. auto. Qed.

(** A group and an attribute that the same call appends are marked
    Original. *)
Example updateHL_NodeList_group_becomes_original :
  let r := updateHL_NodeList
             (mkNodeList "f.h5" [a_group; node_of GROUP_ID "/g/h" NMARK_CREATED;
                                 node_of ATTRIBUTE_ID "/g/h/a" NMARK_CREATED])
             None file_with_group in
  fst (fst (fst r)) = 1 /\
  mark <$> nodes (snd (fst (fst r)))
  = [NMARK_ORIGINAL; NMARK_ORIGINAL; NMARK_ORIGINAL].
Proof. vm_compute. auto. Qed.

(** C5, as stated, fails: a list whose first node has no recognized type
    is written, and updated, with success, and the group that follows the
    node is created. *)
Lemma unrecognized_type_write_update_succeed :
  fst (fst (fst (writeHL_NodeList
    (mkNodeList "f.h5" [an_untyped; node_of GROUP_ID "/h" NMARK_CREATED])
    None None (world empty)))) = 1 /\
  objects (h5st (snd (writeHL_NodeList
    (mkNodeList "f.h5" [an_untyped; node_of GROUP_ID "/h" NMARK_CREATED])
    None None (world empty)))) = [("/h", Group)] /\
  fst (fst (fst (updateHL_NodeList
    (mkNodeList "f.h5" [an_untyped; node_of GROUP_ID "/h" NMARK_CREATED])
    None (world (with_file "f.h5" []))))) = 1 /\
  objects (h5st (snd (updateHL_NodeList
    (mkNodeList "f.h5" [an_untyped; node_of GROUP_ID "/h" NMARK_CREATED])
    None (world (with_file "f.h5" []))))) = [("/h", Group)].
Proof. vm_compute. auto. Qed.

(** C7, as stated, fails in its last part: the write of ["/g" (group);
    "/x/d" (dataset without parent)] returns 0, but the handle 12 that the
    call obtained for the group "/g" and stored in its node is still open
    when the call returns; the call closed the handles 11 and 10 only. *)
Lemma missing_parent_write_keeps_group_open :
  fst (fst (fst (writeHL_NodeList
    (mkNodeList "f.h5" [node_of GROUP_ID "/g" NMARK_CREATED; a_dataset "/x/d"])
    None None (world empty)))) = 0 /\
  hdfId <$> nodes (snd (fst (fst (writeHL_NodeList
    (mkNodeList "f.h5" [node_of GROUP_ID "/g" NMARK_CREATED; a_dataset "/x/d"])
    None None (world empty))))) = [12; -1] /\
  table (h5st (snd (writeHL_NodeList
    (mkNodeList "f.h5" [node_of GROUP_ID "/g" NMARK_CREATED; a_dataset "/x/d"])
    None None (world empty)))) = [(12, HGroup "/g")] /\
  calls (snd (writeHL_NodeList
    (mkNodeList "f.h5" [node_of GROUP_ID "/g" NMARK_CREATED; a_dataset "/x/d"])
    None None (world empty)))
  = [createHlHdfFile "f.h5" None; H5Gopen 10 "."; H5Gcreate 11 "g";
     H5Gclose 11; H5Fclose 10].
Proof. vm_compute. auto. Qed.

End Runs.

(** * The write path, for every engine and every node list *)

(** ** What the writers change of a node *)

Lemma updated_as_refl a : updated_as a a.
Proof. split; auto. Qed.

Lemma updated_as_trans a b c : updated_as a b -> updated_as b c -> updated_as a c.
Proof.
  intros [H1 M1] [H2 M2]. split; [congruence|].
  destruct M1 as [M1|[M1 M1']], M2 as [M2|[M2 M2']]; try (left; congruence);
    try (right; split; congruence).
Qed.

Lemma appended_as_updated st c c' :
  mark c = NMARK_CREATED -> appended_as st c c' -> updated_as c c'.
Proof.
  intros Hm [He Hs]. destruct c, c'. simpl in *.
  destruct Hs as [->| ->]; simpl in He; inversion He; subst; split; auto.
Qed.

Lemma appended_as_compression st c c' k :
  appended_as st c c' -> appended_as st c (set_compression k c').
Proof. intros [He Hs]. split; [|exact Hs]. destruct c, c'; simpl in *. exact He. Qed.

Lemma written_as_type a b : written_as a b -> type b = type a.
Proof. intros H. apply (f_equal type) in H. simpl in H. auto. Qed.

Lemma written_as_fields r c :
  set_hdfId (-1) (set_typeId (-1) r) = set_hdfId (-1) (set_typeId (-1) c) ->
  written_as c r /\ compression r = compression c.
Proof.
  intros H. destruct r, c. unfold set_hdfId, set_typeId in H. simpl in H.
  inversion H; subst. split; reflexivity.
Qed.

Lemma written_as_compression c r k :
  written_as c r -> written_as c (set_compression k r).
Proof. unfold written_as. intros ->. destruct r; reflexivity. Qed.

Lemma written_as_trans a b c : written_as a b -> written_as b c -> written_as a c.
Proof. unfold written_as. congruence. Qed.

(** Replacing an element by a related one keeps two lists related. *)
Lemma Forall2_insert_r {A} (R : A -> A -> Prop) l0 l j c c' :
  (forall x y z, R x y -> R y z -> R x z) ->
  Forall2 R l0 l -> l !! j = Some c -> R c c' ->
  Forall2 R l0 (<[j := c']> l).
Proof.
  intros Htr H Hj Hc.
  destruct (Forall2_lookup_r _ _ _ _ _ H Hj) as (a & Ha & Hac).
  rewrite <- (list_insert_id l0 j a) by exact Ha.
  apply Forall2_insert; [exact H|]. eapply Htr; eauto.
Qed.

Lemma Forall2_refl_on {A} (R : A -> A -> Prop) l :
  (forall x, R x x) -> Forall2 R l l.
Proof. intros Hr. induction l; constructor; auto. Qed.

Section Writers.
Context {E : H5Engine}.

Lemma translate_missing_typeId_only c w :
  set_typeId (-1) (fst (translate_missing_typeId c w)) = set_typeId (-1) c.
Proof.
  unfold translate_missing_typeId, bind, ret.
  destruct (_ && _); [|reflexivity].
  destruct (h5 _ w). reflexivity.
Qed.

Lemma appended_by_fail c c1 :
  set_typeId (-1) c1 = set_typeId (-1) c -> appended_by 0 c c1.
Proof. intros H. split; [|auto]. simpl. rewrite H. reflexivity. Qed.

Lemma appended_by_ok c c1 :
  set_typeId (-1) c1 = set_typeId (-1) c ->
  appended_by 1 c (set_mark NMARK_ORIGINAL c1).
Proof.
  intros H. split; [|auto]. simpl. destruct c, c1.
  unfold set_typeId in H. simpl in H. inversion H; subst. reflexivity.
Qed.

Lemma doAppendHdf5Attribute_appended_by file_id p pn c cn w :
  appended_by (fst (fst (doAppendHdf5Attribute file_id p pn c cn w)))
    c (snd (fst (doAppendHdf5Attribute file_id p pn c cn w))).
Proof.
  unfold doAppendHdf5Attribute, bind, ret.
  match goal with |- context [let '(_, _) := ?x in _] => destruct x as [[loc_id pt] w1] end.
  destruct (loc_id <? 0).
  { destruct pt; simpl;
      try (destruct (HL_H5G_CLOSE loc_id w1) as [[] ?]);
      try (destruct (HL_H5D_CLOSE loc_id w1) as [[] ?]);
      simpl; apply appended_by_fail; reflexivity. }
  pose proof (translate_missing_typeId_only c w1) as Ht.
  destruct (translate_missing_typeId c w1) as [c1 w2]. simpl in Ht.
  destruct (typeId c1 <? 0).
  { destruct pt; simpl;
      try (destruct (HL_H5G_CLOSE loc_id w2) as [[] ?]);
      try (destruct (HL_H5D_CLOSE loc_id w2) as [[] ?]);
      simpl; apply appended_by_fail; exact Ht. }
  match goal with |- context [let '(_, _) := ?x in _] => destruct x as [r w3] end.
  destruct (r <? 0).
  - destruct pt; simpl;
      try (destruct (HL_H5G_CLOSE loc_id w3) as [[] ?]);
      try (destruct (HL_H5D_CLOSE loc_id w3) as [[] ?]);
      simpl; apply appended_by_fail; exact Ht.
  - destruct pt; simpl;
      try (destruct (HL_H5G_CLOSE loc_id w3) as [[] ?]);
      try (destruct (HL_H5D_CLOSE loc_id w3) as [[] ?]);
      simpl; apply appended_by_ok; exact Ht.
Qed.

Lemma doAppendHdf5Group_appended_by file_id p pn c cn w :
  appended_by (fst (fst (doAppendHdf5Group file_id p pn c cn w)))
    c (snd (fst (doAppendHdf5Group file_id p pn c cn w))).
Proof.
  unfold doAppendHdf5Group, bind, ret.
  match goal with |- context [let '(_, _) := ?x in _] => destruct x as [loc_id w1] end.
  destruct (loc_id <? 0).
  { destruct (HL_H5G_CLOSE loc_id w1) as [[] w2].
    destruct (HL_H5G_CLOSE (-1) w2) as [[] w3]. simpl.
    apply appended_by_fail; reflexivity. }
  destruct (h5 _ w1) as [new_id w2].
  destruct (new_id <? 0);
    destruct (HL_H5G_CLOSE loc_id w2) as [[] w3];
    destruct (HL_H5G_CLOSE new_id w3) as [[] w4]; simpl.
  - apply appended_by_fail; reflexivity.
  - apply appended_by_ok; reflexivity.
Qed.

Lemma doAppendHdf5Dataset_appended_by file_id p pn c cn cm w :
  appended_by (fst (fst (fst (doAppendHdf5Dataset file_id p pn c cn cm w))))
    c (snd (fst (fst (doAppendHdf5Dataset file_id p pn c cn cm w)))).
Proof.
  unfold doAppendHdf5Dataset, bind, ret.
  match goal with |- context [let '(_, _) := ?x in _] => destruct x as [loc_id w1] end.
  destruct (loc_id <? 0).
  { destruct (HL_H5G_CLOSE loc_id w1) as [[] w2].
    destruct (HL_H5D_CLOSE (-1) w2) as [[] w3]. simpl.
    apply appended_by_fail; reflexivity. }
  pose proof (translate_missing_typeId_only c w1) as Ht.
  destruct (translate_missing_typeId c w1) as [c1 w2]. simpl in Ht.
  destruct (typeId c1 <? 0).
  { destruct (HL_H5G_CLOSE loc_id w2) as [[] w3].
    destruct (HL_H5D_CLOSE (-1) w3) as [[] w4]. simpl.
    apply appended_by_fail; exact Ht. }
  destruct (createSimpleDataset _ _ _ _ _ _ _ w2) as [[new_id cm'] w3].
  destruct (new_id <? 0);
    destruct (HL_H5G_CLOSE loc_id w3) as [[] w4];
    destruct (HL_H5D_CLOSE new_id w4) as [[] w5]; simpl.
  - apply appended_by_fail; exact Ht.
  - apply appended_by_ok; exact Ht.
Qed.


Lemma appended_by_as st c c' : appended_by st c c' -> appended_as st c c'.
Proof. intros [H Hs]. split; [|exact Hs]. rewrite H. reflexivity. Qed.

Lemma doAppendHdf5Attribute_appended_as file_id p pn c cn w :
  appended_as (fst (fst (doAppendHdf5Attribute file_id p pn c cn w)))
    c (snd (fst (doAppendHdf5Attribute file_id p pn c cn w))).
Proof. apply appended_by_as, doAppendHdf5Attribute_appended_by. Qed.

Lemma doAppendHdf5Group_appended_as file_id p pn c cn w :
  appended_as (fst (fst (doAppendHdf5Group file_id p pn c cn w)))
    c (snd (fst (doAppendHdf5Group file_id p pn c cn w))).
Proof. apply appended_by_as, doAppendHdf5Group_appended_by. Qed.

Lemma doAppendHdf5Dataset_appended_as file_id p pn c cn cm w :
  appended_as (fst (fst (fst (doAppendHdf5Dataset file_id p pn c cn cm w))))
    c (snd (fst (fst (doAppendHdf5Dataset file_id p pn c cn cm w)))).
Proof. apply appended_by_as, doAppendHdf5Dataset_appended_by. Qed.

Lemma doWriteHdf5Attribute_change g p pn c cn w :
  let r := fst (doWriteHdf5Attribute g p pn c cn w) in
  set_typeId (-1) (snd r) = set_typeId (-1) c /\
  (fst r = 0 \/ fst r = 1 /\ 0 <= typeId (snd r)).
Proof.
  cbv zeta. split.
  - unfold doWriteHdf5Attribute, bind, ret.
    pose proof (translate_missing_typeId_only c w) as Ht.
    destruct (translate_missing_typeId c w) as [c1 w1]. simpl in Ht.
    destruct (typeId c1 <? 0); [exact Ht|].
    destruct (ndims c1 =? 0);
      match goal with |- context [let '(_, _) := ?x in _] => destruct x as [r w2] end;
      destruct (r <? 0); exact Ht.
  - unfold doWriteHdf5Attribute, bind, ret.
    destruct (translate_missing_typeId c w) as [c1 w1].
    destruct (typeId c1 <? 0) eqn:Et; [left; reflexivity|].
    apply Z.ltb_ge in Et.
    destruct (ndims c1 =? 0);
      match goal with |- context [let '(_, _) := ?x in _] => destruct x as [r w2] end;
      destruct (r <? 0); simpl; auto.
Qed.

Lemma doWriteHdf5Group_change g p pn c cn w :
  let r := fst (doWriteHdf5Group g p pn c cn w) in
  set_hdfId (-1) (snd r) = set_hdfId (-1) c /\
  (fst r = 0 /\ hdfId (snd r) < 0 \/ fst r = 1 /\ 0 <= hdfId (snd r)).
Proof.
  cbv zeta. split.
  - unfold doWriteHdf5Group, bind, ret.
    destruct (bool_decide (pn = EmptyString));
      destruct (HL_H5G_CLOSE (hdfId c) w) as [[] w1];
      destruct (h5 _ w1) as [id w2]; simpl;
      destruct (id <? 0); reflexivity.
  - unfold doWriteHdf5Group, bind, ret.
    destruct (bool_decide (pn = EmptyString));
      destruct (HL_H5G_CLOSE (hdfId c) w) as [[] w1];
      destruct (h5 _ w1) as [id w2]; simpl;
      destruct (id <? 0) eqn:Ei; simpl;
      first [apply Z.ltb_lt in Ei; left; split; [reflexivity|exact Ei]
            |apply Z.ltb_ge in Ei; right; split; [reflexivity|exact Ei]].
Qed.

Lemma doWriteHdf5Dataset_change g p pn c cn cm w :
  let r := fst (fst (doWriteHdf5Dataset g p pn c cn cm w)) in
  set_hdfId (-1) (set_typeId (-1) (snd r)) = set_hdfId (-1) (set_typeId (-1) c) /\
  (fst r = 0 \/ fst r = 1 /\ 0 <= typeId (snd r) /\ 0 <= hdfId (snd r)).
Proof.
  cbv zeta. split.
  - unfold doWriteHdf5Dataset, bind, ret.
    pose proof (translate_missing_typeId_only c w) as Ht.
    destruct (translate_missing_typeId c w) as [c1 w1]. simpl in Ht.
    destruct (typeId c1 <? 0); [simpl; rewrite Ht; reflexivity|].
    destruct (HL_H5D_CLOSE (hdfId c1) w1) as [[] w2].
    destruct (createSimpleDataset _ _ _ _ _ _ _ w2) as [[id cm'] w3]. simpl.
    destruct (id <? 0); simpl; rewrite <- Ht; destruct c1; reflexivity.
  - unfold doWriteHdf5Dataset, bind, ret.
    destruct (translate_missing_typeId c w) as [c1 w1].
    destruct (typeId c1 <? 0) eqn:Et; [left; reflexivity|].
    apply Z.ltb_ge in Et.
    destruct (HL_H5D_CLOSE (hdfId c1) w1) as [[] w2].
    destruct (createSimpleDataset _ _ _ _ _ _ _ w2) as [[id cm'] w3]. simpl.
    destruct (id <? 0) eqn:Ei; simpl; [left; reflexivity|].
    apply Z.ltb_ge in Ei. right. auto.
Qed.


Lemma doWriteHdf5Reference_change g f p pn c cn w :
  let r := fst (doWriteHdf5Reference g f p pn c cn w) in
  snd r = c /\ (fst r = 0 \/ fst r = 1).
Proof.
  cbv zeta. unfold doWriteHdf5Reference, bind, ret.
  destruct (createReference _ _ _ _ w) as [r w1]. destruct (r <? 0); auto.
Qed.


(** X5. The result of [createSimpleDataset], and what it leaves in
    [*compress], do not depend on the data buffer: when the dataset has
    been created, the answer of [H5Dwrite] is not part of the result, and
    the function returns the handle of the dataset whether the data was
    written or not. *)
Theorem createSimpleDataset_ignores_write (loc_id type_id : hid_t)
    (nm : string) (nd : Z) (ds buf : cptr) (cm : option HL_Compression)
    (w : World) :
  fst (createSimpleDataset loc_id type_id nm nd ds buf cm w)
  = fst (createSimpleDataset loc_id type_id nm nd ds None cm w).
Proof.
  unfold createSimpleDataset, bind, ret.
  rewrite (bool_decide_eq_false_2 (@None loc <> None))
    by (intros H; apply H; reflexivity).
  destruct (h5 (H5Screate_simple nd ds) w) as [dataspace w1].
  destruct (dataspace <? 0); [reflexivity|].
  destruct (compress_condition cm) as [cond cm'].
  repeat first
    [ reflexivity
    | match goal with
      | |- context [HL_H5S_CLOSE ?x ?v] => destruct (HL_H5S_CLOSE x v) as [[] ?]
      | |- context [HL_H5P_CLOSE ?x ?v] => destruct (HL_H5P_CLOSE x v) as [[] ?]
      | |- context [if ?b then _ else _] => destruct b
      | |- context [h5 ?c ?v] => destruct (h5 c v) as [? ?]
      | |- context [match ?x with Some _ => _ | None => _ end] => destruct x
      end ].
Qed.

Lemma compress_condition_some c :
  is_Some (snd (compress_condition (Some c))).
Proof.
  unfold compress_condition, compress_condition_for.
  destruct (ctype c =? CT_SZLIB); simpl; eauto.
Qed.

(** [createSimpleDataset] leaves a [NULL] settings pointer [NULL] and a
    given one given. *)
Lemma createSimpleDataset_settings l t n nd ds b cm w :
  is_Some (snd (fst (createSimpleDataset l t n nd ds b cm w))) <-> is_Some cm.
Proof.
  assert (Hcc : is_Some (snd (compress_condition cm)) <-> is_Some cm).
  { destruct cm as [c|]; [|reflexivity].
    split; [eauto|intros _; apply compress_condition_some]. }
  unfold createSimpleDataset, bind, ret, HL_H5S_CLOSE, HL_H5P_CLOSE.
  destruct (h5 _ w) as [dataspace w1].
  destruct (dataspace <? 0).
  { destruct (HL_H5_CLOSE H5Sclose dataspace w1) as [[] w2].
    destruct (HL_H5_CLOSE H5Pclose (-1) w2) as [[] w3]. reflexivity. }
  destruct (compress_condition cm) as [cond cm']. simpl in Hcc.
  rewrite <- Hcc. clear Hcc.
  repeat first
    [ reflexivity
    | match goal with
      | |- context [if ?b then _ else _] => destruct b
      | |- context [let '(_, _) := ?x in _] => destruct x as [? ?]
      | |- context [match ?x with Some _ => _ | None => _ end] => destruct x
      | u : unit |- _ => destruct u
      end ].
Qed.

Lemma doWriteHdf5Dataset_settings g p pn c cn cm w :
  is_Some (snd (fst (doWriteHdf5Dataset g p pn c cn cm w))) <-> is_Some cm.
Proof.
  unfold doWriteHdf5Dataset, bind, ret.
  destruct (translate_missing_typeId c w) as [c1 w1].
  destruct (typeId c1 <? 0); [reflexivity|].
  destruct (HL_H5D_CLOSE (hdfId c1) w1) as [[] w2].
  pose proof (createSimpleDataset_settings
                (if bool_decide (pn = EmptyString) then g else parent_hdfId p)
                (typeId c1) cn (ndims c1) (dims c1) (data c1) cm w2) as Hs.
  destruct (createSimpleDataset _ _ _ _ _ _ _ w2) as [[id cm'] w3]. simpl in Hs.
  destruct (_ <? 0); exact Hs.
Qed.

End Writers.

(** ** The calls to the engine and the heap *)

Section EngineOnly.
Context {E : H5Engine}.

Lemma grows_refl w : grows w w.
Proof. split; [reflexivity|]. exists []. symmetry. apply app_nil_r. Qed.

Lemma grows_trans w1 w2 w3 : grows w1 w2 -> grows w2 w3 -> grows w1 w3.
Proof.
  intros [M1 [a Ha]] [M2 [b Hb]]. split; [congruence|].
  exists (a ++ b). rewrite Hb, Ha. symmetry. apply List.app_assoc.
Qed.

Lemma engine_only_ret {A} (a : A) : engine_only (ret a).
Proof. intros w. apply grows_refl. Qed.

Lemma engine_only_h5 c : engine_only (h5 c).
Proof.
  intros w. unfold h5. destruct (h5answer c (h5st w)) as [r s]. simpl.
  split; [reflexivity|]. eexists. reflexivity.
Qed.

Lemma engine_only_bind {A B} (c : M A) (k : A -> M B) :
  engine_only c -> (forall a, engine_only (k a)) -> engine_only (bind c k).
Proof.
  intros Hc Hk w. unfold bind. specialize (Hc w).
  destruct (c w) as [a w1]. simpl in Hc.
  eapply grows_trans; [exact Hc|apply Hk].
Qed.

Lemma engine_only_close close x : engine_only (HL_H5_CLOSE close x).
Proof.
  unfold HL_H5_CLOSE. destruct (0 <=? x).
  - apply engine_only_bind; [apply engine_only_h5|intros; apply engine_only_ret].
  - apply engine_only_ret.
Qed.

Ltac engine_step :=
  first
    [ apply engine_only_ret
    | apply engine_only_h5
    | apply engine_only_close
    | apply engine_only_bind; [|intros]
    | match goal with
      | |- engine_only (if ?b then _ else _) => destruct b
      | |- engine_only (match ?x with _ => _ end) => destruct x
      | |- engine_only (let '(_, _) := ?x in _) => destruct x
      end ].

Ltac engine := cbv zeta; repeat engine_step.

Lemma engine_only_translate c : engine_only (translate_missing_typeId c).
Proof. unfold translate_missing_typeId. engine. Qed.

Lemma engine_only_createReference l f n t : engine_only (createReference l f n t).
Proof.
  unfold createReference, HL_H5S_CLOSE, HL_H5A_CLOSE, HL_H5T_CLOSE. engine.
Qed.

Lemma engine_only_writeScalar l t n b : engine_only (writeScalarDataAttribute l t n b).
Proof. unfold writeScalarDataAttribute, HL_H5S_CLOSE, HL_H5A_CLOSE. engine. Qed.

Lemma engine_only_writeSimple l t n nd ds b :
  engine_only (writeSimpleDataAttribute l t n nd ds b).
Proof. unfold writeSimpleDataAttribute, HL_H5S_CLOSE, HL_H5A_CLOSE. engine. Qed.

Lemma engine_only_createSimpleDataset l t n nd ds b c :
  engine_only (createSimpleDataset l t n nd ds b c).
Proof.
  unfold createSimpleDataset, HL_H5S_CLOSE, HL_H5P_CLOSE. engine.
Qed.

Lemma engine_only_doWriteHdf5Attribute g p pn c cn :
  engine_only (doWriteHdf5Attribute g p pn c cn).
Proof.
  unfold doWriteHdf5Attribute. cbv zeta.
  apply engine_only_bind; [apply engine_only_translate|intros c1].
  destruct (typeId c1 <? 0); [apply engine_only_ret|].
  destruct (ndims c1 =? 0).
  - apply engine_only_bind; [apply engine_only_writeScalar|intros; engine].
  - apply engine_only_bind; [apply engine_only_writeSimple|intros; engine].
Qed.

Lemma engine_only_doWriteHdf5Group g p pn c cn :
  engine_only (doWriteHdf5Group g p pn c cn).
Proof. unfold doWriteHdf5Group, HL_H5G_CLOSE. engine. Qed.

Lemma engine_only_doWriteHdf5Dataset g p pn c cn cm :
  engine_only (doWriteHdf5Dataset g p pn c cn cm).
Proof.
  unfold doWriteHdf5Dataset. cbv zeta.
  apply engine_only_bind; [apply engine_only_translate|intros c1].
  destruct (typeId c1 <? 0); [apply engine_only_ret|].
  apply engine_only_bind; [apply engine_only_close|intros _].
  apply engine_only_bind; [apply engine_only_createSimpleDataset|intros [id cm']].
  engine.
Qed.

Lemma engine_only_doWriteHdf5Datatype g p pn c cn :
  engine_only (doWriteHdf5Datatype g p pn c cn).
Proof. unfold doWriteHdf5Datatype, commitType. engine. Qed.

Lemma engine_only_doWriteHdf5Reference g f p pn c cn :
  engine_only (doWriteHdf5Reference g f p pn c cn).
Proof.
  unfold doWriteHdf5Reference. cbv zeta.
  apply engine_only_bind; [apply engine_only_createReference|intros; engine].
Qed.

Lemma engine_only_doAppendHdf5Attribute f p pn c cn :
  engine_only (doAppendHdf5Attribute f p pn c cn).
Proof.
  unfold doAppendHdf5Attribute, HL_H5G_CLOSE, HL_H5D_CLOSE. cbv zeta.
  apply engine_only_bind; [engine|intros [loc_id pt]].
  destruct (loc_id <? 0); [engine|].
  apply engine_only_bind; [apply engine_only_translate|intros c1].
  destruct (typeId c1 <? 0); [engine|].
  apply engine_only_bind.
  - destruct (ndims c1 =? 0);
      [apply engine_only_writeScalar|apply engine_only_writeSimple].
  - intros r. engine.
Qed.

Lemma engine_only_doAppendHdf5Group f p pn c cn :
  engine_only (doAppendHdf5Group f p pn c cn).
Proof. unfold doAppendHdf5Group, HL_H5G_CLOSE. engine. Qed.

Lemma engine_only_doAppendHdf5Dataset f p pn c cn cm :
  engine_only (doAppendHdf5Dataset f p pn c cn cm).
Proof.
  unfold doAppendHdf5Dataset, HL_H5G_CLOSE, HL_H5D_CLOSE. cbv zeta.
  apply engine_only_bind; [engine|intros loc_id].
  destruct (loc_id <? 0); [engine|].
  apply engine_only_bind; [apply engine_only_translate|intros c1].
  destruct (typeId c1 <? 0); [engine|].
  apply engine_only_bind; [apply engine_only_createSimpleDataset|intros [id cm']].
  engine.
Qed.

Lemma engine_only_writeHL_NodeList_iter gid file_id i st :
  engine_only (writeHL_NodeList_iter gid file_id i st).
Proof.
  unfold writeHL_NodeList_iter.
  destruct (ls_nodes st !! i) as [child|]; [|apply engine_only_ret].
  destruct (extractParentChildName child) as [[pn cn]|]; [|apply engine_only_ret].
  destruct (locate_parent _ _ _) as [parentNode missing].
  destruct missing; [apply engine_only_ret|]. cbv zeta.
  destruct (type child).
  - apply engine_only_ret.
  - apply engine_only_bind; [apply engine_only_doWriteHdf5Attribute|intros [? ?]; engine].
  - apply engine_only_bind; [apply engine_only_doWriteHdf5Group|intros [? ?]; engine].
  - destruct (ls_compression st);
      (apply engine_only_bind;
       [apply engine_only_doWriteHdf5Dataset|intros [[? ?] ?]; engine]).
  - apply engine_only_bind; [apply engine_only_doWriteHdf5Datatype|intros [? ?]; engine].
  - apply engine_only_bind; [apply engine_only_doWriteHdf5Reference|intros [? ?]; engine].
Qed.

Lemma engine_only_updateHL_NodeList_iter gid file_id i st :
  engine_only (updateHL_NodeList_iter gid file_id i st).
Proof.
  unfold updateHL_NodeList_iter.
  destruct (ls_nodes st !! i) as [child|]; [|apply engine_only_ret].
  destruct (bool_decide _); [|apply engine_only_ret].
  destruct (extractParentChildName child) as [[pn cn]|]; [|apply engine_only_ret].
  destruct (locate_parent _ _ _) as [parentNode missing].
  destruct missing; [apply engine_only_ret|]. cbv zeta.
  destruct (type child).
  - apply engine_only_ret.
  - apply engine_only_bind; [apply engine_only_doAppendHdf5Attribute|intros [? ?]; engine].
  - apply engine_only_bind; [apply engine_only_doAppendHdf5Group|intros [? ?]; engine].
  - destruct (ls_compression st);
      (apply engine_only_bind;
       [apply engine_only_doAppendHdf5Dataset|intros [[? ?] ?]; engine]).
  - apply engine_only_bind; [apply engine_only_doWriteHdf5Datatype|intros [? ?]; engine].
  - apply engine_only_ret.
Qed.

Lemma engine_only_writeHL_NodeList_loop gid file_id left :
  forall i st, engine_only (writeHL_NodeList_loop gid file_id left i st).
Proof.
  induction left as [|left IH]; intros i st; simpl; [apply engine_only_ret|].
  apply engine_only_bind; [apply engine_only_writeHL_NodeList_iter|].
  intros [ok st']. destruct ok; [apply IH|apply engine_only_ret].
Qed.

Lemma engine_only_updateHL_NodeList_loop gid file_id left :
  forall i st, engine_only (updateHL_NodeList_loop gid file_id left i st).
Proof.
  induction left as [|left IH]; intros i st; simpl; [apply engine_only_ret|].
  apply engine_only_bind; [apply engine_only_updateHL_NodeList_iter|].
  intros [ok st']. destruct ok; [apply IH|apply engine_only_ret].
Qed.

End EngineOnly.

(** ** The full write *)

Section WriteList.
Context {E : H5Engine}.

(** The call as a function of the answers to its first two calls and of
    the run of the loop. *)
Lemma writeHL_NodeList_unfold nodelist property compress w :
  writeHL_NodeList nodelist property compress w =
  let create := createHlHdfFile (filename nodelist) property in
  let (file_id, s1) := h5answer create (h5st w) in
  let w1 := mkWorld (mem w) s1 (calls w ++ [create]) in
  if file_id <? 0 then (0, nodelist, compress, w1)
  else
    let (gid, s2) := h5answer (H5Gopen file_id ".") s1 in
    let w2 := mkWorld (mem w) s2 ((calls w ++ [create]) ++ [H5Gopen file_id "."]) in
    if gid <? 0 then
      (0, nodelist, compress,
       mkWorld (mem w) (snd (h5answer (H5Fclose file_id) s2))
         (calls w2 ++ [H5Fclose file_id]))
    else
      let '(ok, st, w3) :=
        writeHL_NodeList_loop gid file_id (length (nodes nodelist)) 0
          (mkLoopState (nodes nodelist) None compress) w2 in
      (if ok then 1 else 0, mkNodeList (filename nodelist) (ls_nodes st),
       ls_compression st,
       mkWorld (mem w3)
         (snd (h5answer (H5Fclose file_id)
                 (snd (h5answer (H5Gclose gid) (h5st w3)))))
         ((calls w3 ++ [H5Gclose gid]) ++ [H5Fclose file_id])).
Proof.
  unfold writeHL_NodeList, bind, ret, h5. cbv zeta.
  destruct (h5answer (createHlHdfFile (filename nodelist) property) (h5st w))
    as [file_id s1].
  destruct (file_id <? 0) eqn:Ef; [reflexivity|].
  apply Z.ltb_ge in Ef. simpl.
  destruct (h5answer (H5Gopen file_id ".") s1) as [gid s2].
  destruct (gid <? 0) eqn:Eg.
  - unfold HL_H5F_CLOSE. rewrite (HL_H5_CLOSE_valid H5Fclose file_id) by exact Ef.
    reflexivity.
  - apply Z.ltb_ge in Eg.
    destruct (writeHL_NodeList_loop _ _ _ _ _ _) as [[ok st] w3].
    unfold HL_H5G_CLOSE, HL_H5F_CLOSE, HL_H5T_CLOSE.
    rewrite (HL_H5_CLOSE_valid H5Gclose gid) by exact Eg.
    rewrite (HL_H5_CLOSE_valid H5Fclose file_id) by exact Ef.
    try rewrite (HL_H5_CLOSE_invalid H5Tclose (-1)) by lia.
    reflexivity.
Qed.

(** X3. The three ways out of [writeHL_NodeList]. When the file cannot be
    created the call returns 0 after that one call. When the root group
    cannot be opened it returns 0 and the only further call closes the
    file. Otherwise, whatever happens in the loop, the last two calls
    close the root group and then the file. In the first two cases the
    list and the settings are returned as they were given; in all three
    the heap is as before the call. *)
Theorem writeHL_NodeList_exits (nodelist : HL_NodeList)
    (property : option HL_FileCreationProperty)
    (compress : option HL_Compression) (w : World) :
  let create := createHlHdfFile (filename nodelist) property in
  let file_id := fst (h5answer create (h5st w)) in
  let gid := fst (h5answer (H5Gopen file_id ".") (snd (h5answer create (h5st w)))) in
  let r := writeHL_NodeList nodelist property compress w in
  mem (snd r) = mem w /\
  if file_id <? 0 then
    fst r = (0, nodelist, compress) /\ calls (snd r) = calls w ++ [create]
  else if gid <? 0 then
    fst r = (0, nodelist, compress) /\
    calls (snd r) = calls w ++ [create; H5Gopen file_id "."; H5Fclose file_id]
  else
    exists mid,
      calls (snd r)
      = calls w ++ [create; H5Gopen file_id "."] ++ mid
                ++ [H5Gclose gid; H5Fclose file_id].
Proof.
  cbv zeta. rewrite writeHL_NodeList_unfold. cbv zeta.
  destruct (h5answer (createHlHdfFile (filename nodelist) property) (h5st w))
    as [file_id s1]. simpl fst. simpl snd.
  destruct (file_id <? 0); [simpl; auto|].
  destruct (h5answer (H5Gopen file_id ".") s1) as [gid s2]. simpl fst.
  destruct (gid <? 0).
  { simpl. split; [reflexivity|]. split; [reflexivity|].
    rewrite <- !List.app_assoc. reflexivity. }
  match goal with |- context [writeHL_NodeList_loop ?g ?f ?n ?j ?st ?w2] =>
    pose proof (engine_only_writeHL_NodeList_loop g f n j st w2) as Hg;
    destruct (writeHL_NodeList_loop g f n j st w2) as [[ok st'] w3] end.
  destruct Hg as [Hm [mid Hc]]. simpl in *.
  split; [exact Hm|]. exists mid. rewrite Hc.
  rewrite <- !List.app_assoc. reflexivity.
Qed.

(** One iteration of the full write: the list is as it was, or the node
    of the index has been replaced by what its writer left. *)
Lemma writeHL_NodeList_iter_shape gid file_id j st w :
  let '(ok, st', w') := writeHL_NodeList_iter gid file_id j st w in
  (is_Some (ls_compression st') <-> is_Some (ls_compression st)) /\
  ((ls_nodes st' = ls_nodes st /\
    (ok = true -> forall c, ls_nodes st !! j = Some c -> type c = UNDEFINED_ID)) \/
   (exists c c',
      ls_nodes st !! j = Some c /\
      ls_nodes st' = <[j := c']> (ls_nodes st) /\
      written_as c c' /\
      (ok = true -> written c'))).
Proof.
  unfold writeHL_NodeList_iter.
  destruct (ls_nodes st !! j) as [child|] eqn:Hj;
    [|split; [reflexivity|left; split; [reflexivity|discriminate]]].
  destruct (extractParentChildName child) as [[parentName childName]|];
    [|split; [reflexivity|left; split; [reflexivity|discriminate]]].
  destruct (locate_parent (ls_nodes st) (ls_parentNode st) parentName)
    as [parentNode missing].
  destruct missing; [split; [reflexivity|left; split; [reflexivity|discriminate]]|].
  unfold bind, ret.
  destruct (type child) eqn:Ht.
  - split; [reflexivity|]. left. split; [reflexivity|].
    intros _ c [= <-]. exact Ht.
  - destruct (doWriteHdf5Attribute_change gid (deref (ls_nodes st) parentNode)
                parentName child childName w) as (Ha & Hs).
    destruct (doWriteHdf5Attribute _ _ _ _ _ w) as [[status child'] w'].
    simpl in *. split; [reflexivity|].
    right. exists child, child'. split; [reflexivity|]. split; [reflexivity|].
    assert (Hwa : written_as child child' /\ compression child' = compression child).
    { apply written_as_fields. rewrite Ha. reflexivity. }
    destruct Hwa as [Hwa Hc]. split; [exact Hwa|].
    intros Hok. unfold written. rewrite (written_as_type _ _ Hwa), Ht.
    destruct Hs as [->|[_ H]]; [discriminate|exact H].
  - destruct (doWriteHdf5Group_change gid (deref (ls_nodes st) parentNode)
                parentName child childName w) as (Ha & Hs).
    destruct (doWriteHdf5Group _ _ _ _ _ w) as [[status child'] w'].
    simpl in *. split; [reflexivity|].
    right. exists child, child'. split; [reflexivity|]. split; [reflexivity|].
    assert (Hwa : written_as child child' /\ compression child' = compression child).
    { apply written_as_fields. destruct child, child'.
      unfold set_hdfId in Ha. simpl in Ha. inversion Ha; subst. reflexivity. }
    destruct Hwa as [Hwa Hc]. split; [exact Hwa|].
    intros Hok. unfold written. rewrite (written_as_type _ _ Hwa), Ht.
    destruct Hs as [[-> _]|[_ H]]; [discriminate|exact H].
  - destruct (ls_compression st) as [cm|] eqn:Hcm.
    + destruct (doWriteHdf5Dataset_change gid (deref (ls_nodes st) parentNode)
                  parentName child childName (Some cm) w) as (Ha & Hs).
      pose proof (doWriteHdf5Dataset_settings gid (deref (ls_nodes st) parentNode)
                    parentName child childName (Some cm) w) as Hset.
      destruct (doWriteHdf5Dataset _ _ _ _ _ _ w) as [[[status child'] c'] w'].
      simpl in *. split; [exact Hset|].
      right. exists child, child'. split; [reflexivity|]. split; [reflexivity|].
      destruct (written_as_fields _ _ Ha) as [Hwa Hc].
      split; [exact Hwa|].
      intros Hok. unfold written. rewrite (written_as_type _ _ Hwa), Ht.
      destruct Hs as [->|[_ H]]; [discriminate|exact H].
    + destruct (doWriteHdf5Dataset_change gid (deref (ls_nodes st) parentNode)
                  parentName child childName (compression child) w) as (Ha & Hs).
      destruct (doWriteHdf5Dataset _ _ _ _ _ _ w) as [[[status child'] c'] w'].
      simpl in *. split; [reflexivity|].
      right. exists child, (set_compression c' child').
      split; [reflexivity|]. split; [reflexivity|].
      destruct (written_as_fields _ _ Ha) as [Hwa Hc].
      split; [apply written_as_compression; exact Hwa|].
      intros Hok. unfold written. simpl. rewrite (written_as_type _ _ Hwa), Ht.
      destruct Hs as [->|[_ H]]; [discriminate|exact H].
  - pose proof (doWriteHdf5Datatype_keeps_node file_id
                  (deref (ls_nodes st) parentNode) parentName child childName w) as Ha.
    destruct (doWriteHdf5Datatype _ _ _ _ _ w) as [[status child'] w'].
    simpl in *. subst child'. split; [reflexivity|].
    right. exists child, child. split; [reflexivity|]. split; [reflexivity|].
    split; [reflexivity|].
    intros _. unfold written. rewrite Ht. exact I.
  - destruct (doWriteHdf5Reference_change gid file_id
                (deref (ls_nodes st) parentNode) parentName child childName w)
      as (Ha & Hs).
    destruct (doWriteHdf5Reference _ _ _ _ _ _ w) as [[status child'] w'].
    simpl in *. subst child'. split; [reflexivity|].
    right. exists child, child. split; [reflexivity|]. split; [reflexivity|].
    split; [reflexivity|].
    intros _. unfold written. rewrite Ht. exact I.
Qed.

Lemma writeHL_NodeList_loop_changes gid file_id left :
  forall j st w l0,
    Forall2 written_as l0 (ls_nodes st) ->
    let r := fst (writeHL_NodeList_loop gid file_id left j st w) in
    Forall2 written_as l0 (ls_nodes (snd r)) /\
    (is_Some (ls_compression (snd r)) <-> is_Some (ls_compression st)).
Proof.
  induction left as [|left IH]; intros j st w l0 H0; simpl.
  { split; [exact H0|reflexivity]. }
  unfold bind.
  pose proof (writeHL_NodeList_iter_shape gid file_id j st w) as Hs.
  destruct (writeHL_NodeList_iter gid file_id j st w) as [[ok st'] w'].
  destruct Hs as [Hcs Hs].
  assert (H1 : Forall2 written_as l0 (ls_nodes st')).
  { destruct Hs as [[-> _]|(c & c' & Hj & -> & Hwa & _)]; [exact H0|].
    eapply Forall2_insert_r; eauto using written_as_trans. }
  destruct ok.
  - destruct (IH (S j) st' w' l0 H1) as (Ha & Hb).
    split; [exact Ha|]. rewrite Hb. exact Hcs.
  - simpl. split; [exact H1|exact Hcs].
Qed.

Lemma writeHL_NodeList_loop_outside gid file_id left :
  forall j st w k,
    (k < j \/ j + left <= k)%nat ->
    ls_nodes (snd (fst (writeHL_NodeList_loop gid file_id left j st w))) !! k
    = ls_nodes st !! k.
Proof.
  intros j st w k Hk.
  pose proof (writeHL_NodeList_loop_frame gid file_id left j st w) as Hf.
  destruct (writeHL_NodeList_loop gid file_id left j st w) as [[ok st'] w'].
  destruct Hf as [_ Hf]. simpl. apply Hf. exact Hk.
Qed.

Lemma writeHL_NodeList_loop_written gid file_id left :
  forall j st w i c',
    fst (fst (writeHL_NodeList_loop gid file_id left j st w)) = true ->
    (j <= i < j + left)%nat ->
    ls_nodes (snd (fst (writeHL_NodeList_loop gid file_id left j st w))) !! i
    = Some c' ->
    written c'.
Proof.
  induction left as [|left IH]; intros j st w i c' Hok Hi Hc; [lia|].
  simpl in *. unfold bind in *.
  pose proof (writeHL_NodeList_iter_shape gid file_id j st w) as Hs.
  pose proof (writeHL_NodeList_iter_frame gid file_id j st w) as Hf.
  destruct (writeHL_NodeList_iter gid file_id j st w) as [[ok st'] w'].
  destruct Hf as [_ Hother]. destruct Hs as [_ Hs].
  destruct ok; [|discriminate].
  destruct (decide (i = j)) as [->|Hne].
  - rewrite writeHL_NodeList_loop_outside in Hc by lia.
    destruct Hs as [[Heq Hno]|(c0 & c1 & Hj & Heq & _ & Hw)].
    + rewrite Heq in Hc. unfold written. rewrite (Hno eq_refl c' Hc). exact I.
    + rewrite Heq in Hc.
      rewrite list_lookup_insert_eq in Hc by (eapply lookup_lt_Some; eauto).
      injection Hc as <-. apply Hw. reflexivity.
  - apply (IH (S j) st' w' i c' Hok); [lia|exact Hc].
Qed.

(** X1. What [writeHL_NodeList] may change of the list it is given, on
    every path and for every engine: the file name and the number and
    order of the nodes are the same, and of each node only the type
    handle, [hdfId] and the compression settings can differ (path, type,
    mark, dimensions, buffers, sizes and format are as before). The
    compression settings come back given exactly when the caller gave
    some. *)
Theorem writeHL_NodeList_changes (nodelist : HL_NodeList)
    (property : option HL_FileCreationProperty)
    (compress : option HL_Compression) (w : World) :
  let r := fst (writeHL_NodeList nodelist property compress w) in
  filename (snd (fst r)) = filename nodelist /\
  Forall2 written_as (nodes nodelist) (nodes (snd (fst r))) /\
  (is_Some (snd r) <-> is_Some compress).
Proof.
  cbv zeta. rewrite writeHL_NodeList_unfold. cbv zeta.
  assert (Hstay : filename nodelist = filename nodelist /\
            Forall2 written_as (nodes nodelist) (nodes nodelist) /\
            (is_Some compress <-> is_Some compress)).
  { split; [reflexivity|]. split; [apply Forall2_refl_on; reflexivity|reflexivity]. }
  destruct (h5answer _ (h5st w)) as [file_id s1].
  destruct (file_id <? 0); [exact Hstay|].
  destruct (h5answer _ s1) as [gid s2].
  destruct (gid <? 0); [exact Hstay|].
  match goal with |- context [writeHL_NodeList_loop ?g ?f ?n ?j ?st ?w2] =>
    pose proof (writeHL_NodeList_loop_changes g f n j st w2 (nodes nodelist)) as Hl;
    destruct (writeHL_NodeList_loop g f n j st w2) as [[ok st'] w3] end.
  simpl in *.
  destruct Hl as (Ha & Hb); [apply Forall2_refl_on; reflexivity|].
  split; [reflexivity|]. split; [exact Ha|exact Hb].
Qed.

(** X2. After a [writeHL_NodeList] that returns 1, the handle fields of
    every node of the list are valid: an attribute has a type handle
    [typeId >= 0], a group has [hdfId >= 0], a dataset has both. *)
Theorem writeHL_NodeList_success_handles (nodelist : HL_NodeList)
    (property : option HL_FileCreationProperty)
    (compress : option HL_Compression) (w : World) :
  fst (fst (fst (writeHL_NodeList nodelist property compress w))) = 1 ->
  Forall written
    (nodes (snd (fst (fst (writeHL_NodeList nodelist property compress w))))).
Proof.
  rewrite writeHL_NodeList_unfold. cbv zeta.
  destruct (h5answer _ (h5st w)) as [file_id s1].
  destruct (file_id <? 0); [discriminate|].
  destruct (h5answer _ s1) as [gid s2].
  destruct (gid <? 0); [discriminate|].
  match goal with |- context [writeHL_NodeList_loop ?g ?f ?n ?j ?st ?w2] =>
    pose proof (writeHL_NodeList_loop_written g f n j st w2) as Hl;
    pose proof (writeHL_NodeList_loop_frame g f n j st w2) as Hf;
    destruct (writeHL_NodeList_loop g f n j st w2) as [[ok st'] w3] end.
  simpl in *. intros Hok. destruct ok; [|discriminate].
  destruct Hf as [Hn _].
  apply Forall_lookup. intros i c' Hc.
  apply (Hl i c' eq_refl); [|exact Hc].
  split; [lia|]. simpl.
  rewrite <- (Forall2_length _ _ _ Hn). eapply lookup_lt_Some; eauto.
Qed.

Lemma writeHL_NodeList_loop_failure gid file_id left :
  forall j st w,
    fst (fst (writeHL_NodeList_loop gid file_id left j st w)) = false ->
    exists k,
      (j <= k < j + left)%nat /\
      (forall i c', (j <= i < k)%nat ->
         ls_nodes (snd (fst (writeHL_NodeList_loop gid file_id left j st w))) !! i
         = Some c' -> written c') /\
      (forall i, (k < i)%nat ->
         ls_nodes (snd (fst (writeHL_NodeList_loop gid file_id left j st w))) !! i
         = ls_nodes st !! i).
Proof.
  induction left as [|left IH]; intros j st w Hok; [discriminate|].
  simpl in *. unfold bind in *.
  pose proof (writeHL_NodeList_iter_shape gid file_id j st w) as Hs.
  pose proof (writeHL_NodeList_iter_frame gid file_id j st w) as Hf.
  destruct (writeHL_NodeList_iter gid file_id j st w) as [[ok st'] w'].
  destruct Hf as [_ Hother]. destruct Hs as [_ Hs].
  destruct ok.
  - destruct (IH (S j) st' w' Hok) as (k & Hk & Hpre & Hpost).
    exists k. split; [lia|]. split.
    + intros i c' Hi Hc.
      destruct (decide (i = j)) as [->|Hne]; [|apply (Hpre i c'); [lia|exact Hc]].
      rewrite writeHL_NodeList_loop_outside in Hc by lia.
      destruct Hs as [[Heq Hno]|(c0 & c1 & Hj & Heq & _ & Hw)].
      * rewrite Heq in Hc. unfold written. rewrite (Hno eq_refl c' Hc). exact I.
      * rewrite Heq in Hc.
        rewrite list_lookup_insert_eq in Hc by (eapply lookup_lt_Some; eauto).
        injection Hc as <-. apply Hw. reflexivity.
    + intros i Hi. rewrite Hpost by exact Hi. apply Hother. lia.
  - exists j. split; [lia|]. split; [intros; lia|].
    intros i Hi. simpl. apply Hother. lia.
Qed.

(** X18. When [writeHL_NodeList] has created the file and opened the
    root group and yet returns 0, the loop has stopped at one node of the
    list: every node before it holds the handles of a written node, and
    every node after it is exactly as it was given. *)
Theorem writeHL_NodeList_failure_prefix (nodelist : HL_NodeList)
    (property : option HL_FileCreationProperty)
    (compress : option HL_Compression) (w : World) :
  let create := createHlHdfFile (filename nodelist) property in
  let file_id := fst (h5answer create (h5st w)) in
  let gid := fst (h5answer (H5Gopen file_id ".") (snd (h5answer create (h5st w)))) in
  let r := fst (fst (writeHL_NodeList nodelist property compress w)) in
  0 <= file_id -> 0 <= gid -> fst r = 0 ->
  exists k,
    (k < length (nodes nodelist))%nat /\
    (forall i c', (i < k)%nat -> nodes (snd r) !! i = Some c' -> written c') /\
    (forall i, (k < i)%nat -> nodes (snd r) !! i = nodes nodelist !! i).
Proof.
  cbv zeta. rewrite writeHL_NodeList_unfold. cbv zeta.
  destruct (h5answer (createHlHdfFile (filename nodelist) property) (h5st w))
    as [file_id s1]. simpl fst. simpl snd.
  intros Hf.
  replace (file_id <? 0) with false by (symmetry; apply Z.ltb_ge; exact Hf).
  destruct (h5answer (H5Gopen file_id ".") s1) as [gid s2]. simpl fst.
  intros Hg.
  replace (gid <? 0) with false by (symmetry; apply Z.ltb_ge; exact Hg).
  match goal with |- context [writeHL_NodeList_loop ?g ?f ?n ?j ?st ?w2] =>
    pose proof (writeHL_NodeList_loop_failure g f n j st w2) as Hl;
    destruct (writeHL_NodeList_loop g f n j st w2) as [[ok st'] w3] end.
  simpl in *. intros Hst. destruct ok; [discriminate|].
  destruct (Hl eq_refl) as (k & Hk & Hpre & Hpost).
  exists k. split; [lia|]. split.
  - intros i c' Hi. apply Hpre. lia.
  - exact Hpost.
Qed.

End WriteList.

Lemma writeHL_NodeList_success_handles_witness :
  fst (fst (fst (writeHL_NodeList
    (mkNodeList "f.h5" [Sample.node_of GROUP_ID "/g" NMARK_CREATED;
                        Sample.a_dataset "/g/d"])
    None None (@mkWorld MiniH5.engine Sample.a_memory MiniH5.empty [])))) = 1 /\
  Forall written
    (nodes (snd (fst (fst (writeHL_NodeList
       (mkNodeList "f.h5" [Sample.node_of GROUP_ID "/g" NMARK_CREATED;
                           Sample.a_dataset "/g/d"])
       None None (@mkWorld MiniH5.engine Sample.a_memory MiniH5.empty [])))))).
Proof.
  split; [reflexivity|].
  apply (writeHL_NodeList_success_handles
           (mkNodeList "f.h5" [Sample.node_of GROUP_ID "/g" NMARK_CREATED;
                               Sample.a_dataset "/g/d"])
           None None (@mkWorld MiniH5.engine Sample.a_memory MiniH5.empty [])).
  reflexivity.
Defined.

Lemma writeHL_NodeList_failure_prefix_witness :
  fst (fst (fst (writeHL_NodeList
    (mkNodeList "f.h5"
       [Sample.node_of GROUP_ID "/g" NMARK_CREATED; Sample.a_dataset "/x/d";
        Sample.node_of GROUP_ID "/h" NMARK_CREATED])
    None None (MiniH5.world MiniH5.empty)))) = 0 /\
  exists k,
    (k < 3)%nat /\
    forall i, (k < i)%nat ->
      nodes (snd (fst (fst (writeHL_NodeList
        (mkNodeList "f.h5"
           [Sample.node_of GROUP_ID "/g" NMARK_CREATED; Sample.a_dataset "/x/d";
            Sample.node_of GROUP_ID "/h" NMARK_CREATED])
        None None (MiniH5.world MiniH5.empty))))) !! i
      = [Sample.node_of GROUP_ID "/g" NMARK_CREATED; Sample.a_dataset "/x/d";
         Sample.node_of GROUP_ID "/h" NMARK_CREATED] !! i.
Proof.
  split; [reflexivity|].
  pose proof (writeHL_NodeList_failure_prefix
                (mkNodeList "f.h5"
                   [Sample.node_of GROUP_ID "/g" NMARK_CREATED;
                    Sample.a_dataset "/x/d";
                    Sample.node_of GROUP_ID "/h" NMARK_CREATED])
                None None (MiniH5.world MiniH5.empty)) as H.
  cbv zeta in H.
  destruct H as (k & Hk & _ & Hpost);
    [vm_compute; discriminate|vm_compute; discriminate|reflexivity|].
  exists k. split; [exact Hk|exact Hpost].
Defined.

(** ** The update *)

Section UpdateList.
Context {E : H5Engine}.

(** The call as a function of the answer to [openHlHdfFile] and of the
    run of the loop. *)
Lemma updateHL_NodeList_unfold nodelist compress w :
  updateHL_NodeList nodelist compress w =
  let (file_id, s1) := h5answer (openHlHdfFile (filename nodelist) "rw") (h5st w) in
  let w1 := mkWorld (mem w) s1 (calls w ++ [openHlHdfFile (filename nodelist) "rw"]) in
  if file_id <? 0 then (0, nodelist, compress, w1)
  else
    let '(ok, st, w2) :=
      updateHL_NodeList_loop (-1) file_id (length (nodes nodelist)) 0
        (mkLoopState (nodes nodelist) None compress) w1 in
    (if ok then 1 else 0, mkNodeList (filename nodelist) (ls_nodes st),
     ls_compression st,
     mkWorld (mem w2) (snd (h5answer (H5Fclose file_id) (h5st w2)))
       (calls w2 ++ [H5Fclose file_id])).
Proof.
  unfold updateHL_NodeList, bind, ret, h5.
  destruct (h5answer (openHlHdfFile (filename nodelist) "rw") (h5st w)) as [file_id s1].
  destruct (file_id <? 0) eqn:Ef; [reflexivity|].
  apply Z.ltb_ge in Ef.
  destruct (updateHL_NodeList_loop _ _ _ _ _ _) as [[ok st] w2].
  unfold HL_H5G_CLOSE, HL_H5F_CLOSE, HL_H5T_CLOSE.
  rewrite (HL_H5_CLOSE_invalid H5Gclose (-1)) by lia.
  rewrite (HL_H5_CLOSE_valid H5Fclose file_id) by exact Ef.
  rewrite (HL_H5_CLOSE_invalid H5Tclose (-1)) by lia.
  reflexivity.
Qed.

(** X9. The two ways out of [updateHL_NodeList]. When the file cannot be
    opened the call returns 0 after that one call, with the list and the
    settings as they were given. Otherwise, whatever happens in the loop,
    the last call closes the file. In both cases the heap is as before
    the call. *)
Theorem updateHL_NodeList_exits (nodelist : HL_NodeList)
    (compress : option HL_Compression) (w : World) :
  let open := openHlHdfFile (filename nodelist) "rw" in
  let file_id := fst (h5answer open (h5st w)) in
  let r := updateHL_NodeList nodelist compress w in
  mem (snd r) = mem w /\
  if file_id <? 0 then
    fst r = (0, nodelist, compress) /\ calls (snd r) = calls w ++ [open]
  else
    exists mid,
      calls (snd r) = calls w ++ [open] ++ mid ++ [H5Fclose file_id].
Proof.
  cbv zeta. rewrite updateHL_NodeList_unfold. cbv zeta.
  destruct (h5answer (openHlHdfFile (filename nodelist) "rw") (h5st w))
    as [file_id s1]. simpl fst.
  destruct (file_id <? 0); [simpl; auto|].
  match goal with |- context [updateHL_NodeList_loop ?g ?f ?n ?j ?st ?w2] =>
    pose proof (engine_only_updateHL_NodeList_loop g f n j st w2) as Hg;
    destruct (updateHL_NodeList_loop g f n j st w2) as [[ok st'] w3] end.
  destruct Hg as [Hm [mid Hc]]. simpl in *.
  split; [exact Hm|]. exists mid. rewrite Hc.
  rewrite <- !List.app_assoc. reflexivity.
Qed.

(** The shape of one iteration of the update: nothing is changed, or the
    node of the index, a Created one, is replaced by what its writer left. *)
Lemma updateHL_NodeList_iter_shape gid file_id j st w :
  let '(ok, st', w') := updateHL_NodeList_iter gid file_id j st w in
  ((ls_nodes st' = ls_nodes st /\
    (ok = true -> forall c, ls_nodes st !! j = Some c ->
       mark c = NMARK_CREATED -> appended (type c) = false)) \/
   (exists c c' status,
      ls_nodes st !! j = Some c /\ mark c = NMARK_CREATED /\
      ls_nodes st' = <[j := c']> (ls_nodes st) /\
      ok = negb (status =? 0) /\
      ((appended (type c) = true /\ appended_as status c c') \/
       (type c = TYPE_ID /\ c' = c)))).
Proof.
  unfold updateHL_NodeList_iter.
  destruct (ls_nodes st !! j) as [child|] eqn:Hj;
    [|left; split; [reflexivity|discriminate]].
  destruct (bool_decide (mark child = NMARK_CREATED)) eqn:Hm.
  2:{ apply bool_decide_eq_false in Hm. left. split; [reflexivity|].
      intros _ c [= <-] Hc. contradiction. }
  apply bool_decide_eq_true in Hm.
  destruct (extractParentChildName child) as [[parentName childName]|];
    [|left; split; [reflexivity|discriminate]].
  destruct (locate_parent (ls_nodes st) (ls_parentNode st) parentName)
    as [parentNode missing].
  destruct missing; [left; split; [reflexivity|discriminate]|].
  unfold bind, ret.
  destruct (type child) eqn:Ht.
  - left. split; [reflexivity|]. intros _ c [= <-] _. rewrite Ht. reflexivity.
  - pose proof (doAppendHdf5Attribute_appended_as file_id
                  (deref (ls_nodes st) parentNode) parentName child childName w) as Ha.
    destruct (doAppendHdf5Attribute _ _ _ _ _ w) as [[status child'] w'].
    right. exists child, child', status. rewrite Ht. simpl. auto 10.
  - pose proof (doAppendHdf5Group_appended_as file_id
                  (deref (ls_nodes st) parentNode) parentName child childName w) as Hg.
    destruct (doAppendHdf5Group _ _ _ _ _ w) as [[status child'] w'].
    right. exists child, child', status. rewrite Ht. simpl. auto 10.
  - destruct (ls_compression st) as [cm|].
    + pose proof (doAppendHdf5Dataset_appended_as gid
                    (deref (ls_nodes st) parentNode) parentName child childName
                    (Some cm) w) as Hd.
      destruct (doAppendHdf5Dataset _ _ _ _ _ _ w) as [[[status child'] c'] w'].
      right. exists child, child', status. rewrite Ht. simpl. auto 10.
    + pose proof (doAppendHdf5Dataset_appended_as gid
                    (deref (ls_nodes st) parentNode) parentName child childName
                    (compression child) w) as Hd.
      destruct (doAppendHdf5Dataset _ _ _ _ _ _ w) as [[[status child'] c'] w'].
      right. exists child, (set_compression c' child'), status. rewrite Ht. simpl.
      split; [reflexivity|]. split; [exact Hm|]. split; [reflexivity|].
      split; [reflexivity|]. left. split; [reflexivity|].
      apply appended_as_compression. exact Hd.
  - pose proof (doWriteHdf5Datatype_keeps_node file_id
                  (deref (ls_nodes st) parentNode) parentName child childName w) as Hk.
    destruct (doWriteHdf5Datatype _ _ _ _ _ w) as [[status child'] w'].
    simpl in Hk. subst child'.
    right. exists child, child, status. rewrite Ht. simpl. auto 10.
  - left. split; [reflexivity|]. intros _ c [= <-] _. rewrite Ht. reflexivity.
Qed.

Lemma updateHL_NodeList_loop_updated gid file_id left :
  forall j st w l0,
    Forall2 updated_as l0 (ls_nodes st) ->
    Forall2 updated_as l0
      (ls_nodes (snd (fst (updateHL_NodeList_loop gid file_id left j st w)))).
Proof.
  induction left as [|left IH]; intros j st w l0 H0; simpl; [exact H0|].
  unfold bind.
  pose proof (updateHL_NodeList_iter_shape gid file_id j st w) as Hs.
  destruct (updateHL_NodeList_iter gid file_id j st w) as [[ok st'] w'].
  assert (H1 : Forall2 updated_as l0 (ls_nodes st')).
  { destruct Hs as [[-> _]|(c & c' & status & Hj & Hm & -> & _ & Hc)]; [exact H0|].
    eapply Forall2_insert_r; eauto using updated_as_trans.
    destruct Hc as [[_ Ha]|[_ ->]].
    - eapply appended_as_updated; eauto.
    - apply updated_as_refl. }
  destruct ok; [apply IH; exact H1|exact H1].
Qed.

(** Indices outside the range of the loop are not written. *)
Lemma updateHL_NodeList_loop_outside gid file_id left :
  forall j st w k,
    (k < j \/ j + left <= k)%nat ->
    ls_nodes (snd (fst (updateHL_NodeList_loop gid file_id left j st w))) !! k
    = ls_nodes st !! k.
Proof.
  induction left as [|left IH]; intros j st w k Hk; simpl; [reflexivity|].
  unfold bind.
  pose proof (updateHL_NodeList_iter_frame gid file_id j st w) as Hf.
  destruct (updateHL_NodeList_iter gid file_id j st w) as [[ok st'] w'].
  destruct Hf as [Hother _].
  destruct ok.
  - rewrite IH by lia. apply Hother. lia.
  - simpl. apply Hother. lia.
Qed.

Lemma updateHL_NodeList_loop_success gid file_id left :
  forall j st w i c,
    fst (fst (updateHL_NodeList_loop gid file_id left j st w)) = true ->
    (j <= i < j + left)%nat ->
    ls_nodes st !! i = Some c -> mark c = NMARK_CREATED ->
    appended (type c) = true ->
    exists c',
      ls_nodes (snd (fst (updateHL_NodeList_loop gid file_id left j st w))) !! i
      = Some c' /\ mark c' = NMARK_ORIGINAL.
Proof.
  induction left as [|left IH]; intros j st w i c Hok Hi Hc Hm Ht; [lia|].
  simpl in *. unfold bind in *.
  pose proof (updateHL_NodeList_iter_shape gid file_id j st w) as Hs.
  pose proof (updateHL_NodeList_iter_frame gid file_id j st w) as Hf.
  destruct (updateHL_NodeList_iter gid file_id j st w) as [[ok st'] w'].
  destruct Hf as [Hother _].
  destruct ok; [|discriminate].
  destruct (decide (i = j)) as [->|Hne].
  - rewrite updateHL_NodeList_loop_outside by lia.
    destruct Hs as [[_ Hno]|(c0 & c' & status & Hj & _ & -> & Hst & Hcase)].
    + rewrite (Hno eq_refl c Hc Hm) in Ht. discriminate.
    + rewrite Hc in Hj. injection Hj as <-.
      exists c'. split.
      * apply list_lookup_insert_eq. eapply lookup_lt_Some; eauto.
      * destruct Hcase as [[_ [He Hs01]]|[Hty _]].
        -- destruct Hs01 as [->| ->]; [discriminate|].
           simpl in He. destruct c, c'. simpl in *. inversion He. reflexivity.
        -- rewrite Hty in Ht. discriminate.
  - apply (IH (S j) st' w' i c Hok); [lia| |exact Hm|exact Ht].
    rewrite Hother by exact Hne. exact Hc.
Qed.

Lemma updateHL_NodeList_loop_nothing gid file_id left :
  forall j st w,
    Forall (fun n => mark n <> NMARK_CREATED) (ls_nodes st) ->
    (j + left <= length (ls_nodes st))%nat ->
    updateHL_NodeList_loop gid file_id left j st w = (true, st, w).
Proof.
  induction left as [|left IH]; intros j st w Hall Hlen; simpl; [reflexivity|].
  unfold bind.
  pose proof (updateHL_NodeList_iter_frame gid file_id j st w) as Hf.
  destruct (updateHL_NodeList_iter gid file_id j st w) as [[ok st'] w'].
  destruct Hf as [_ Hsame].
  destruct (lookup_lt_is_Some_2 (ls_nodes st) j) as [c Hc]; [lia|].
  destruct (Hsame c Hc) as (-> & -> & ->).
  { rewrite Forall_forall in Hall. apply Hall. eapply list_elem_of_lookup_2; eauto. }
  apply IH; [exact Hall|lia].
Qed.

(** X6. What [updateHL_NodeList] may change of the list it is given, on
    every path and for every engine: the file name and the number and
    order of the nodes are the same; of each node only the type handle,
    the compression settings and the mark can differ, and the mark either
    stays or goes from Created to Original. No node gets another path,
    another [hdfId] or another buffer, and no mark other than Created is
    ever changed. *)
Theorem updateHL_NodeList_changes (nodelist : HL_NodeList)
    (compress : option HL_Compression) (w : World) :
  filename (snd (fst (fst (updateHL_NodeList nodelist compress w))))
  = filename nodelist /\
  Forall2 updated_as (nodes nodelist)
    (nodes (snd (fst (fst (updateHL_NodeList nodelist compress w))))).
Proof.
  rewrite updateHL_NodeList_unfold.
  destruct (h5answer _ (h5st w)) as [file_id s1].
  destruct (file_id <? 0);
    [split; [reflexivity|apply Forall2_refl_on; apply updated_as_refl]|].
  cbv zeta.
  match goal with |- context [updateHL_NodeList_loop ?g ?f ?n ?j ?st ?w1] =>
    pose proof (updateHL_NodeList_loop_updated g f n j st w1 (nodes nodelist)
                  (Forall2_refl_on _ _ updated_as_refl)) as Hl;
    destruct (updateHL_NodeList_loop g f n j st w1) as [[ok st'] w2] end.
  simpl in *. split; [reflexivity|exact Hl].
Qed.

(** X7. After an [updateHL_NodeList] that returns 1, every node that was
    Created and is an attribute, a group or a dataset is marked
    Original. *)
Theorem updateHL_NodeList_success_original (nodelist : HL_NodeList)
    (compress : option HL_Compression) (w : World) (i : nat) (c : HL_Node) :
  fst (fst (fst (updateHL_NodeList nodelist compress w))) = 1 ->
  nodes nodelist !! i = Some c ->
  mark c = NMARK_CREATED ->
  appended (type c) = true ->
  exists c',
    nodes (snd (fst (fst (updateHL_NodeList nodelist compress w)))) !! i = Some c' /\
    mark c' = NMARK_ORIGINAL.
Proof.
  rewrite updateHL_NodeList_unfold.
  destruct (h5answer _ (h5st w)) as [file_id s1].
  destruct (file_id <? 0); [discriminate|].
  cbv zeta. intros Hst Hi Hm Ht.
  match goal with |- context [updateHL_NodeList_loop ?g ?f ?n ?j ?st ?w1] =>
    pose proof (updateHL_NodeList_loop_success g f n j st w1 i c) as Hl;
    destruct (updateHL_NodeList_loop g f n j st w1) as [[ok st'] w2] end.
  simpl in *. destruct ok; [|discriminate].
  apply Hl; auto. split; [lia|]. simpl. eapply lookup_lt_Some; eauto.
Qed.

(** X8. When no node of the list is Created, [updateHL_NodeList] does
    nothing but open the file and close it again: it returns 1 when the
    file could be opened and 0 otherwise, the list and the compression
    settings are returned as they were given, and no other call is made,
    whatever the nodes are and whether or not they are in the file. *)
Theorem updateHL_NodeList_nothing_created (nodelist : HL_NodeList)
    (compress : option HL_Compression) (w : World) :
  Forall (fun n => mark n <> NMARK_CREATED) (nodes nodelist) ->
  let file_id := fst (h5answer (openHlHdfFile (filename nodelist) "rw") (h5st w)) in
  let r := updateHL_NodeList nodelist compress w in
  fst r = (if file_id <? 0 then 0 else 1, nodelist, compress) /\
  calls (snd r)
  = calls w ++ [openHlHdfFile (filename nodelist) "rw"]
            ++ (if file_id <? 0 then [] else [H5Fclose file_id]).
Proof.
  intros Hall file_id r. subst file_id r.
  rewrite updateHL_NodeList_unfold.
  destruct (h5answer _ (h5st w)) as [file_id s1]. simpl fst.
  destruct (file_id <? 0); [split; [reflexivity|]|].
  - simpl. reflexivity.
  - cbv zeta. rewrite !updateHL_NodeList_loop_nothing by (simpl; first [exact Hall | lia]).
    simpl. split; [destruct nodelist; reflexivity|].
    rewrite <- List.app_assoc. reflexivity.
Qed.

Lemma updateHL_NodeList_loop_failure gid file_id left :
  forall j st w,
    fst (fst (updateHL_NodeList_loop gid file_id left j st w)) = false ->
    (j + left <= length (ls_nodes st))%nat ->
    exists k c,
      (j <= k < j + left)%nat /\
      ls_nodes st !! k = Some c /\ mark c = NMARK_CREATED /\
      (forall i c0, (j <= i < k)%nat ->
         ls_nodes st !! i = Some c0 -> mark c0 = NMARK_CREATED ->
         appended (type c0) = true ->
         exists c',
           ls_nodes (snd (fst (updateHL_NodeList_loop gid file_id left j st w))) !! i
           = Some c' /\ mark c' = NMARK_ORIGINAL) /\
      (forall i, (k < i)%nat ->
         ls_nodes (snd (fst (updateHL_NodeList_loop gid file_id left j st w))) !! i
         = ls_nodes st !! i).
Proof.
  induction left as [|left IH]; intros j st w Hok Hlen; [discriminate|].
  simpl in *. unfold bind in *.
  pose proof (updateHL_NodeList_iter_shape gid file_id j st w) as Hs.
  pose proof (updateHL_NodeList_iter_frame gid file_id j st w) as Hf.
  destruct (updateHL_NodeList_iter gid file_id j st w) as [[ok st'] w'].
  destruct Hf as [Hother Hsame].
  assert (Hlen' : length (ls_nodes st') = length (ls_nodes st)).
  { destruct Hs as [[-> _]|(c & c' & status & _ & _ & -> & _)];
      [reflexivity|apply length_insert]. }
  destruct ok.
  - destruct (IH (S j) st' w' Hok) as (k & c & Hk & Hkc & Hkm & Hpre & Hpost);
      [lia|].
    exists k, c. split; [lia|].
    split; [rewrite <- Hother by lia; exact Hkc|]. split; [exact Hkm|]. split.
    + intros i c0 Hi Hc0 Hm Ht.
      destruct (decide (i = j)) as [->|Hne].
      * rewrite updateHL_NodeList_loop_outside by lia.
        destruct Hs as [[_ Hno]|(c1 & c' & status & Hj & _ & -> & Hst & Hcase)].
        -- rewrite (Hno eq_refl c0 Hc0 Hm) in Ht. discriminate.
        -- rewrite Hc0 in Hj. injection Hj as <-.
           exists c'. split.
           ++ apply list_lookup_insert_eq. eapply lookup_lt_Some; eauto.
           ++ destruct Hcase as [[_ [He Hs01]]|[Hty _]].
              ** destruct Hs01 as [->| ->]; [discriminate|].
                 simpl in He. destruct c0, c'. simpl in *. inversion He. reflexivity.
              ** rewrite Hty in Ht. discriminate.
      * apply (Hpre i c0); [lia| |exact Hm|exact Ht].
        rewrite Hother by exact Hne. exact Hc0.
    + intros i Hi. rewrite Hpost by exact Hi. apply Hother. lia.
  - destruct (lookup_lt_is_Some_2 (ls_nodes st) j) as [c Hc]; [lia|].
    exists j, c. split; [lia|]. split; [exact Hc|]. split.
    + destruct (decide (mark c = NMARK_CREATED)) as [Hm|Hm]; [exact Hm|].
      destruct (Hsame c Hc Hm) as [Hx _]. discriminate.
    + split; [intros; lia|].
      intros i Hi. simpl. apply Hother. lia.
Qed.

(** X19. When [updateHL_NodeList] has opened the file and yet returns 0,
    the loop has stopped at one node of the list, and that node was
    Created: every Created attribute, group or dataset before it has been
    appended and is marked Original, and every node after it is exactly
    as it was given. A node that is not Created never makes the update
    fail. *)
Theorem updateHL_NodeList_failure_prefix (nodelist : HL_NodeList)
    (compress : option HL_Compression) (w : World) :
  let file_id := fst (h5answer (openHlHdfFile (filename nodelist) "rw") (h5st w)) in
  let r := fst (fst (updateHL_NodeList nodelist compress w)) in
  0 <= file_id -> fst r = 0 ->
  exists k c,
    nodes nodelist !! k = Some c /\ mark c = NMARK_CREATED /\
    (forall i c0, (i < k)%nat -> nodes nodelist !! i = Some c0 ->
       mark c0 = NMARK_CREATED -> appended (type c0) = true ->
       exists c', nodes (snd r) !! i = Some c' /\ mark c' = NMARK_ORIGINAL) /\
    (forall i, (k < i)%nat -> nodes (snd r) !! i = nodes nodelist !! i).
Proof.
  cbv zeta. rewrite updateHL_NodeList_unfold. cbv zeta.
  destruct (h5answer (openHlHdfFile (filename nodelist) "rw") (h5st w))
    as [file_id s1]. simpl fst.
  intros Hf.
  replace (file_id <? 0) with false by (symmetry; apply Z.ltb_ge; exact Hf).
  match goal with |- context [updateHL_NodeList_loop ?g ?f ?n ?j ?st ?w2] =>
    pose proof (updateHL_NodeList_loop_failure g f n j st w2) as Hl;
    destruct (updateHL_NodeList_loop g f n j st w2) as [[ok st'] w3] end.
  simpl in *. intros Hst. destruct ok; [discriminate|].
  destruct (Hl eq_refl) as (k & c & Hk & Hkc & Hkm & Hpre & Hpost); [lia|].
  exists k, c. split; [exact Hkc|]. split; [exact Hkm|]. split.
  - intros i c0 Hi. apply Hpre. lia.
  - exact Hpost.
Qed.

End UpdateList.

Lemma updateHL_NodeList_success_original_witness :
  fst (fst (fst (updateHL_NodeList
    (mkNodeList "f.h5" [Sample.a_group;
                        Sample.node_of GROUP_ID "/g/h" NMARK_CREATED])
    None Sample.file_with_group))) = 1 /\
  exists c',
    nodes (snd (fst (fst (updateHL_NodeList
      (mkNodeList "f.h5" [Sample.a_group;
                          Sample.node_of GROUP_ID "/g/h" NMARK_CREATED])
      None Sample.file_with_group)))) !! 1%nat = Some c' /\
    mark c' = NMARK_ORIGINAL.
Proof.
  split; [reflexivity|].
  apply (updateHL_NodeList_success_original
           (mkNodeList "f.h5" [Sample.a_group;
                               Sample.node_of GROUP_ID "/g/h" NMARK_CREATED])
           None Sample.file_with_group 1%nat
           (Sample.node_of GROUP_ID "/g/h" NMARK_CREATED));
    reflexivity.
Defined.

Lemma updateHL_NodeList_nothing_created_witness :
  Forall (fun n => mark n <> NMARK_CREATED)
    [Sample.a_group; Sample.node_of DATASET_ID "/nowhere/d" NMARK_CHANGED] /\
  calls (snd (updateHL_NodeList
    (mkNodeList "f.h5"
       [Sample.a_group; Sample.node_of DATASET_ID "/nowhere/d" NMARK_CHANGED])
    None Sample.file_with_group))
  = [openHlHdfFile "f.h5" "rw"; H5Fclose 10].
Proof.
  assert (H : Forall (fun n => mark n <> NMARK_CREATED)
                [Sample.a_group;
                 Sample.node_of DATASET_ID "/nowhere/d" NMARK_CHANGED])
    by (repeat constructor; discriminate).
  split; [exact H|].
  exact (proj2 (updateHL_NodeList_nothing_created
                  (mkNodeList "f.h5"
                     [Sample.a_group;
                      Sample.node_of DATASET_ID "/nowhere/d" NMARK_CHANGED])
                  None Sample.file_with_group H)).
Defined.

Lemma updateHL_NodeList_failure_prefix_witness :
  fst (fst (fst (updateHL_NodeList
    (mkNodeList "f.h5"
       [Sample.a_group; Sample.node_of GROUP_ID "/g/h" NMARK_CREATED;
        Sample.node_of GROUP_ID "/g" NMARK_CREATED;
        Sample.node_of GROUP_ID "/g/k" NMARK_CREATED])
    None Sample.file_with_group))) = 0 /\
  exists k c,
    [Sample.a_group; Sample.node_of GROUP_ID "/g/h" NMARK_CREATED;
     Sample.node_of GROUP_ID "/g" NMARK_CREATED;
     Sample.node_of GROUP_ID "/g/k" NMARK_CREATED] !! k = Some c /\
    mark c = NMARK_CREATED.
Proof.
  split; [reflexivity|].
  pose proof (updateHL_NodeList_failure_prefix
                (mkNodeList "f.h5"
                   [Sample.a_group; Sample.node_of GROUP_ID "/g/h" NMARK_CREATED;
                    Sample.node_of GROUP_ID "/g" NMARK_CREATED;
                    Sample.node_of GROUP_ID "/g/k" NMARK_CREATED])
                None Sample.file_with_group) as H.
  cbv zeta in H.
  destruct H as (k & c & Hk & Hm & _);
    [vm_compute; discriminate|reflexivity|].
  exists k, c. split; [exact Hk|exact Hm].
Defined.

(** * The node interface *)

(** ** Copies of arrays *)

Lemma HLHDF_FREE_freed p m : freed p m (HLHDF_FREE p m).
Proof.
  destruct p as [q|]; simpl.
  - split; [|split; [|reflexivity]].
    + intros x Hx. apply lookup_delete_ne. congruence.
    + intros x [= <-]. apply lookup_delete_eq.
  - split; [auto|]. split; [discriminate|reflexivity].
Qed.

(** Allocating [n] cells and filling them from a readable block gives a
    block, not in use before, that holds the first [n] cells of the
    source. *)
Lemma malloc_memcpy_prefix m src n :
  readable m src n ->
  (fst (malloc n m) ∉ dom (bufs m)) /\
  memcpy (Some (fst (malloc n m))) src n (snd (malloc n m))
  = Some (mkMemory (<[fst (malloc n m) := take (Z.to_nat n) (contents m src)]> (bufs m))
            (descs m)).
Proof.
  intros Hr. unfold malloc. simpl.
  set (p := fresh (dom (bufs m))).
  assert (Hp : p ∉ dom (bufs m)) by apply is_fresh.
  split; [exact Hp|].
  unfold memcpy. simpl.
  destruct (n =? 0) eqn:En.
  - apply Z.eqb_eq in En. subst n. simpl. rewrite take_0. reflexivity.
  - apply Z.eqb_neq in En.
    destruct src as [s|]; [|simpl in Hr; contradiction].
    destruct Hr as (b & Hb & Hlen).
    assert (Hsp : s <> p).
    { intros ->. apply Hp. apply elem_of_dom. eauto. }
    rewrite lookup_insert_eq.
    rewrite lookup_insert_ne by congruence. rewrite Hb.
    rewrite length_replicate.
    replace (n <=? Z.of_nat (Z.to_nat n)) with true
      by (symmetry; apply Z.leb_le; lia).
    replace (n <=? Z.of_nat (length b)) with true
      by (symmetry; apply Z.leb_le; lia).
    simpl. rewrite Hb. simpl.
    rewrite insert_insert_eq.
    rewrite drop_ge by (rewrite length_replicate; lia).
    rewrite app_nil_r. reflexivity.
Qed.



Lemma has_dims_true nd ds :
  has_dims nd ds = true <-> 0 < nd /\ ds <> None.
Proof.
  unfold has_dims. rewrite andb_true_iff, Z.ltb_lt, bool_decide_eq_true. tauto.
Qed.

(** [setHL_NodeDimensions] on a node whose array, if any, is in use, with
    a caller's array that is readable when it is looked at. *)
Lemma setHL_NodeDimensions_effect m node nd ds :
  allocated m (dims node) ->
  (has_dims nd ds = true -> readable m ds nd) ->
  exists d m',
    setHL_NodeDimensions node nd ds m = Some (1, set_dimensions nd d node, m') /\
    (if has_dims nd ds
     then exists q, d = Some q /\ (q ∉ dom (bufs m)) /\
                    bufs m' !! q = Some (take (Z.to_nat nd) (contents m ds)) /\
                    (forall p, p <> q -> dims node <> Some p ->
                               bufs m' !! p = bufs m !! p)
     else d = None /\
          (forall p, dims node <> Some p -> bufs m' !! p = bufs m !! p)) /\
    (forall p, dims node = Some p -> bufs m' !! p = None) /\
    descs m' = descs m.
Proof.
  intros Hal Hrd. unfold setHL_NodeDimensions. fold (has_dims nd ds).
  destruct (has_dims nd ds) eqn:Hg.
  - destruct (malloc_memcpy_prefix m ds nd (Hrd eq_refl)) as [Hfresh Hcp].
    destruct (malloc nd m) as [p m1] eqn:Hm. simpl in Hfresh, Hcp.
    rewrite Hcp. simpl.
    eexists (Some p), _. split; [reflexivity|].
    assert (Hne : dims node <> Some p).
    { intros Hd. unfold allocated in Hal. rewrite Hd in Hal. contradiction. }
    destruct (HLHDF_FREE_freed (dims node)
                (mkMemory (<[p := take (Z.to_nat nd) (contents m ds)]> (bufs m))
                   (descs m))) as (Hk & Hf & Hd).
    split; [|split; [exact Hf|exact Hd]].
    exists p. split; [reflexivity|]. split; [exact Hfresh|]. split.
    + rewrite (Hk p Hne). simpl. apply lookup_insert_eq.
    + intros x Hx Hx'. rewrite (Hk x Hx'). simpl.
      apply lookup_insert_ne. congruence.
  - simpl. eexists None, _. split; [reflexivity|].
    destruct (HLHDF_FREE_freed (dims node) m) as (Hk & Hf & Hd).
    split; [split; [reflexivity|exact Hk]|]. split; [exact Hf|exact Hd].
Qed.

(** Reading an index of a node whose array holds [cells]. *)
Lemma getHL_NodeDimension_cells m node q cells i :
  dims node = Some q -> bufs m !! q = Some cells ->
  Z.of_nat (length cells) = ndims node ->
  getHL_NodeDimension m node i
  = Some (if (0 <=? i) && (i <? ndims node) then default 0 (cells !! Z.to_nat i) else 0).
Proof.
  intros Hq Hc Hl. unfold getHL_NodeDimension. rewrite Hq.
  rewrite (bool_decide_eq_false_2 (Some q = None)) by discriminate.
  rewrite orb_false_r.
  destruct (i <? 0) eqn:E1; simpl.
  { replace (0 <=? i) with false by (symmetry; apply Z.leb_gt; apply Z.ltb_lt; exact E1).
    reflexivity. }
  apply Z.ltb_ge in E1.
  replace (0 <=? i) with true by (symmetry; apply Z.leb_le; exact E1). simpl.
  rewrite Z.geb_leb.
  destruct (ndims node <=? i) eqn:E2.
  { apply Z.leb_le in E2.
    replace (i <? ndims node) with false by (symmetry; apply Z.ltb_ge; exact E2).
    reflexivity. }
  apply Z.leb_gt in E2.
  replace (i <? ndims node) with true by (symmetry; apply Z.ltb_lt; exact E2).
  simpl. rewrite Hc. simpl.
  destruct (lookup_lt_is_Some_2 cells (Z.to_nat i)) as [x Hx]; [lia|].
  rewrite Hx. reflexivity.
Qed.

Lemma getHL_NodeDimension_no_array m node i :
  dims node = None -> getHL_NodeDimension m node i = Some 0.
Proof.
  intros Hq. unfold getHL_NodeDimension. rewrite Hq.
  rewrite (bool_decide_eq_true_2 (@None loc = None)) by reflexivity.
  rewrite orb_true_r. reflexivity.
Qed.

Lemma setHL_NodeDimensions_reads (m : Memory) (node : HL_Node)
    (nd : Z) (ds : cptr) :
  allocated m (dims node) ->
  (0 < nd -> ds <> None -> readable m ds nd) ->
  exists node' m',
    setHL_NodeDimensions node nd ds m = Some (1, node', m') /\
    set_dimensions (ndims node) (dims node) node' = node /\
    ndims node' = nd /\
    dims_ok m' node' /\
    (forall q, dims node' = Some q -> q ∉ dom (bufs m)) /\
    (dims node' = None <-> ~ (0 < nd /\ ds <> None)) /\
    (forall i, getHL_NodeDimension m' node' i
               = Some (if (0 <=? i) && (i <? nd) && bool_decide (ds <> None)
                       then default 0 (contents m ds !! Z.to_nat i) else 0)) /\
    (forall p, dims node <> Some p -> dims node' <> Some p ->
               bufs m' !! p = bufs m !! p) /\
    (forall p, dims node = Some p -> bufs m' !! p = None).
Proof.
  intros Hal Hrd.
  destruct (setHL_NodeDimensions_effect m node nd ds Hal) as (d & m' & Hset & Hd & Hf & _).
  { intros Hg. apply has_dims_true in Hg as [H1 H2]. auto. }
  exists (set_dimensions nd d node), m'.
  split; [exact Hset|]. split; [destruct node; reflexivity|].
  split; [reflexivity|].
  destruct (has_dims nd ds) eqn:Hg.
  - destruct Hd as (q & -> & Hfresh & Hq & Hk).
    pose proof (proj1 (has_dims_true nd ds) Hg) as [Hpos Hnn].
    assert (Hr : readable m ds nd) by auto.
    assert (Hlen : Z.of_nat (length (take (Z.to_nat nd) (contents m ds))) = nd).
    { rewrite length_take. destruct ds as [s|]; [|contradiction].
      destruct Hr as (b & Hb & Hl). simpl. rewrite Hb. simpl. lia. }
    split; [unfold dims_ok; simpl; eexists; split; [exact Hq|exact Hlen]|].
    split; [intros x [= <-]; exact Hfresh|].
    split; [split; [discriminate|intros Hn; exfalso; apply Hn; auto]|].
    split; [|split; [|exact Hf]].
    + intros i.
      rewrite (getHL_NodeDimension_cells m' (set_dimensions nd (Some q) node) q
                 _ i eq_refl Hq Hlen). simpl.
      rewrite (bool_decide_eq_true_2 (ds <> None)) by exact Hnn.
      rewrite andb_true_r.
      destruct ((0 <=? i) && (i <? nd)) eqn:Hi; [|reflexivity].
      apply andb_true_iff in Hi as [H0 H1].
      apply Z.leb_le in H0. apply Z.ltb_lt in H1.
      rewrite lookup_take_lt by lia. reflexivity.
    + intros p Hp Hp'. apply Hk; [|exact Hp]. simpl in Hp'. congruence.
  - destruct Hd as (-> & Hk).
    assert (Hno : ~ (0 < nd /\ ds <> None)).
    { intros H. apply has_dims_true in H. congruence. }
    split; [exact I|]. split; [discriminate|].
    split; [split; [intros _; exact Hno|reflexivity]|].
    split; [|split; [|exact Hf]].
    + intros i. rewrite getHL_NodeDimension_no_array by reflexivity.
      destruct ((0 <=? i) && (i <? nd) && bool_decide (ds <> None)) eqn:Hi;
        [|reflexivity].
      exfalso. apply Hno.
      apply andb_true_iff in Hi as [Hi Hn]. apply andb_true_iff in Hi as [H0 H1].
      apply Z.leb_le in H0. apply Z.ltb_lt in H1. apply bool_decide_eq_true in Hn.
      split; [lia|exact Hn].
    + intros p Hp _. apply Hk. exact Hp.
Qed.

(** X11. [setHL_NodeDimensions], then the accessors. For a node whose
    array is [NULL] or in use, and a caller's array of at least [ndims]
    cells when [ndims > 0] and the array is given: the call returns 1 and
    changes [ndims] and [dims] only; the node gets an array of its own,
    in a block that was not in use, exactly when [ndims > 0] and the
    caller's array is given, and [NULL] otherwise; the result satisfies
    the invariant [dims_ok]; [getHL_NodeDimension] then reads the
    caller's cell at every index [0 <= i < ndims] and 0 elsewhere; the
    node's previous array is freed and every other block is untouched.
    A rank [ndims <= 0] is stored as it is given. *)
Theorem setHL_NodeDimensions_then_read (m : Memory) (node : HL_Node)
    (nd : Z) (ds : cptr) :
  allocated m (dims node) ->
  (0 < nd -> ds <> None -> readable m ds nd) ->
  exists node' m',
    setHL_NodeDimensions node nd ds m = Some (1, node', m') /\
    set_dimensions (ndims node) (dims node) node' = node /\
    ndims node' = nd /\
    dims_ok m' node' /\
    (forall q, dims node' = Some q -> q ∉ dom (bufs m)) /\
    (dims node' = None <-> ~ (0 < nd /\ ds <> None)) /\
    (forall i, getHL_NodeDimension m' node' i
               = Some (if (0 <=? i) && (i <? nd) && bool_decide (ds <> None)
                       then default 0 (contents m ds !! Z.to_nat i) else 0)) /\
    (forall p, dims node <> Some p -> dims node' <> Some p ->
               bufs m' !! p = bufs m !! p) /\
    (forall p, dims node = Some p -> bufs m' !! p = None).
Proof. exact (setHL_NodeDimensions_reads m node nd ds). Qed.

Lemma setHL_NodeDimensions_then_read_witness :
  allocated Sample.a_memory (dims (Sample.a_dataset "/d")) /\
  readable Sample.a_memory (Some 2%positive) 3 /\
  exists node' m',
    setHL_NodeDimensions (Sample.a_dataset "/d") 3 (Some 2%positive)
      Sample.a_memory = Some (1, node', m') /\
    ndims node' = 3 /\
    getHL_NodeDimension m' node' 1 = Some 11.
Proof.
  assert (Ha : allocated Sample.a_memory (dims (Sample.a_dataset "/d"))).
  { change (1%positive ∈ dom (bufs Sample.a_memory)).
    apply elem_of_dom. exists [2; 3]. reflexivity. }
  assert (Hr : readable Sample.a_memory (Some 2%positive) 3).
  { exists [10; 11; 12; 13; 14; 15]. split; [reflexivity|simpl; lia]. }
  split; [exact Ha|]. split; [exact Hr|].
  destruct (setHL_NodeDimensions_then_read Sample.a_memory
              (Sample.a_dataset "/d") 3 (Some 2%positive) Ha (fun _ _ => Hr))
    as (node' & m' & Hs & _ & Hn & _ & _ & _ & Hread & _).
  exists node', m'. split; [exact Hs|]. split; [exact Hn|].
  rewrite (Hread 1). reflexivity.
Defined.

(** X12. [getHL_NodeDimensions], then [setHL_NodeDimensions] on another
    node. For a node [a] that satisfies [dims_ok]: with both
    out-parameters given, the call hands out the rank and a copy of the
    array in a block that was not in use, holding the cells of [a]'s
    array, when [a] has a positive rank and an array, and 0 and [NULL]
    otherwise; no block of the caller is changed. Setting the result on a
    node [b] makes every [getHL_NodeDimension] of [b] agree with that of
    [a]. *)
Theorem getHL_NodeDimensions_round_trip (m : Memory) (a b : HL_Node) :
  dims_ok m a ->
  allocated m (dims b) ->
  exists n p m1 b' m2,
    getHL_NodeDimensions a true true m = Some (Some (n, p), m1) /\
    n = (if has_dims (ndims a) (dims a) then ndims a else 0) /\
    (forall q, p = Some q -> q ∉ dom (bufs m)) /\
    (forall q cells, bufs m !! q = Some cells -> bufs m1 !! q = Some cells) /\
    contents m1 p = (if has_dims (ndims a) (dims a) then contents m (dims a) else []) /\
    setHL_NodeDimensions b n p m1 = Some (1, b', m2) /\
    (forall i, getHL_NodeDimension m2 b' i = getHL_NodeDimension m a i).
Proof.
  intros Hok Hal. unfold getHL_NodeDimensions. simpl (true && true).
  cbv iota. fold (has_dims (ndims a) (dims a)).
  destruct (has_dims (ndims a) (dims a)) eqn:Hg.
  - pose proof (proj1 (has_dims_true _ _) Hg) as [Hpos Hnn].
    destruct (dims a) as [qa|] eqn:Hqa; [|contradiction].
    unfold dims_ok in Hok. rewrite Hqa in Hok. destruct Hok as (cells & Hc & Hl).
    assert (Hr : readable m (Some qa) (ndims a)).
    { exists cells. split; [exact Hc|lia]. }
    destruct (malloc_memcpy_prefix m (Some qa) (ndims a) Hr) as [Hfresh Hcp].
    destruct (malloc (ndims a) m) as [p m1'] eqn:Hm. simpl in Hfresh, Hcp.
    rewrite Hcp. simpl. rewrite Hc in *. simpl in *.
    rewrite firstn_all2 by lia.
    set (m1 := mkMemory (<[p := cells]> (bufs m)) (descs m)).
    assert (Hal1 : allocated m1 (dims b)).
    { unfold allocated in *. destruct (dims b) as [qb|]; [|exact I].
      simpl. rewrite dom_insert. apply elem_of_union. right. exact Hal. }
    assert (Hr1 : 0 < ndims a -> Some p <> None -> readable m1 (Some p) (ndims a)).
    { intros _ _. exists cells. split; [apply lookup_insert_eq|lia]. }
    destruct (setHL_NodeDimensions_reads m1 b (ndims a) (Some p) Hal1 Hr1)
      as (b' & m2 & Hset & _ & _ & _ & _ & _ & Hread & _).
    exists (ndims a), (Some p), m1, b', m2.
    split; [reflexivity|]. split; [reflexivity|].
    split; [intros q [= <-]; exact Hfresh|].
    split.
    { intros q cs Hq. simpl. rewrite lookup_insert_ne; [exact Hq|].
      intros <-. apply Hfresh. apply elem_of_dom. eauto. }
    split; [simpl; rewrite lookup_insert_eq; reflexivity|].
    split; [exact Hset|].
    intros i. rewrite Hread.
    rewrite (getHL_NodeDimension_cells m a qa cells i Hqa Hc Hl).
    rewrite (bool_decide_eq_true_2 (Some p <> None)) by discriminate.
    rewrite andb_true_r. simpl. rewrite lookup_insert_eq. reflexivity.
  - assert (Hno : ~ (0 < ndims a /\ dims a <> None)).
    { intros H. apply has_dims_true in H. congruence. }
    assert (Hr1 : 0 < 0 -> @None loc <> None -> readable m None 0) by (intros; lia).
    destruct (setHL_NodeDimensions_reads m b 0 None Hal Hr1)
      as (b' & m2 & Hset & _ & _ & _ & _ & _ & Hread & _).
    exists 0, None, m, b', m2.
    split; [reflexivity|]. split; [reflexivity|]. split; [discriminate|].
    split; [auto|]. split; [reflexivity|]. split; [exact Hset|].
    intros i. rewrite Hread.
    rewrite (bool_decide_eq_false_2 (@None loc <> None)) by (intros H; apply H; reflexivity).
    rewrite andb_false_r.
    unfold getHL_NodeDimension.
    destruct (i <? 0) eqn:E1; [reflexivity|]. simpl.
    destruct (i >=? ndims a) eqn:E2; [reflexivity|]. simpl.
    destruct (dims a) as [qa|] eqn:Hqa.
    + exfalso. apply Hno. rewrite Z.geb_leb in E2. apply Z.leb_gt in E2.
      apply Z.ltb_ge in E1. split; [lia|discriminate].
    + reflexivity.
Qed.

Lemma getHL_NodeDimensions_round_trip_witness :
  dims_ok Sample.a_memory (Sample.a_dataset "/d") /\
  allocated Sample.a_memory (dims (Sample.node_of DATASET_ID "/e" NMARK_CREATED)) /\
  exists n p m1 b' m2,
    getHL_NodeDimensions (Sample.a_dataset "/d") true true Sample.a_memory
    = Some (Some (n, p), m1) /\
    setHL_NodeDimensions (Sample.node_of DATASET_ID "/e" NMARK_CREATED) n p m1
    = Some (1, b', m2) /\
    getHL_NodeDimension m2 b' 1 = Some 3.
Proof.
  assert (Hok : dims_ok Sample.a_memory (Sample.a_dataset "/d")).
  { exists [2; 3]. split; reflexivity. }
  split; [exact Hok|]. split; [exact I|].
  destruct (getHL_NodeDimensions_round_trip Sample.a_memory
              (Sample.a_dataset "/d")
              (Sample.node_of DATASET_ID "/e" NMARK_CREATED) Hok I)
    as (n & p & m1 & b' & m2 & Hg & _ & _ & _ & _ & Hs & Hread).
  exists n, p, m1, b', m2. split; [exact Hg|]. split; [exact Hs|].
  rewrite (Hread 1). reflexivity.
Defined.

(** ** Values *)

Lemma touch_mark n : mark (touch n) = touched (mark n).
Proof.
  unfold touch, touched. destruct (mark n) eqn:Hm;
    repeat first [rewrite bool_decide_eq_true_2 by congruence
                 |rewrite bool_decide_eq_false_2 by congruence]; simpl; auto.
Qed.

Section Values.
Context {E : H5Engine} {N : H5NodeOps E}.

Lemma h5x_mem f w : mem (snd (h5x f w)) = mem w.
Proof. unfold h5x. destruct (f (h5st w)). reflexivity. Qed.

Lemma h5_mem c (w : World) : mem (snd (h5 c w)) = mem w.
Proof. apply (engine_only_h5 c w). Qed.

Lemma HL_H5_CLOSE_mem close x (w : World) : mem (snd (HL_H5_CLOSE close x w)) = mem w.
Proof. apply (engine_only_close close x w). Qed.

Lemma value_type_mem fmt format sz typid (w : World) :
  mem (snd (value_type fmt format sz typid w)) = mem w.
Proof.
  unfold value_type, HLNode_createStringType, bind, ret.
  destruct (_ && _).
  { pose proof (h5_mem (H5Tcopy H5T_C_S1) w) as H1.
    destruct (h5 (H5Tcopy H5T_C_S1) w) as [t w1]. simpl in H1.
    pose proof (h5x_mem (H5Tset_size t sz) w1) as H2.
    destruct (h5x (H5Tset_size t sz) w1) as [r w2]. simpl in H2.
    destruct (t <? 0); simpl; congruence. }
  destruct (_ && _); [reflexivity|].
  destruct (typid <? 0).
  - pose proof (h5x_mem (HL_translateFormatStringToDatatype fmt) w) as H1.
    destruct (h5x _ w) as [t w1]. exact H1.
  - pose proof (h5_mem (H5Tcopy typid) w) as H1.
    destruct (h5 _ w) as [t w1]. exact H1.
Qed.

Lemma free_fresh_block m d v :
  d ∉ dom (bufs m) ->
  HLHDF_FREE (Some d) (mkMemory (<[d := v]> (bufs m)) (descs m)) = m.
Proof.
  intros Hd. simpl. rewrite delete_insert_id by (apply not_elem_of_dom; exact Hd).
  destruct m; reflexivity.
Qed.

(** X13. [setHL_NodeScalarValue], for a value buffer of at least [sz]
    bytes and a node whose data is [NULL] or in use. The call returns 0
    or 1. When it returns 0 the node is as it was and so is the heap (the
    copy it had made is released). When it returns 1 the format is the
    one named by [fmt], which is neither undefined nor array; the node
    owns a copy of the first [sz] bytes of the value in a block that was
    not in use; [dSize] is [sz] and the data type is simple; a Created
    node stays Created and every other mark becomes Changed; the previous
    data block is freed and every other block is untouched; and only
    [data], [format], [dSize], [typeId], [dataType] and [mark] are
    written: the rank and the dimensions stay as they were. *)
Theorem setHL_NodeScalarValue_effect (node : HL_Node) (sz : Z) (value : cptr)
    (fmt : string) (typid : hid_t) (w : World) :
  readable (mem w) value sz ->
  allocated (mem w) (data node) ->
  exists st node' w',
    setHL_NodeScalarValue node sz value fmt typid w = Some (st, node', w') /\
    ((st = 0 /\ node' = node /\ mem w' = mem w) \/
     (st = 1 /\
      value_fields node node' = node /\
      format node' = HL_getFormatSpecifier fmt /\
      format node' <> HLHDF_UNDEFINED /\ format node' <> HLHDF_ARRAY /\
      dSize node' = sz /\ dataType node' = HL_SIMPLE /\
      mark node' = touched (mark node) /\
      descs (mem w') = descs (mem w) /\
      exists d,
        data node' = Some d /\ (d ∉ dom (bufs (mem w))) /\
        bufs (mem w') !! d = Some (take (Z.to_nat sz) (contents (mem w) value)) /\
        (forall p, p <> d -> data node <> Some p ->
                   bufs (mem w') !! p = bufs (mem w) !! p) /\
        (forall p, data node = Some p -> bufs (mem w') !! p = None))).
Proof.
  intros Hr Hal. unfold setHL_NodeScalarValue.
  destruct (bool_decide (HL_getFormatSpecifier fmt = HLHDF_UNDEFINED)) eqn:Hu.
  { simpl. eexists _, _, _. split; [reflexivity|]. left. auto. }
  destruct (bool_decide (HL_getFormatSpecifier fmt = HLHDF_ARRAY)) eqn:Ha.
  { simpl. eexists _, _, _. split; [reflexivity|]. left. auto. }
  apply bool_decide_eq_false in Hu. apply bool_decide_eq_false in Ha.
  cbv [orb].
  destruct (malloc_memcpy_prefix (mem w) value sz Hr) as [Hfresh Hcp].
  destruct (malloc sz (mem w)) as [d m0] eqn:Hm. simpl in Hfresh, Hcp.
  rewrite Hcp. simpl option_bind. cbv beta iota.
  set (m1 := mkMemory (<[d := take (Z.to_nat sz) (contents (mem w) value)]>
                         (bufs (mem w))) (descs (mem w))).
  change (mbind _ (Some m1)) with
    (let '(t, w1) := value_type fmt (HL_getFormatSpecifier fmt) sz typid (with_mem m1 w) in
     match t with
     | None => Some (0, node, with_mem (HLHDF_FREE (Some d) (mem w1)) w1)
     | Some tmptypeid =>
       let m := HLHDF_FREE (data node) (mem w1) in
       let '(_, w2) := HL_H5T_CLOSE (typeId node) (with_mem m w1) in
       Some (1, touch (set_dataType HL_SIMPLE (set_typeId tmptypeid
                  (set_dSize sz (set_format (HL_getFormatSpecifier fmt)
                     (set_data (Some d) node))))), w2)
     end).
  pose proof (value_type_mem fmt (HL_getFormatSpecifier fmt) sz typid (with_mem m1 w)) as Hvm.
  destruct (value_type fmt (HL_getFormatSpecifier fmt) sz typid (with_mem m1 w))
    as [t w1]. simpl in Hvm.
  destruct t as [tmptypeid|].
  - cbv zeta.
    pose proof (HL_H5_CLOSE_mem H5Tclose (typeId node)
                  (with_mem (HLHDF_FREE (data node) (mem w1)) w1)) as Hcm.
    unfold HL_H5T_CLOSE.
    destruct (HL_H5_CLOSE H5Tclose (typeId node) _) as [u w2]. simpl in Hcm.
    eexists _, _, _. split; [reflexivity|]. right.
    split; [reflexivity|].
    split; [unfold value_fields, touch; destruct (bool_decide _);
            destruct node; reflexivity|].
    assert (Hfmt : forall n, format (touch n) = format n)
      by (intros n; unfold touch; destruct (bool_decide _); reflexivity).
    assert (HdS : forall n, dSize (touch n) = dSize n)
      by (intros n; unfold touch; destruct (bool_decide _); reflexivity).
    assert (HdT : forall n, dataType (touch n) = dataType n)
      by (intros n; unfold touch; destruct (bool_decide _); reflexivity).
    assert (Hda : forall n, data (touch n) = data n)
      by (intros n; unfold touch; destruct (bool_decide _); reflexivity).
    rewrite Hfmt, HdS, HdT, touch_mark, Hcm, Hvm. simpl.
    split; [reflexivity|]. split; [exact Hu|]. split; [exact Ha|].
    split; [reflexivity|]. split; [reflexivity|]. split; [reflexivity|].
    destruct (HLHDF_FREE_freed (data node) m1) as (Hk & Hf & Hd).
    split; [exact Hd|].
    exists d. rewrite Hda. simpl. split; [reflexivity|]. split; [exact Hfresh|].
    assert (Hne : data node <> Some d).
    { intros Hx. unfold allocated in Hal. rewrite Hx in Hal. contradiction. }
    split; [rewrite (Hk d Hne); apply lookup_insert_eq|].
    split; [|exact Hf].
    intros p Hp Hp'. rewrite (Hk p Hp'). simpl. apply lookup_insert_ne. congruence.
  - eexists _, _, _. split; [reflexivity|]. left.
    split; [reflexivity|]. split; [reflexivity|].
    simpl. rewrite Hvm. unfold m1. apply free_fresh_block. exact Hfresh.
Qed.


End Values.

Lemma setHL_NodeScalarValue_effect_witness :
  readable Sample.a_memory (Some 2%positive) 4 /\
  allocated Sample.a_memory (data (Sample.node_of ATTRIBUTE_ID "/a" NMARK_ORIGINAL)) /\
  exists st node' w',
    setHL_NodeScalarValue (Sample.node_of ATTRIBUTE_ID "/a" NMARK_ORIGINAL) 4
      (Some 2%positive) "int" (-1)
      (@mkWorld MiniH5.engine Sample.a_memory MiniH5.empty [])
    = Some (st, node', w').
Proof.
  assert (Hr : readable Sample.a_memory (Some 2%positive) 4).
  { exists [10; 11; 12; 13; 14; 15]. split; [reflexivity|simpl; lia]. }
  split; [exact Hr|]. split; [exact I|].
  destruct (setHL_NodeScalarValue_effect
              (Sample.node_of ATTRIBUTE_ID "/a" NMARK_ORIGINAL) 4
              (Some 2%positive) "int" (-1)
              (@mkWorld MiniH5.engine Sample.a_memory MiniH5.empty []) Hr I)
    as (st & node' & w' & Hs & _).
  exists st, node', w'. exact Hs.
Defined.


(** ** Release *)

Section Lifetime.
Context {E : H5Engine} {N : H5NodeOps E}.

Lemma HL_H5_CLOSE_calls close x (w : World) :
  calls (snd (HL_H5_CLOSE close x w)) = calls w ++ closing close x /\
  mem (snd (HL_H5_CLOSE close x w)) = mem w.
Proof.
  unfold HL_H5_CLOSE, closing, bind, ret, h5.
  destruct (0 <=? x).
  - destruct (h5answer (close x) (h5st w)). simpl. auto.
  - simpl. rewrite app_nil_r. auto.
Qed.






(** X16. [HLNodePrivate_setTypeIdAndDeriveFormat] changes the node only
    when it succeeds, and it fails exactly when the copy of the type
    failed or the format derived from the type is undefined. In that case
    it returns 0 with the node as it was, having closed the copy when it
    was valid. In every other case it returns 1, the node holds the copy,
    which is valid, and the derived format, which is not undefined, its
    previous type handle has been closed when it was valid, and no other
    field is changed. The heap is as before in both cases. *)
Theorem HLNodePrivate_setTypeIdAndDeriveFormat_atomic (node : HL_Node)
    (t : hid_t) (w : World) :
  let r := HLNodePrivate_setTypeIdAndDeriveFormat node t w in
  let tcopy := fst (h5answer (H5Tcopy t) (h5st w)) in
  let fmt := HL_getFormatSpecifierFromType t
               (snd (h5answer (H5Tcopy t) (h5st w))) in
  mem (snd r) = mem w /\
  if (tcopy <? 0) || bool_decide (fmt = HLHDF_UNDEFINED)
  then
    fst (fst r) = 0 /\ snd (fst r) = node /\
    calls (snd r) = calls w ++ [H5Tcopy t] ++ closing H5Tclose tcopy
  else
    fst (fst r) = 1 /\
    0 <= typeId (snd (fst r)) /\ typeId (snd (fst r)) = tcopy /\
    format (snd (fst r)) = fmt /\ fmt <> HLHDF_UNDEFINED /\
    set_format (format node) (set_typeId (typeId node) (snd (fst r))) = node /\
    calls (snd r) = calls w ++ [H5Tcopy t] ++ closing H5Tclose (typeId node).
Proof.
  cbv zeta.
  remember (HLNodePrivate_setTypeIdAndDeriveFormat node t w) as r eqn:Hr.
  unfold HLNodePrivate_setTypeIdAndDeriveFormat, bind, ret in Hr.
  unfold h5 at 1 in Hr.
  destruct (h5answer (H5Tcopy t) (h5st w)) as [tcopy s1]. simpl fst. simpl snd.
  set (w1 := mkWorld (mem w) s1 (calls w ++ [H5Tcopy t])) in *.
  simpl h5st in Hr.
  destruct (tcopy <? 0) eqn:Et; simpl orb in Hr; simpl orb.
  - unfold HL_H5T_CLOSE in Hr.
    destruct (HL_H5_CLOSE_calls H5Tclose tcopy w1) as [Hc Hm].
    destruct (HL_H5_CLOSE H5Tclose tcopy w1) as [[] w2]. subst r. simpl in *.
    split; [exact Hm|]. split; [reflexivity|]. split; [reflexivity|].
    rewrite Hc. rewrite <- List.app_assoc. reflexivity.
  - destruct (bool_decide (HL_getFormatSpecifierFromType t s1 = HLHDF_UNDEFINED)) eqn:Ef.
    + unfold HL_H5T_CLOSE in Hr.
      destruct (HL_H5_CLOSE_calls H5Tclose tcopy w1) as [Hc Hm].
      destruct (HL_H5_CLOSE H5Tclose tcopy w1) as [[] w2]. subst r. simpl in *.
      split; [exact Hm|]. split; [reflexivity|]. split; [reflexivity|].
      rewrite Hc. rewrite <- List.app_assoc. reflexivity.
    + unfold HL_H5T_CLOSE in Hr.
      destruct (HL_H5_CLOSE_calls H5Tclose (typeId node) w1) as [Hc Hm].
      destruct (HL_H5_CLOSE H5Tclose (typeId node) w1) as [[] w2]. subst r. simpl in *.
      split; [exact Hm|]. split; [reflexivity|].
      apply Z.ltb_ge in Et. apply bool_decide_eq_false in Ef.
      split; [exact Et|]. split; [reflexivity|]. split; [reflexivity|].
      split; [exact Ef|]. split; [destruct node; reflexivity|].
      rewrite Hc. rewrite <- List.app_assoc. reflexivity.
Qed.

(** X17. Every constructor ([newHL_Node], [newHL_Group],
    [newHL_Attribute], [newHL_Dataset], [newHL_Datatype],
    [newHL_Reference]) refuses a [NULL] name, and for a name returns a
    node with that name that is marked Created, satisfies the invariants
    of the data model in every heap, has one point, and that
    [freeHL_Node] releases without a call to the engine and without a
    change to the heap. *)
Theorem new_node_then_free (nm : string) (w : World) :
  Forall (fun new : option string -> option HL_Node =>
            new None = None /\
            exists n,
              new (Some nm) = Some n /\
              name n = nm /\ mark n = NMARK_CREATED /\
              node_ok (mem w) n /\
              getHL_NodeNumberOfPoints (mem w) n = Some 1 /\
              freeHL_Node (Some n) w = w)
    constructors.
Proof.
  assert (Hw : with_mem (mem w) w = w) by (destruct w; reflexivity).
  apply Forall_forall. intros new Hin. unfold constructors in Hin.
  rewrite !elem_of_cons, elem_of_nil in Hin.
  destruct Hin as [->|[->|[->|[->|[->|[->|[]]]]]]];
    (split; [reflexivity|]);
    (eexists; split; [reflexivity|]);
    (split; [reflexivity|]); (split; [reflexivity|]);
    (split; [|split; [reflexivity|]]);
    try (split; [exact I|]; split; [|exact I];
         intros npts [= <-]; simpl;
         split; [lia|]; split; [reflexivity|]; intros H; contradiction);
    try (unfold freeHL_Node; simpl; exact Hw).
Qed.

End Lifetime.

